(** * Store monitoring: heartbeat ingestion, liveness sweep, alert dispatch
      and the client-side heartbeat buffer.

    Shallow embedding of [src/server.js] (class [CentralizedMonitoringServer]
    and the two ingestion routes) and of the heartbeat client
    (class [StoreHeartbeatClient]).

    Conventions
    - Instants ([Date] objects, [Date.now()]) are milliseconds in [Z].
      [a - b] on two dates is their difference in milliseconds.
    - The source compares [(a - b) / (1000 * 60)] with a whole number of
      minutes [m]; on integers that is the comparison of [a - b] with
      [m * 60000], which is how it is written here.
    - A handler runs to completion on one clock reading, without another
      handler running in between: every [new Date()] it evaluates returns
      the [clock] of the state it runs in.
    - Every call into the database driver consults [db_ok] at the running
      call counter [db_ops]; [false] stands for the driver throwing.
    - Message texts, e-mail subjects and bodies and console lines are
      presentation and are left out; an alert keeps its store, kind,
      severity and time. *)

From Stdlib Require Import ZArith List Bool Lia Sorting.Sorted Sorting.Permutation.
From stdpp Require Import base option list gmap strings.

Local Open Scope Z_scope.

(** ** JavaScript odds and ends *)

(** A value used as a store id: [None] is [undefined]. *)
Abbreviation Key := (option string).

(** [a || b] on a possibly missing string: the empty string is falsy. *)
Definition js_or (a : option string) (b : string) : string :=
  match a with
  | Some s => if decide (s = String.EmptyString) then b else s
  | None => b
  end.

(** Interpolation of a store id in a template literal. *)
Definition show_key (k : Key) : string :=
  match k with Some s => s | None => "undefined"%string end.

(** Truthiness of a possibly missing string field. *)
Definition truthy (a : option string) : bool :=
  match a with
  | Some s => if decide (s = String.EmptyString) then false else true
  | None => false
  end.

(** A JS [Map] keeps insertion order; [set] on a present key overwrites the
    value where it stands. *)
Section JsMap.
Context {V : Type}.

Fixpoint Map_get (k : Key) (m : list (Key * V)) : option V :=
  match m with
  | [] => None
  | (k', v) :: r => if decide (k = k') then Some v else Map_get k r
  end.

Definition Map_has (k : Key) (m : list (Key * V)) : bool :=
  match Map_get k m with Some _ => true | None => false end.

Fixpoint Map_set (k : Key) (v : V) (m : list (Key * V)) : list (Key * V) :=
  match m with
  | [] => [(k, v)]
  | (k', v') :: r =>
      if decide (k = k') then (k, v) :: r else (k', v') :: Map_set k v r
  end.

Definition Map_keys (m : list (Key * V)) : list Key := map fst m.
End JsMap.

Module Server.

(** ** Data *)

Inductive Status := St_online | St_offline | St_unknown.

Inductive AlertType := A_startup | A_recovery | A_offline.

(** [alerts.alert_type] as the schema declares it. *)
Inductive DbAlertType := Db_offline | Db_system_warning | Db_camera_failure | Db_test.

Inductive Severity := low | medium | high | critical.

#[global] Instance Status_eq_dec : EqDecision Status.
Proof. solve_decision. Defined.
#[global] Instance AlertType_eq_dec : EqDecision AlertType.
Proof. solve_decision. Defined.
#[global] Instance Severity_eq_dec : EqDecision Severity.
Proof. solve_decision. Defined.

(** The telemetry the persistence binds to its statements.  A field is
    [None] when it is [undefined] (missing from the body) and holds the
    text of its value otherwise, [null] included. *)
Record SystemStats := {
  cpu_usage_percent : option string;
  memory_usage_percent : option string;
  memory_available_gb : option string;
  disk_free_gb : option string;
  disk_usage_percent : option string;
  process_memory_mb : option string;
  uptime_hours : option string;
  network_connected : option string
}.

Record CameraStatus := {
  active_cameras : option string;
  total_cameras : option string
}.

(** The request body of the ingestion routes, after [express.json()]: any of
    the fields the server reads may be missing.  [hb_is_startup] is the value
    of [heartbeatData.is_startup === true]; [hb_system_stats] and
    [hb_camera_status] are [None] when the object is missing or [null]. *)
Record Heartbeat := {
  hb_store_id : Key;
  hb_store_name : option string;
  hb_timezone : option string;
  hb_is_startup : bool;
  hb_system_stats : option SystemStats;
  hb_camera_status : option CameraStatus
}.

(** An entry of [allStores] ([config] repeats name and location, [metrics]
    is a projection of [data]; both are left out). *)
Record StoreState := {
  store_id : Key;
  store_name : string;
  location : string;
  status : Status;
  last_heartbeat : option Z;
  last_seen : option Z;
  data : option Heartbeat;
  updated_at : Z;
  first_seen : Z
}.

Definition with_status (st : StoreState) (x : Status) : StoreState :=
  {| store_id := store_id st; store_name := store_name st;
     location := location st; status := x;
     last_heartbeat := last_heartbeat st; last_seen := last_seen st;
     data := data st; updated_at := updated_at st;
     first_seen := first_seen st |}.

(** Rows of the persistent tables. *)
Record StoreRow := {
  row_store_id : string;
  row_store_name : option string;
  row_last_heartbeat : option Z;
  row_status : Status;
  row_created_at : Z;
  row_updated_at : Z
}.

(** [hh_columns] and [ss_columns] are the telemetry columns, in the order
    of their statements. *)
Record HistoryRow := {
  hh_store_id : string;
  hh_timestamp : Z;
  hh_columns : list string;
  hh_payload : Heartbeat
}.

Record StatsRow := {
  ss_store_id : string;
  ss_timestamp : Z;
  ss_columns : list string
}.

Record AlertRow := {
  al_store_id : string;
  al_type : DbAlertType;
  al_severity : Severity;
  al_timestamp : Z
}.

Record Database := {
  stores_tbl : list StoreRow;
  heartbeat_history : list HistoryRow;
  system_stats : list StatsRow;
  alerts_tbl : list AlertRow
}.

(** A message handed to [transporter.sendMail] through [setImmediate]. *)
Record Email := {
  em_to : list string;
  em_store : Key;
  em_type : AlertType;
  em_severity : Severity
}.

(** One call of [sendAlert]. *)
Record AlertCall := {
  ac_store : Key;
  ac_type : AlertType;
  ac_severity : Severity;
  ac_time : Z
}.

(** The server object together with its surroundings: the clock, the
    database, the mail queue and the trace of [sendAlert] calls. *)
Record State := {
  clock : Z;
  alertThresholdMinutes : Z;
  offlineAlertCooldownMinutes : Z;
  allStores : list (Key * StoreState);
  storeEmailConfig : gmap string (list string);
  lastOfflineAlerts : gmap Key Z;
  lastRecoveryAlerts : gmap Key Z;
  lastStartupAlerts : gmap Key Z;
  emailEnabled : bool;
  db : Database;
  db_ok : nat -> bool;
  db_ops : nat;
  outbox : list Email;
  alert_calls : list AlertCall
}.

(** ** Field updates *)

Definition set_allStores (f : list (Key * StoreState) -> list (Key * StoreState))
    (s : State) : State :=
  {| clock := clock s; alertThresholdMinutes := alertThresholdMinutes s;
     offlineAlertCooldownMinutes := offlineAlertCooldownMinutes s;
     allStores := f (allStores s); storeEmailConfig := storeEmailConfig s;
     lastOfflineAlerts := lastOfflineAlerts s;
     lastRecoveryAlerts := lastRecoveryAlerts s;
     lastStartupAlerts := lastStartupAlerts s; emailEnabled := emailEnabled s;
     db := db s; db_ok := db_ok s; db_ops := db_ops s; outbox := outbox s;
     alert_calls := alert_calls s |}.

Definition set_lastOfflineAlerts (f : gmap Key Z -> gmap Key Z) (s : State) : State :=
  {| clock := clock s; alertThresholdMinutes := alertThresholdMinutes s;
     offlineAlertCooldownMinutes := offlineAlertCooldownMinutes s;
     allStores := allStores s; storeEmailConfig := storeEmailConfig s;
     lastOfflineAlerts := f (lastOfflineAlerts s);
     lastRecoveryAlerts := lastRecoveryAlerts s;
     lastStartupAlerts := lastStartupAlerts s; emailEnabled := emailEnabled s;
     db := db s; db_ok := db_ok s; db_ops := db_ops s; outbox := outbox s;
     alert_calls := alert_calls s |}.

Definition set_lastRecoveryAlerts (f : gmap Key Z -> gmap Key Z) (s : State) : State :=
  {| clock := clock s; alertThresholdMinutes := alertThresholdMinutes s;
     offlineAlertCooldownMinutes := offlineAlertCooldownMinutes s;
     allStores := allStores s; storeEmailConfig := storeEmailConfig s;
     lastOfflineAlerts := lastOfflineAlerts s;
     lastRecoveryAlerts := f (lastRecoveryAlerts s);
     lastStartupAlerts := lastStartupAlerts s; emailEnabled := emailEnabled s;
     db := db s; db_ok := db_ok s; db_ops := db_ops s; outbox := outbox s;
     alert_calls := alert_calls s |}.

Definition set_lastStartupAlerts (f : gmap Key Z -> gmap Key Z) (s : State) : State :=
  {| clock := clock s; alertThresholdMinutes := alertThresholdMinutes s;
     offlineAlertCooldownMinutes := offlineAlertCooldownMinutes s;
     allStores := allStores s; storeEmailConfig := storeEmailConfig s;
     lastOfflineAlerts := lastOfflineAlerts s;
     lastRecoveryAlerts := lastRecoveryAlerts s;
     lastStartupAlerts := f (lastStartupAlerts s); emailEnabled := emailEnabled s;
     db := db s; db_ok := db_ok s; db_ops := db_ops s; outbox := outbox s;
     alert_calls := alert_calls s |}.

Definition set_db (f : Database -> Database) (s : State) : State :=
  {| clock := clock s; alertThresholdMinutes := alertThresholdMinutes s;
     offlineAlertCooldownMinutes := offlineAlertCooldownMinutes s;
     allStores := allStores s; storeEmailConfig := storeEmailConfig s;
     lastOfflineAlerts := lastOfflineAlerts s;
     lastRecoveryAlerts := lastRecoveryAlerts s;
     lastStartupAlerts := lastStartupAlerts s; emailEnabled := emailEnabled s;
     db := f (db s); db_ok := db_ok s; db_ops := db_ops s; outbox := outbox s;
     alert_calls := alert_calls s |}.

Definition set_db_ops (f : nat -> nat) (s : State) : State :=
  {| clock := clock s; alertThresholdMinutes := alertThresholdMinutes s;
     offlineAlertCooldownMinutes := offlineAlertCooldownMinutes s;
     allStores := allStores s; storeEmailConfig := storeEmailConfig s;
     lastOfflineAlerts := lastOfflineAlerts s;
     lastRecoveryAlerts := lastRecoveryAlerts s;
     lastStartupAlerts := lastStartupAlerts s; emailEnabled := emailEnabled s;
     db := db s; db_ok := db_ok s; db_ops := f (db_ops s); outbox := outbox s;
     alert_calls := alert_calls s |}.

Definition set_outbox (f : list Email -> list Email) (s : State) : State :=
  {| clock := clock s; alertThresholdMinutes := alertThresholdMinutes s;
     offlineAlertCooldownMinutes := offlineAlertCooldownMinutes s;
     allStores := allStores s; storeEmailConfig := storeEmailConfig s;
     lastOfflineAlerts := lastOfflineAlerts s;
     lastRecoveryAlerts := lastRecoveryAlerts s;
     lastStartupAlerts := lastStartupAlerts s; emailEnabled := emailEnabled s;
     db := db s; db_ok := db_ok s; db_ops := db_ops s; outbox := f (outbox s);
     alert_calls := alert_calls s |}.

Definition set_alert_calls (f : list AlertCall -> list AlertCall) (s : State) : State :=
  {| clock := clock s; alertThresholdMinutes := alertThresholdMinutes s;
     offlineAlertCooldownMinutes := offlineAlertCooldownMinutes s;
     allStores := allStores s; storeEmailConfig := storeEmailConfig s;
     lastOfflineAlerts := lastOfflineAlerts s;
     lastRecoveryAlerts := lastRecoveryAlerts s;
     lastStartupAlerts := lastStartupAlerts s; emailEnabled := emailEnabled s;
     db := db s; db_ok := db_ok s; db_ops := db_ops s; outbox := outbox s;
     alert_calls := f (alert_calls s) |}.

Definition set_clock (t : Z) (s : State) : State :=
  {| clock := t; alertThresholdMinutes := alertThresholdMinutes s;
     offlineAlertCooldownMinutes := offlineAlertCooldownMinutes s;
     allStores := allStores s; storeEmailConfig := storeEmailConfig s;
     lastOfflineAlerts := lastOfflineAlerts s;
     lastRecoveryAlerts := lastRecoveryAlerts s;
     lastStartupAlerts := lastStartupAlerts s; emailEnabled := emailEnabled s;
     db := db s; db_ok := db_ok s; db_ops := db_ops s; outbox := outbox s;
     alert_calls := alert_calls s |}.

(** ** The state monad of the handlers *)

Definition M (A : Type) : Type := State -> A * State.

Definition ret {A} (a : A) : M A := fun s => (a, s).

Definition bind {A B} (m : M A) (k : A -> M B) : M B :=
  fun s => let (a, s') := m s in k a s'.

Definition gets {A} (f : State -> A) : M A := fun s => (f s, s).

Definition modify (f : State -> State) : M unit := fun s => (tt, f s).

Notation "'let*' x ':=' c1 'in' c2" := (bind c1 (fun x => c2))
  (at level 10, x name, c1 at level 100, c2 at level 200).
Notation "c1 ;; c2" := (bind c1 (fun _ => c2))
  (at level 100, c2 at level 200, right associativity).

(** [new Date()]. *)
Definition new_Date : M Z := gets clock.

(** One call into the driver: [true] when it returns, [false] when it
    throws. *)
Definition db_call : M bool :=
  fun s => (db_ok s (db_ops s), set_db_ops S s).

(** [execute] with a bind parameter taken from a store id: the driver
    refuses [undefined] before reaching the database. *)
Definition db_execute (storeId : Key) : M (option string) :=
  match storeId with
  | None => ret None
  | Some id => let* ok := db_call in ret (if ok then Some id else None)
  end.

(** [execute] with further bind parameters, each [None] when it is
    [undefined]: the driver refuses a list that holds [undefined] before
    reaching the database, [null] is accepted. *)
Definition all_defined (params : list (option string)) : bool :=
  forallb (fun p => match p with Some _ => true | None => false end) params.

#[global] Arguments all_defined : simpl never.

Definition db_execute_params (params : list (option string)) : M bool :=
  if all_defined params then db_call else ret false.

(** ** Recipients and alert dispatch *)

(** [getEmailRecipients]: the store's own list when it is not empty, the
    list under ["default"] otherwise. *)
Definition getEmailRecipients (cfg : gmap string (list string)) (storeId : Key)
    : list string :=
  let storeEmails := default [] (storeId ≫= (fun id => cfg !! id)) in
  let defaultEmails := default [] (cfg !! "default"%string) in
  if (0 <? length storeEmails)%nat then storeEmails else defaultEmails.

(** [alertTypeMapping[alertType] || "offline"]. *)
Definition alertTypeMapping (t : AlertType) : DbAlertType :=
  match t with
  | A_startup => Db_test
  | A_recovery => Db_test
  | A_offline => Db_offline
  end.

(** [sendAlert].  The insert comes first; when it throws, the handler of the
    enclosing [try] logs and nothing more happens.  Then the two early
    returns: mail disabled, no recipients. *)
Definition sendAlert (storeId : Key) (alertType : AlertType) (severity : Severity)
    : M unit :=
  let* now := new_Date in
  modify (set_alert_calls (fun l => l ++
    [{| ac_store := storeId; ac_type := alertType; ac_severity := severity;
        ac_time := now |}])) ;;
  let dbAlertType := alertTypeMapping alertType in
  let* inserted := db_execute storeId in
  match inserted with
  | None => ret tt
  | Some id =>
      modify (set_db (fun d =>
        {| stores_tbl := stores_tbl d;
           heartbeat_history := heartbeat_history d;
           system_stats := system_stats d;
           alerts_tbl := alerts_tbl d ++
             [{| al_store_id := id; al_type := dbAlertType;
                 al_severity := severity; al_timestamp := now |}] |})) ;;
      let* enabled := gets emailEnabled in
      if negb enabled then ret tt
      else
        let* recipients := gets (fun s => getEmailRecipients (storeEmailConfig s) storeId) in
        if (length recipients =? 0)%nat then ret tt
        else
          modify (set_outbox (fun o => o ++
            [{| em_to := recipients; em_store := storeId;
                em_type := alertType; em_severity := severity |}]))
  end.

(** ** Persistence of a heartbeat *)

(** [INSERT INTO stores ... ON DUPLICATE KEY UPDATE ...]. *)
Fixpoint upsert_store (id : string) (name : string) (ts : Z) (rows : list StoreRow)
    : list StoreRow :=
  match rows with
  | [] => [{| row_store_id := id; row_store_name := Some name;
              row_last_heartbeat := Some ts; row_status := St_online;
              row_created_at := ts; row_updated_at := ts |}]
  | r :: rest =>
      if decide (row_store_id r = id)
      then {| row_store_id := id; row_store_name := Some name;
              row_last_heartbeat := Some ts; row_status := St_online;
              row_created_at := row_created_at r; row_updated_at := ts |} :: rest
      else r :: upsert_store id name ts rest
  end.

(** [heartbeatData.system_stats?.f] and [heartbeatData.camera_status?.f]:
    [undefined] when the object or the field is missing. *)
Definition stat (hb : Heartbeat) (f : SystemStats -> option string) : option string :=
  hb_system_stats hb ≫= f.

Definition cam (hb : Heartbeat) (f : CameraStatus -> option string) : option string :=
  hb_camera_status hb ≫= f.

(** The telemetry parameters of [INSERT INTO heartbeat_history] and of
    [INSERT INTO system_stats], in the order they are bound.  The other
    parameters of the two statements (the store id, the instant and the
    serialised payload) are defined where the statements are reached. *)
Definition history_params (hb : Heartbeat) : list (option string) :=
  [stat hb cpu_usage_percent; stat hb memory_usage_percent; stat hb disk_free_gb;
   cam hb active_cameras; cam hb total_cameras; stat hb network_connected].

Definition stats_params (hb : Heartbeat) : list (option string) :=
  [stat hb cpu_usage_percent; stat hb memory_usage_percent;
   stat hb memory_available_gb; stat hb disk_free_gb; stat hb disk_usage_percent;
   stat hb process_memory_mb; stat hb uptime_hours; stat hb network_connected].

(** The three statements of the transaction, applied at commit; the
    telemetry parameters are all defined when the commit is reached. *)
Definition commit_heartbeat (id : string) (hb : Heartbeat) (ts : Z) (d : Database)
    : Database :=
  {| stores_tbl :=
       upsert_store id (js_or (hb_store_name hb) ("Store " ++ id)) ts (stores_tbl d);
     heartbeat_history := heartbeat_history d ++
       [{| hh_store_id := id; hh_timestamp := ts;
           hh_columns := omap (fun p => p) (history_params hb); hh_payload := hb |}];
     system_stats := system_stats d ++
       [{| ss_store_id := id; ss_timestamp := ts;
           ss_columns := omap (fun p => p) (stats_params hb) |}];
     alerts_tbl := alerts_tbl d |}.

(** The inner [catch]: [rollback] (which may throw as well), then [release];
    whatever happens the outer [catch] only logs. *)
Definition rollback : M unit := db_call ;; ret tt.

(** [saveHeartbeatToDatabase]: [getConnection], [beginTransaction], three
    statements, [commit].  Nothing is written unless the commit returns;
    every failure, a statement refused for an [undefined] parameter
    included, ends in the logging [catch] and the function returns
    normally. *)
Definition saveHeartbeatToDatabase (storeId : Key) (hb : Heartbeat) (ts : Z)
    : M unit :=
  let* conn := db_call in
  if negb conn then ret tt
  else
    let* began := db_call in
    if negb began then rollback
    else
      let* upserted := db_execute storeId in
      match upserted with
      | None => rollback
      | Some id =>
          let* history := db_execute_params (history_params hb) in
          if negb history then rollback
          else
            let* stats := db_execute_params (stats_params hb) in
            if negb stats then rollback
            else
              let* committed := db_call in
              if negb committed then rollback
              else modify (set_db (commit_heartbeat id hb ts))
      end.

(** ** Ingestion *)

Record Ack := {
  ack_status : string;
  ack_message : string;
  ack_store_name : string;
  total_stores_monitored : nat
}.

(** [(timestamp - last) / (1000 * 60) > minutes], also [true] when there is
    no [last]. *)
Definition cooldown_over (last : option Z) (timestamp minutes : Z) : bool :=
  match last with
  | None => true
  | Some t => minutes * 60000 <? timestamp - t
  end.

(** [processHeartbeat]. *)
Definition processHeartbeat (heartbeatData : Heartbeat) : M Ack :=
  let storeId := hb_store_id heartbeatData in
  let* timestamp := new_Date in
  let storeName := js_or (hb_store_name heartbeatData) ("Store " ++ show_key storeId) in
  let storeLocation := js_or (hb_timezone heartbeatData) "Unknown" in
  let* previousState := gets (fun s => Map_get storeId (allStores s)) in
  let wasOffline :=
    match previousState with
    | Some p => bool_decide (status p = St_offline)
    | None => false
    end in
  let isFirstHeartbeat :=
    match previousState with Some _ => false | None => true end in
  let isStartup := hb_is_startup heartbeatData in
  let storeState :=
    {| store_id := storeId; store_name := storeName; location := storeLocation;
       status := St_online; last_heartbeat := Some timestamp;
       last_seen := Some timestamp; data := Some heartbeatData;
       updated_at := timestamp;
       first_seen :=
         match previousState with Some p => first_seen p | None => timestamp end |} in
  modify (set_allStores (Map_set storeId storeState)) ;;
  saveHeartbeatToDatabase storeId heartbeatData timestamp ;;
  (if isFirstHeartbeat then
     sendAlert storeId A_startup low ;;
     modify (set_lastStartupAlerts <[storeId := timestamp]>)
   else if isStartup then
     let* lastStartup := gets (fun s => lastStartupAlerts s !! storeId) in
     if cooldown_over lastStartup timestamp 10 then
       sendAlert storeId A_startup low ;;
       modify (set_lastStartupAlerts <[storeId := timestamp]>)
     else ret tt
   else if wasOffline then
     let* lastRecovery := gets (fun s => lastRecoveryAlerts s !! storeId) in
     if cooldown_over lastRecovery timestamp 5 then
       sendAlert storeId A_recovery medium ;;
       modify (set_lastRecoveryAlerts <[storeId := timestamp]>)
     else ret tt
   else ret tt) ;;
  let* n := gets (fun s => length (allStores s)) in
  ret {| ack_status := "success"; ack_message := "Heartbeat processed";
         ack_store_name := storeName; total_stores_monitored := n |}.

(** The answer of [POST /heartbeat] and [POST /heartbeat/buffered]:
    [res.json] answers 200 with the handler's result spread over
    [status: "received"], so the [status] of the body is the handler's. *)
Record Response := {
  http_status : Z;
  body_status : string;
  body_buffered : bool;
  body_total : nat
}.

Definition post_heartbeat (body : Heartbeat) : M Response :=
  let* result := processHeartbeat body in
  ret {| http_status := 200; body_status := ack_status result;
         body_buffered := false; body_total := total_stores_monitored result |}.

Definition post_heartbeat_buffered (body : Heartbeat) : M Response :=
  let* result := processHeartbeat body in
  ret {| http_status := 200; body_status := ack_status result;
         body_buffered := true; body_total := total_stores_monitored result |}.

(** ** The health sweep *)

(** [updateStoreStatusInDB]: the error of the [UPDATE] is logged and
    swallowed. *)
Definition updateStoreStatusInDB (storeId : Key) (st : Status) (timestamp : Z)
    : M unit :=
  let* updated := db_execute storeId in
  match updated with
  | None => ret tt
  | Some id =>
      modify (set_db (fun d =>
        {| stores_tbl :=
             map (fun r =>
                    if decide (row_store_id r = id)
                    then {| row_store_id := row_store_id r;
                            row_store_name := row_store_name r;
                            row_last_heartbeat := row_last_heartbeat r;
                            row_status := st;
                            row_created_at := row_created_at r;
                            row_updated_at := timestamp |}
                    else r) (stores_tbl d);
           heartbeat_history := heartbeat_history d;
           system_stats := system_stats d;
           alerts_tbl := alerts_tbl d |}))
  end.

(** [canSendOfflineAlert]: records the instant whenever it answers [true]. *)
Definition canSendOfflineAlert (storeId : Key) : M bool :=
  let* lastAlert := gets (fun s => lastOfflineAlerts s !! storeId) in
  match lastAlert with
  | None =>
      let* now := new_Date in
      modify (set_lastOfflineAlerts <[storeId := now]>) ;;
      ret true
  | Some last =>
      let* now := new_Date in
      let* cooldown := gets offlineAlertCooldownMinutes in
      if cooldown * 60000 <=? now - last then
        let* now' := new_Date in
        modify (set_lastOfflineAlerts <[storeId := now']>) ;;
        ret true
      else ret false
  end.

(** The body of the [for ... of this.allStores] loop of
    [performHealthCheck], for one entry.  [store.status = "offline"] writes
    through the object held by the map. *)
Definition healthCheck_body (timestamp : Z) (entry : Key * StoreState) : M unit :=
  let (storeId, store) := entry in
  match last_heartbeat store with
  | None => ret tt
  | Some lastHeartbeat =>
      let* threshold := gets alertThresholdMinutes in
      let isOffline := threshold * 60000 <? timestamp - lastHeartbeat in
      if isOffline then
        if negb (bool_decide (status store = St_offline)) then
          modify (set_allStores (Map_set storeId (with_status store St_offline))) ;;
          updateStoreStatusInDB storeId St_offline timestamp ;;
          sendAlert storeId A_offline critical
        else
          let* can := canSendOfflineAlert storeId in
          if can then sendAlert storeId A_offline critical else ret tt
      else ret tt
  end.

Fixpoint healthCheck_loop (timestamp : Z) (entries : list (Key * StoreState))
    : M unit :=
  match entries with
  | [] => ret tt
  | e :: rest => healthCheck_body timestamp e ;; healthCheck_loop timestamp rest
  end.

(** The record [syncWithDatabase] builds for a row that is not in memory. *)
Definition hydrate_sync (timestamp : Z) (r : StoreRow) : StoreState :=
  {| store_id := Some (row_store_id r);
     store_name := js_or (row_store_name r) ("Store " ++ row_store_id r);
     location := "Unknown";
     status := row_status r;
     last_heartbeat := row_last_heartbeat r;
     last_seen := row_last_heartbeat r;
     data := None;
     updated_at := timestamp;
     first_seen := default timestamp (row_last_heartbeat r) |}.

(** [syncWithDatabase]. *)
Definition syncWithDatabase (timestamp : Z) : M unit :=
  let* selected := db_call in
  if negb selected then ret tt
  else
    let* dbStores := gets (fun s => stores_tbl (db s)) in
    modify (set_allStores (fun m =>
      fold_left (fun m dbStore =>
                   if negb (Map_has (Some (row_store_id dbStore)) m)
                   then Map_set (Some (row_store_id dbStore))
                                (hydrate_sync timestamp dbStore) m
                   else m)
                dbStores m)).

(** [performHealthCheck]. *)
Definition performHealthCheck : M unit :=
  let* timestamp := new_Date in
  let* entries := gets allStores in
  healthCheck_loop timestamp entries ;;
  syncWithDatabase timestamp.

(** ** Start of the server *)

(** The record [loadExistingStoresFromDB] builds for a row. *)
Definition hydrate_load (r : StoreRow) : StoreState :=
  {| store_id := Some (row_store_id r);
     store_name := js_or (row_store_name r) ("Store " ++ row_store_id r);
     location := "Unknown";
     status := row_status r;
     last_heartbeat := row_last_heartbeat r;
     last_seen := row_last_heartbeat r;
     data := None;
     updated_at := row_updated_at r;
     first_seen := row_created_at r |}.

(** [loadExistingStoresFromDB]. *)
Definition loadExistingStoresFromDB : M unit :=
  let* selected := db_call in
  if negb selected then ret tt
  else
    let* stores := gets (fun s => stores_tbl (db s)) in
    modify (set_allStores (fun m =>
      fold_left (fun m store => Map_set (Some (row_store_id store)) (hydrate_load store) m)
                stores m)).

Definition empty_db : Database :=
  {| stores_tbl := []; heartbeat_history := []; system_stats := [];
     alerts_tbl := [] |}.

(** [parseInt(process.env.X) || d]: a missing or unreadable variable gives
    [NaN], and [NaN] and [0] are falsy. *)
Definition env_minutes (v : option Z) (d : Z) : Z :=
  match v with
  | Some n => if n =? 0 then d else n
  | None => d
  end.

(** The object the constructor leaves, before [loadExistingStoresFromDB]
    has run: thresholds as read from [ALERT_THRESHOLD_MINUTES] and
    [OFFLINE_ALERT_COOLDOWN_MINUTES], recipients as read from the
    configuration file. *)
Definition new_server (threshold cooldown : option Z)
    (cfg : gmap string (list string)) (enabled : bool) (d : Database)
    (ok : nat -> bool) (t : Z) : State :=
  {| clock := t; alertThresholdMinutes := env_minutes threshold 5;
     offlineAlertCooldownMinutes := env_minutes cooldown 5; allStores := [];
     storeEmailConfig := cfg; lastOfflineAlerts := ∅;
     lastRecoveryAlerts := ∅; lastStartupAlerts := ∅;
     emailEnabled := enabled; db := d; db_ok := ok; db_ops := 0%nat;
     outbox := []; alert_calls := [] |}.

(** Running a handler at instant [t]. *)
Definition at_time {A} (t : Z) (m : M A) (s : State) : State :=
  snd (m (set_clock t s)).

(** ** Observations used in the statements *)

(** The [sendAlert] calls made for one store. *)
Definition alerts_for (k : Key) (s : State) : list AlertCall :=
  List.filter (fun c => bool_decide (ac_store c = k)) (alert_calls s).

Definition offline_call (k : Key) (t : Z) : AlertCall :=
  {| ac_store := k; ac_type := A_offline; ac_severity := critical; ac_time := t |}.

Definition startup_call (k : Key) (t : Z) : AlertCall :=
  {| ac_store := k; ac_type := A_startup; ac_severity := low; ac_time := t |}.

Definition recovery_call (k : Key) (t : Z) : AlertCall :=
  {| ac_store := k; ac_type := A_recovery; ac_severity := medium; ac_time := t |}.

(** What no handler writes. *)
Definition same_config (s s' : State) : Prop :=
  clock s' = clock s /\ alertThresholdMinutes s' = alertThresholdMinutes s /\
  offlineAlertCooldownMinutes s' = offlineAlertCooldownMinutes s /\
  storeEmailConfig s' = storeEmailConfig s /\ emailEnabled s' = emailEnabled s /\
  db_ok s' = db_ok s.

(** ** Scenarios *)

Definition store_A : Key := Some "A"%string.

(** Telemetry as the repository's client reports it. *)
Definition stats_A : SystemStats :=
  {| cpu_usage_percent := Some "12.5"%string;
     memory_usage_percent := Some "40"%string;
     memory_available_gb := Some "9.6"%string; disk_free_gb := Some "120"%string;
     disk_usage_percent := Some "52"%string; process_memory_mb := Some "80"%string;
     uptime_hours := Some "3"%string; network_connected := Some "true"%string |}.

Definition cameras_A : CameraStatus :=
  {| active_cameras := Some "4"%string; total_cameras := Some "4"%string |}.

Definition hb_A (startup : bool) : Heartbeat :=
  {| hb_store_id := store_A; hb_store_name := Some "Alpha"%string;
     hb_timezone := None; hb_is_startup := startup;
     hb_system_stats := Some stats_A; hb_camera_status := Some cameras_A |}.

(** A heartbeat without [store_id], the body [{}]. *)
Definition hb_anonymous : Heartbeat :=
  {| hb_store_id := None; hb_store_name := None; hb_timezone := None;
     hb_is_startup := false; hb_system_stats := None; hb_camera_status := None |}.

(** The heartbeat of a client whose [getSystemStats] failed and answered
    [{}]. *)
Definition hb_A_blind : Heartbeat :=
  {| hb_store_id := store_A; hb_store_name := Some "Alpha"%string;
     hb_timezone := None; hb_is_startup := false;
     hb_system_stats :=
       Some {| cpu_usage_percent := None; memory_usage_percent := None;
               memory_available_gb := None; disk_free_gb := None;
               disk_usage_percent := None; process_memory_mb := None;
               uptime_hours := None; network_connected := None |};
     hb_camera_status := Some cameras_A |}.

(** The record the first heartbeat of store A leaves at instant 0. *)
Definition record_A : StoreState :=
  {| store_id := store_A; store_name := "Alpha"; location := "Unknown";
     status := St_online; last_heartbeat := Some 0; last_seen := Some 0;
     data := Some (hb_A true); updated_at := 0; first_seen := 0 |}.

Definition always_ok : nat -> bool := fun _ => true.

(** Default thresholds, mail enabled, one default recipient, empty
    database. *)
Definition server_0 : State :=
  new_server None None {[ "default"%string := ["ops@example.org"%string] ]}
             true empty_db always_ok 0.

(** Store A has sent its first heartbeat at instant 0. *)
Definition server_1 : State := at_time 0 (processHeartbeat (hb_A true)) server_0.

(** Sweeps 6 and 8 minutes later. *)
Definition server_6min : State := at_time 360000 performHealthCheck server_1.
Definition server_8min : State := at_time 480000 performHealthCheck server_6min.

(** A database that knows store B as offline, and a server started on it
    with no recipients at all. *)
Definition row_B : StoreRow :=
  {| row_store_id := "B"; row_store_name := Some "Beta"%string;
     row_last_heartbeat := Some 1000; row_status := St_offline;
     row_created_at := 500; row_updated_at := 1000 |}.

Definition db_B : Database :=
  {| stores_tbl := [row_B]; heartbeat_history := []; system_stats := [];
     alerts_tbl := [] |}.

Definition server_B : State := new_server None None ∅ true db_B always_ok 2000.

(** The same server with a database whose first call fails. *)
Definition server_down : State :=
  new_server None None ∅ true empty_db (fun n => negb (n =? 0)%nat) 0.

End Server.

Module Client.

(** ** Data *)

(** What [axios.post] does: the promise is fulfilled with an answer (under
    the default [validateStatus] a 2xx one), or rejected with an error that
    may carry a [code] and, when the server answered, a [response]. *)
Inductive PostResult :=
| Resolved (status : Z)
| Rejected (code : option string) (response : option Z).

Inductive Endpoint := Live | Buffered.

(** The heartbeat the client builds; the telemetry fields are left out.
    [p_store_id] is optional because a payload read back from the buffer
    may lack it. *)
Record Payload := {
  p_store_id : option string;
  p_timestamp : Z;
  p_consecutive_failures : Z;
  p_last_successful_connection : option Z;
  p_is_startup : bool
}.

(** The [data] of a buffered row as the drain meets it: a string, given by
    what [JSON.parse] makes of it ([None] when it throws), or a value
    ([None] for [null]). *)
Inductive RowData :=
| DataText (parsed : option (option Payload))
| DataValue (v : option Payload).

(** A row of the local table [heartbeat_buffer]. *)
Record BufferRow := {
  b_id : Z;
  b_timestamp : Z;
  b_data : RowData;
  b_sent : bool;
  b_created_at : Z
}.

(** An element of the array [this.heartbeatBuffer]. *)
Record MemItem := {
  m_id : Z;
  m_timestamp : Z;
  m_data : Payload
}.

(** The client object and its surroundings.  [localDb] says whether
    [this.localDb] is set; [heartbeatBuffer] is [None] while the property is
    undefined; [utc_offset] is local time minus UTC; [requests] is the trace
    of [axios.post] calls. *)
Record State := {
  storeId : string;
  isFirstHeartbeat : bool;
  consecutiveFailures : Z;
  lastSuccessfulConnection : option Z;
  localDb : bool;
  heartbeat_buffer : list BufferRow;
  next_id : Z;
  heartbeatBuffer : option (list MemItem);
  clock : Z;
  utc_offset : Z;
  requests : list (Endpoint * Payload)
}.

(** What the surroundings answer during one call: the live POST, the
    replay POST and the [UPDATE] for the row at each position of the batch
    ([Some code]: the driver throws an error with that [code]), and whether
    the [SELECT], the [INSERT] and the [DELETE] return. *)
Record World := {
  live : PostResult;
  replay : nat -> PostResult;
  update_err : nat -> option (option string);
  select_ok : bool;
  insert_ok : bool;
  delete_ok : bool
}.

(** ** Field updates *)

Definition set_flags (first : bool) (failures : Z) (lastOk : option Z) (s : State)
    : State :=
  {| storeId := storeId s; isFirstHeartbeat := first;
     consecutiveFailures := failures; lastSuccessfulConnection := lastOk;
     localDb := localDb s; heartbeat_buffer := heartbeat_buffer s;
     next_id := next_id s; heartbeatBuffer := heartbeatBuffer s;
     clock := clock s; utc_offset := utc_offset s; requests := requests s |}.

Definition set_table (rows : list BufferRow) (next : Z) (s : State) : State :=
  {| storeId := storeId s; isFirstHeartbeat := isFirstHeartbeat s;
     consecutiveFailures := consecutiveFailures s;
     lastSuccessfulConnection := lastSuccessfulConnection s;
     localDb := localDb s; heartbeat_buffer := rows; next_id := next;
     heartbeatBuffer := heartbeatBuffer s; clock := clock s;
     utc_offset := utc_offset s; requests := requests s |}.

Definition set_heartbeatBuffer (b : option (list MemItem)) (s : State) : State :=
  {| storeId := storeId s; isFirstHeartbeat := isFirstHeartbeat s;
     consecutiveFailures := consecutiveFailures s;
     lastSuccessfulConnection := lastSuccessfulConnection s;
     localDb := localDb s; heartbeat_buffer := heartbeat_buffer s;
     next_id := next_id s; heartbeatBuffer := b; clock := clock s;
     utc_offset := utc_offset s; requests := requests s |}.

Definition log_request (e : Endpoint) (p : Payload) (s : State) : State :=
  {| storeId := storeId s; isFirstHeartbeat := isFirstHeartbeat s;
     consecutiveFailures := consecutiveFailures s;
     lastSuccessfulConnection := lastSuccessfulConnection s;
     localDb := localDb s; heartbeat_buffer := heartbeat_buffer s;
     next_id := next_id s; heartbeatBuffer := heartbeatBuffer s;
     clock := clock s; utc_offset := utc_offset s;
     requests := requests s ++ [(e, p)] |}.

Definition set_clock (t : Z) (s : State) : State :=
  {| storeId := storeId s; isFirstHeartbeat := isFirstHeartbeat s;
     consecutiveFailures := consecutiveFailures s;
     lastSuccessfulConnection := lastSuccessfulConnection s;
     localDb := localDb s; heartbeat_buffer := heartbeat_buffer s;
     next_id := next_id s; heartbeatBuffer := heartbeatBuffer s;
     clock := t; utc_offset := utc_offset s; requests := requests s |}.

(** ** Building and buffering a heartbeat *)

(** [createHeartbeatPayload]. *)
Definition createHeartbeatPayload (s : State) : Payload :=
  {| p_store_id := Some (storeId s);
     p_timestamp := clock s;
     p_consecutive_failures := consecutiveFailures s;
     p_last_successful_connection := lastSuccessfulConnection s;
     p_is_startup := isFirstHeartbeat s |}.

(** [now.toISOString().slice(0, 19)]: the instant cut to the second. *)
Definition mysqlTimestamp (now : Z) : Z := now / 1000 * 1000.

(** [arr.slice(-n)]. *)
Definition slice_last {A} (n : nat) (l : list A) : list A :=
  skipn (length l - n) l.

(** [storeHeartbeatLocally].  In the table [created_at] defaults to the
    current instant and [sent] to false; a failing [INSERT] is logged and
    swallowed. *)
Definition storeHeartbeatLocally (w : World) (payload : Payload) (s : State)
    : State :=
  if localDb s then
    if insert_ok w then
      set_table
        (heartbeat_buffer s ++
           [{| b_id := next_id s; b_timestamp := mysqlTimestamp (clock s);
               b_data := DataValue (Some payload); b_sent := false;
               b_created_at := clock s |}])
        (next_id s + 1) s
    else s
  else
    let buffer := default [] (heartbeatBuffer s) ++
      [{| m_id := clock s; m_timestamp := mysqlTimestamp (clock s);
          m_data := payload |}] in
    if (100 <? length buffer)%nat
    then set_heartbeatBuffer (Some (slice_last 50 buffer)) s
    else set_heartbeatBuffer (Some buffer) s.

(** ** The buffer drain *)

(** [ORDER BY id]. *)
Fixpoint insert_by_id (r : BufferRow) (l : list BufferRow) : list BufferRow :=
  match l with
  | [] => [r]
  | x :: t => if b_id r <=? b_id x then r :: l else x :: insert_by_id r t
  end.

Definition order_by_id (l : list BufferRow) : list BufferRow :=
  fold_right insert_by_id [] l.

(** A row of the batch: its id and its data. *)
Definition Row : Type := Z * RowData.

(** [SELECT id, data, timestamp FROM heartbeat_buffer WHERE sent = FALSE
    ORDER BY id LIMIT 10]. *)
Definition select_unsent (rows : list BufferRow) : list Row :=
  map (fun r => (b_id r, b_data r))
      (take 10 (order_by_id (List.filter (fun r => negb (b_sent r)) rows))).

(** The batch the drain works on; [None] when reading the table throws and
    the drain returns at once. *)
Definition peek (w : World) (s : State) : option (list Row) :=
  if localDb s then
    if select_ok w then Some (select_unsent (heartbeat_buffer s)) else None
  else
    match heartbeatBuffer s with
    | Some l => Some (map (fun i => (m_id i, DataValue (Some (m_data i)))) (take 10 l))
    | None => Some []
    end.

(** The decoding at the head of the loop body: [None] stands for
    [continue], either after a parse error or on
    [!heartbeatData || !heartbeatData.store_id]. *)
Definition decode (viaDb : bool) (d : RowData) : option Payload :=
  let heartbeatData :=
    match d with
    | DataText parsed => if viaDb then parsed else Some None
    | DataValue v => Some v
    end in
  match heartbeatData with
  | None => None
  | Some None => None
  | Some (Some p) => if truthy (p_store_id p) then Some p else None
  end.

(** [error.code === "ECONNREFUSED" || error.code === "ETIMEDOUT"]. *)
Definition network_class (code : option string) : bool :=
  match code with
  | Some c => bool_decide (c = "ECONNREFUSED"%string) || bool_decide (c = "ETIMEDOUT"%string)
  | None => false
  end.

(** [UPDATE heartbeat_buffer SET sent = TRUE WHERE id = ?]. *)
Definition mark_sent (id : Z) (rows : list BufferRow) : list BufferRow :=
  map (fun r =>
         if decide (b_id r = id)
         then {| b_id := b_id r; b_timestamp := b_timestamp r;
                 b_data := b_data r; b_sent := true;
                 b_created_at := b_created_at r |}
         else r) rows.

(** [findIndex] on the id followed by [splice(index, 1)]. *)
Fixpoint splice_id (id : Z) (l : list MemItem) : list MemItem :=
  match l with
  | [] => []
  | x :: t => if decide (m_id x = id) then t else x :: splice_id id t
  end.

(** The [for ... of bufferedHeartbeats] loop; [i] is the position of the
    head of [rows] in the batch. *)
Fixpoint drain_loop (w : World) (i : nat) (rows : list Row) (s : State) : State :=
  match rows with
  | [] => s
  | (id, d) :: rest =>
      match decode (localDb s) d with
      | None => drain_loop w (S i) rest s
      | Some heartbeatData =>
          let s1 := log_request Buffered heartbeatData s in
          match replay w i with
          | Resolved status =>
              if status =? 200 then
                if localDb s then
                  match update_err w i with
                  | None =>
                      drain_loop w (S i) rest
                        (set_table (mark_sent id (heartbeat_buffer s1)) (next_id s1) s1)
                  | Some code =>
                      if network_class code then s1
                      else drain_loop w (S i) rest s1
                  end
                else
                  drain_loop w (S i) rest
                    (set_heartbeatBuffer
                       (option_map (splice_id id) (heartbeatBuffer s1)) s1)
              else drain_loop w (S i) rest s1
          | Rejected code _ =>
              if network_class code then s1 else drain_loop w (S i) rest s1
          end
      end
  end.

(** [sendBufferedHeartbeats]. *)
Definition sendBufferedHeartbeats (w : World) (s : State) : State :=
  match peek w s with
  | None => s
  | Some bufferedHeartbeats => drain_loop w 0 bufferedHeartbeats s
  end.

(** ** The periodic send *)

(** [sendHeartbeat].  In the [catch] the payload is built again, after the
    failure counter has been raised. *)
Definition sendHeartbeat (w : World) (s : State) : bool * State :=
  let payload := createHeartbeatPayload s in
  let s1 := log_request Live payload s in
  match live w with
  | Resolved status =>
      if status =? 200 then
        let s2 := set_flags false 0 (Some (clock s1)) s1 in
        (true, sendBufferedHeartbeats w s2)
      else
        let s2 := set_flags (isFirstHeartbeat s1) (consecutiveFailures s1 + 1)
                            (lastSuccessfulConnection s1) s1 in
        (false, storeHeartbeatLocally w payload s2)
  | Rejected _ _ =>
      let s2 := set_flags (isFirstHeartbeat s1) (consecutiveFailures s1 + 1)
                          (lastSuccessfulConnection s1) s1 in
      let payload' := createHeartbeatPayload s2 in
      (false, storeHeartbeatLocally w payload' s2)
  end.

(** ** Garbage collection of the buffer *)

(** [new Date(item.timestamp).getTime()]: the stored text has no zone and
    is read as local time. *)
Definition itemTime (s : State) (item : MemItem) : Z :=
  m_timestamp item - utc_offset s.

(** [clearOldBufferedHeartbeats]: in the table
    [created_at < DATE_SUB(NOW(), INTERVAL 24 HOUR)], in memory
    [oneHourAgo = Date.now() - 60 * 60 * 1000]. *)
Definition clearOldBufferedHeartbeats (w : World) (s : State) : State :=
  if localDb s then
    if delete_ok w then
      set_table
        (List.filter (fun r => negb (b_created_at r <? clock s - 24 * 3600000))
                     (heartbeat_buffer s))
        (next_id s) s
    else s
  else
    match heartbeatBuffer s with
    | Some l =>
        let oneHourAgo := clock s - 60 * 60 * 1000 in
        set_heartbeatBuffer
          (Some (List.filter (fun item => oneHourAgo <? itemTime s item) l)) s
    | None => s
    end.

(** The client as the constructor leaves it. *)
Definition new_client (id : string) (db : bool) (t offset : Z) : State :=
  {| storeId := id; isFirstHeartbeat := true; consecutiveFailures := 0;
     lastSuccessfulConnection := None; localDb := db; heartbeat_buffer := [];
     next_id := 1; heartbeatBuffer := if db then None else Some [];
     clock := t; utc_offset := offset; requests := [] |}.

(** A run of the shipper: one [sendHeartbeat] per tick, each at its instant
    and with its answers. *)
Fixpoint run (ticks : list (Z * World)) (s : State) : State :=
  match ticks with
  | [] => s
  | (t, w) :: rest => run rest (snd (sendHeartbeat w (set_clock t s)))
  end.

(** ** Observations used in the statements *)

(** The live send of a tick was a success: the server answered 200. *)
Definition delivered (w : World) : bool :=
  match live w with Resolved status => status =? 200 | Rejected _ _ => false end.

(** No tick of the list was a success. *)
Definition undelivered (ticks : list (Z * World)) : bool :=
  forallb (fun tw => negb (delivered (snd tw))) ticks.

Definition is_live (r : Endpoint * Payload) : bool :=
  match fst r with Live => true | Buffered => false end.

(** The [is_startup] flags of the heartbeats posted to the live endpoint,
    in order. *)
Definition live_flags (s : State) : list bool :=
  map (fun r => p_is_startup (snd r)) (List.filter is_live (requests s)).



(** A row of the table with [sent] set. *)
Definition sent_row (r : BufferRow) : BufferRow :=
  {| b_id := b_id r; b_timestamp := b_timestamp r; b_data := b_data r;
     b_sent := true; b_created_at := b_created_at r |}.

Definition id_le (a b : BufferRow) : Prop := b_id a <= b_id b.

(** The drain in the words of its description.  An entry is a
    network-class failure when it was posted and the error code is
    connection refused or timeout (in table mode the marking [UPDATE] can
    fail that way too); it is acknowledged when the server answered 200 and
    the marking went through. *)
Definition aborts (w : World) (viaDb : bool) (i : nat) (r : Row) : bool :=
  match decode viaDb (snd r) with
  | None => false
  | Some _ =>
      match replay w i with
      | Rejected code _ => network_class code
      | Resolved status =>
          (status =? 200) && viaDb &&
          match update_err w i with Some code => network_class code | None => false end
      end
  end.

Definition acked (w : World) (viaDb : bool) (i : nat) (r : Row) : bool :=
  match decode viaDb (snd r) with
  | None => false
  | Some _ =>
      match replay w i with
      | Rejected _ _ => false
      | Resolved status =>
          (status =? 200) &&
          (negb viaDb || match update_err w i with Some _ => false | None => true end)
      end
  end.

(** The entries the drain gets to: the batch up to and including the first
    network-class failure, each with its position. *)
Fixpoint processed (w : World) (viaDb : bool) (i : nat) (rows : list Row)
    : list (nat * Row) :=
  match rows with
  | [] => []
  | r :: rest =>
      (i, r) :: (if aborts w viaDb i r then [] else processed w viaDb (S i) rest)
  end.

(** The requests for the entries that decode. *)
Definition posted (viaDb : bool) (l : list (nat * Row)) : list (Endpoint * Payload) :=
  omap (fun ir => (fun p => (Buffered, p)) <$> decode viaDb (snd (snd ir))) l.

(** The ids of the acknowledged entries. *)
Definition acked_ids (w : World) (viaDb : bool) (l : list (nat * Row)) : list Z :=
  map (fun ir => fst (snd ir))
      (List.filter (fun ir => acked w viaDb (fst ir) (snd ir)) l).

(** ** Scenarios *)

Definition payload_at (t : Z) (id : option string) : Payload :=
  {| p_store_id := id; p_timestamp := t; p_consecutive_failures := 1;
     p_last_successful_connection := None; p_is_startup := false |}.

Definition buffer_row (id t : Z) (d : RowData) : BufferRow :=
  {| b_id := id; b_timestamp := t; b_data := d; b_sent := false;
     b_created_at := t |}.

(** Everything answers: 200 everywhere, the local table works. *)
Definition world_up : World :=
  {| live := Resolved 200; replay := fun _ => Resolved 200;
     update_err := fun _ => None; select_ok := true; insert_ok := true;
     delete_ok := true |}.

(** The monitoring server is down. *)
Definition world_down : World :=
  {| live := Rejected (Some "ECONNREFUSED"%string) None;
     replay := fun _ => Rejected (Some "ECONNREFUSED"%string) None;
     update_err := fun _ => None; select_ok := true; insert_ok := true;
     delete_ok := true |}.

(** The live send and the first replay succeed, the second replay is
    refused. *)
Definition world_flaky : World :=
  {| live := Resolved 200;
     replay := fun i => match i with
                        | O => Resolved 200
                        | _ => Rejected (Some "ECONNREFUSED"%string) None
                        end;
     update_err := fun _ => None; select_ok := true; insert_ok := true;
     delete_ok := true |}.

(** The first replay gets no answer within the 5 s of the request's
    [timeout]: axios rejects with the code [ECONNABORTED]; the other
    replays are answered. *)
Definition world_timeout : World :=
  {| live := Resolved 200;
     replay := fun i => match i with
                        | O => Rejected (Some "ECONNABORTED"%string) None
                        | _ => Resolved 200
                        end;
     update_err := fun _ => None; select_ok := true; insert_ok := true;
     delete_ok := true |}.

(** The server answers 400 to every replay. *)
Definition world_400 : World :=
  {| live := Resolved 200;
     replay := fun _ => Rejected (Some "ERR_BAD_REQUEST"%string) (Some 400);
     update_err := fun _ => None; select_ok := true; insert_ok := true;
     delete_ok := true |}.

(** A client with a local table holding three unsent rows, stored out of
    id order. *)
Definition client_db : State :=
  {| storeId := "A"; isFirstHeartbeat := false; consecutiveFailures := 0;
     lastSuccessfulConnection := None; localDb := true;
     heartbeat_buffer :=
       [buffer_row 2 2000 (DataValue (Some (payload_at 2000 (Some "A"%string))));
        buffer_row 1 1000 (DataValue (Some (payload_at 1000 (Some "A"%string))));
        buffer_row 3 3000 (DataValue (Some (payload_at 3000 (Some "A"%string))))];
     next_id := 4; heartbeatBuffer := None; clock := 60000; utc_offset := 0;
     requests := [] |}.

(** The batch the drain of [client_db] reads. *)
Definition client_db_batch : list Row :=
  [(1, DataValue (Some (payload_at 1000 (Some "A"%string))));
   (2, DataValue (Some (payload_at 2000 (Some "A"%string))));
   (3, DataValue (Some (payload_at 3000 (Some "A"%string))))].

(** A client whose table holds a row that does not parse and a row that
    does. *)
Definition row_unreadable : BufferRow := buffer_row 1 1000 (DataText None).

Definition row_readable : BufferRow :=
  buffer_row 2 2000 (DataValue (Some (payload_at 2000 (Some "A"%string)))).

Definition client_bad : State :=
  {| storeId := "A"; isFirstHeartbeat := false; consecutiveFailures := 0;
     lastSuccessfulConnection := None; localDb := true;
     heartbeat_buffer := [row_unreadable; row_readable];
     next_id := 3; heartbeatBuffer := None; clock := 60000; utc_offset := 0;
     requests := [] |}.

(** The same client 25 hours later. *)
Definition client_bad_later : State := set_clock (25 * 3600000) client_bad.

(** A client without local table, two hours after it buffered one
    heartbeat at instant 0. *)
Definition item_0 : MemItem :=
  {| m_id := 0; m_timestamp := 0; m_data := payload_at 0 (Some "A"%string) |}.

Definition client_mem : State :=
  {| storeId := "A"; isFirstHeartbeat := false; consecutiveFailures := 0;
     lastSuccessfulConnection := None; localDb := false;
     heartbeat_buffer := []; next_id := 1; heartbeatBuffer := Some [item_0];
     clock := 2 * 3600000; utc_offset := 0; requests := [] |}.

(** A client without local table on a host at UTC+5:30, one second after
    it buffered one heartbeat at instant 0. *)
Definition client_mem_east : State :=
  {| storeId := "A"; isFirstHeartbeat := false; consecutiveFailures := 0;
     lastSuccessfulConnection := None; localDb := false;
     heartbeat_buffer := []; next_id := 1; heartbeatBuffer := Some [item_0];
     clock := 1000; utc_offset := 19800000; requests := [] |}.

(** A client without local table holding three heartbeats. *)
Definition item_at (t : Z) : MemItem :=
  {| m_id := t; m_timestamp := t; m_data := payload_at t (Some "A"%string) |}.

Definition client_mem_3 : State :=
  {| storeId := "A"; isFirstHeartbeat := false; consecutiveFailures := 0;
     lastSuccessfulConnection := None; localDb := false;
     heartbeat_buffer := []; next_id := 1;
     heartbeatBuffer := Some [item_at 1000; item_at 2000; item_at 3000];
     clock := 60000; utc_offset := 0; requests := [] |}.


End Client.

(** * More of the server: reports, the test mail, configuration, runs *)

Module ServerExtra.
Import Server.

(** ** The dashboard *)

(** An element of [stores] in [getDashboardData].  [d_age] is the number
    [minutes_since_heartbeat] prints, kept in milliseconds: [None] without a
    heartbeat and also when it is 0, which is falsy.  [metrics] and [config]
    are left out as in [StoreState]. *)
Record DashboardStore := {
  d_store_id : Key;
  d_store_name : string;
  d_location : string;
  d_status : Status;
  d_last_heartbeat : option Z;
  d_age : option Z;
  d_first_seen : Z;
  d_email_recipients : list string
}.

Record Summary := {
  total_stores : nat;
  online_stores : nat;
  offline_stores : nat;
  unknown_stores : nat;
  last_updated : Z
}.

Record Dashboard := {
  stores : list DashboardStore;
  summary : Summary
}.

(** The body of the loop of [getDashboardData]: the status shown is
    computed from the age of the last heartbeat, the recorded [status] is
    not read. *)
Definition dashboard_store (cfg : gmap string (list string)) (threshold currentTime : Z)
    (entry : Key * StoreState) : DashboardStore :=
  let (storeId, store) := entry in
  let minutesSinceHeartbeat := (fun lh => currentTime - lh) <$> last_heartbeat store in
  let isOnline :=
    match minutesSinceHeartbeat with
    | Some age => age <=? threshold * 60000
    | None => false
    end in
  {| d_store_id := storeId;
     d_store_name := store_name store;
     d_location := location store;
     d_status := match last_heartbeat store with
                 | Some _ => if isOnline then St_online else St_offline
                 | None => St_unknown
                 end;
     d_last_heartbeat := last_heartbeat store;
     d_age := match minutesSinceHeartbeat with
              | Some age => if age =? 0 then None else Some age
              | None => None
              end;
     d_first_seen := first_seen store;
     d_email_recipients := getEmailRecipients cfg storeId |}.

Definition count_status (x : Status) (l : list DashboardStore) : nat :=
  length (List.filter (fun s => bool_decide (d_status s = x)) l).

(** [getDashboardData].  [sort] stands for
    [stores.sort((a, b) => a.store_id.localeCompare(b.store_id))], whose
    order is the collation of the host; it answers [None] when the
    comparison throws, which it does on an element without [store_id].
    The array is sorted in place before the summary is computed. *)
Definition getDashboardData
    (sort : list DashboardStore -> option (list DashboardStore))
    : M (option Dashboard) :=
  let* currentTime := new_Date in
  let* entries := gets allStores in
  let* cfg := gets storeEmailConfig in
  let* threshold := gets alertThresholdMinutes in
  let stores := map (dashboard_store cfg threshold currentTime) entries in
  match sort stores with
  | None => ret None
  | Some sorted =>
      ret (Some {| stores := sorted;
                   summary := {| total_stores := length entries;
                                 online_stores := count_status St_online sorted;
                                 offline_stores := count_status St_offline sorted;
                                 unknown_stores := count_status St_unknown sorted;
                                 last_updated := currentTime |} |})
  end.

(** ** Store details *)

Record StoreDetails := {
  sd_store : StoreState;
  sd_age : option Z;
  sd_is_online : bool;
  sd_email_recipients : list string;
  sd_alert_threshold_minutes : Z
}.

(** [GET /store/:storeId]: the route parameter is a string. *)
Definition get_store (storeId : string) : M (Z * option StoreDetails) :=
  let* store := gets (fun s => Map_get (Some storeId) (allStores s)) in
  match store with
  | None => ret (404, None)
  | Some store =>
      let* currentTime := new_Date in
      let* threshold := gets alertThresholdMinutes in
      let* cfg := gets storeEmailConfig in
      let minutesSinceHeartbeat := (fun lh => currentTime - lh) <$> last_heartbeat store in
      let isOnline :=
        match minutesSinceHeartbeat with
        | Some age => age <=? threshold * 60000
        | None => false
        end in
      ret (200, Some {| sd_store := store;
                        sd_age := match minutesSinceHeartbeat with
                                  | Some age => if age =? 0 then None else Some age
                                  | None => None
                                  end;
                        sd_is_online := isOnline;
                        sd_email_recipients := getEmailRecipients cfg (Some storeId);
                        sd_alert_threshold_minutes := threshold |})
  end.

(** ** The test mail *)

(** [GET /test-email/:storeId]: 400 without recipients, otherwise an
    offline alert of severity critical through [sendAlert] and 200 with the
    recipients. *)
Definition get_test_email (storeId : string) : M (Z * list string) :=
  let* recipients := gets (fun s => getEmailRecipients (storeEmailConfig s) (Some storeId)) in
  if (length recipients =? 0)%nat then ret (400, recipients)
  else
    sendAlert (Some storeId) A_offline critical ;;
    ret (200, recipients).

(** ** Recipient configuration *)

(** An element of an array of the configuration object: a string, or
    anything else. *)
Inductive Item :=
| I_string (s : string)
| I_other.

(** A value of the configuration object, as far as the loader looks at it:
    an array, or anything else. *)
Inductive Json :=
| J_array (items : list Item)
| J_other.

(** The configuration file: absent, unreadable (reading or [JSON.parse]
    throws), or the entries of the parsed object in [Object.entries]
    order. *)
Inductive ConfigFile :=
| File_absent
| File_unreadable
| File_entries (entries : list (string * Json)).

(** [emails.map((email) => email.trim())]: [None] when an element has no
    [trim], that is when it is not a string.  [trim] is the host's. *)
Fixpoint trim_all (trim : string -> string) (emails : list Item)
    : option (list string) :=
  match emails with
  | [] => Some []
  | I_string e :: rest => (fun l => trim e :: l) <$> trim_all trim rest
  | I_other :: _ => None
  end.

(** The [forEach] over the entries: an array is stored trimmed, anything
    else is skipped with a warning; a throwing [trim] leaves the loop, and
    the entries stored so far stay. *)
Fixpoint load_entries (trim : string -> string) (entries : list (string * Json))
    (cfg : gmap string (list string)) : gmap string (list string) :=
  match entries with
  | [] => cfg
  | (storeId, J_array emails) :: rest =>
      match trim_all trim emails with
      | Some l => load_entries trim rest (<[storeId := l]> cfg)
      | None => cfg
      end
  | (_, J_other) :: rest => load_entries trim rest cfg
  end.

(** What [createSampleEmailConfig] writes. *)
Definition sampleConfig : list (string * Json) :=
  [("2308"%string, J_array [I_string "krishna@hivoco.com"]);
   ("2309"%string, J_array [I_string "krishna@hivoco.com"]);
   ("2310"%string, J_array [I_string "krishna@hivoco.com"]);
   ("default"%string, J_array [I_string "krishna@hivoco.com"])].

(** The recipient map together with the file it is read from; [write_ok]
    says whether [fs.writeFileSync] returns. *)
Record Config := {
  cfg_map : gmap string (list string);
  cfg_file : ConfigFile;
  write_ok : bool
}.

(** [loadEmailConfiguration]: an absent file is created from the sample,
    which is not loaded. *)
Definition loadEmailConfiguration (trim : string -> string) (c : Config) : Config :=
  match cfg_file c with
  | File_entries entries =>
      {| cfg_map := load_entries trim entries (cfg_map c);
         cfg_file := cfg_file c; write_ok := write_ok c |}
  | File_unreadable => c
  | File_absent =>
      if write_ok c
      then {| cfg_map := cfg_map c; cfg_file := File_entries sampleConfig;
              write_ok := write_ok c |}
      else c
  end.

(** [reloadConfigurations]: [clear], then load; answers the size of the
    map. *)
Definition reloadConfigurations (trim : string -> string) (c : Config)
    : nat * Config :=
  let c' := loadEmailConfiguration trim
              {| cfg_map := ∅; cfg_file := cfg_file c; write_ok := write_ok c |} in
  (size (cfg_map c'), c').

(** ** Runs of the server *)

Inductive Event :=
| Ev_heartbeat (hb : Heartbeat)
| Ev_buffered (hb : Heartbeat)
| Ev_sweep
| Ev_load
| Ev_test_email (storeId : string).

Definition handle (e : Event) (s : State) : State :=
  match e with
  | Ev_heartbeat hb => snd (post_heartbeat hb s)
  | Ev_buffered hb => snd (post_heartbeat_buffered hb s)
  | Ev_sweep => snd (performHealthCheck s)
  | Ev_load => snd (loadExistingStoresFromDB s)
  | Ev_test_email storeId => snd (get_test_email storeId s)
  end.

(** A run: each event handled at its instant, one handler running to its
    end before the next starts. *)
Fixpoint run_events (evs : list (Z * Event)) (s : State) : State :=
  match evs with
  | [] => s
  | (t, e) :: rest => run_events rest (handle e (set_clock t s))
  end.

(** The first row of a store in the [stores] table. *)
Definition find_row (id : string) (rows : list StoreRow) : option StoreRow :=
  List.find (fun r => bool_decide (row_store_id r = id)) rows.

Definition is_load (e : Event) : bool :=
  match e with Ev_load => true | _ => false end.

(** ** Observations *)

(** The record a heartbeat writes, given the instant and the record it
    replaces. *)
Definition heartbeat_record (hb : Heartbeat) (now : Z) (prev : option StoreState)
    : StoreState :=
  {| store_id := hb_store_id hb;
     store_name := js_or (hb_store_name hb) ("Store " ++ show_key (hb_store_id hb));
     location := js_or (hb_timezone hb) "Unknown";
     status := St_online; last_heartbeat := Some now; last_seen := Some now;
     data := Some hb; updated_at := now;
     first_seen := match prev with Some p => first_seen p | None => now end |}.

(** A step that makes offline calls only, leaves the startup and recovery
    tables alone and forgets no store. *)
Definition offline_only (s s' : State) : Prop :=
  lastStartupAlerts s' = lastStartupAlerts s /\
  lastRecoveryAlerts s' = lastRecoveryAlerts s /\
  (exists made, alert_calls s' = alert_calls s ++ made /\
                Forall (fun c => ac_type c = A_offline) made) /\
  (forall k, Map_has k (allStores s) = true -> Map_has k (allStores s') = true) /\
  (NoDup (Map_keys (allStores s)) -> NoDup (Map_keys (allStores s'))).

(** The instants of the calls of one kind made for one store, in order. *)
Definition call_times (k : Key) (ty : AlertType) (s : State) : list Z :=
  map ac_time
      (List.filter (fun c => bool_decide (ac_store c = k) && bool_decide (ac_type c = ty))
                   (alert_calls s)).

(** Each instant is more than [gap] after the one before. *)
Fixpoint spaced (gap : Z) (l : list Z) : Prop :=
  match l with
  | [] => True
  | t :: rest =>
      match rest with
      | [] => True
      | t' :: _ => gap < t' - t /\ spaced gap rest
      end
  end.

(** A queued mail and the alert row written by the same [sendAlert]. *)
Definition mail_of_row (m : Email) (r : AlertRow) : Prop :=
  em_store m = Some (al_store_id r) /\
  alertTypeMapping (em_type m) = al_type r /\
  em_severity m = al_severity r.

(** Between two states: mails were queued and alert rows written, and each
    of the mails has its row, in order. *)
Definition rows_cover_mails (s s' : State) : Prop :=
  exists mails rows covered,
    outbox s' = outbox s ++ mails /\
    alerts_tbl (db s') = alerts_tbl (db s) ++ rows /\
    sublist covered rows /\ Forall2 mail_of_row mails covered.

(** The list an entry of the configuration file stands for, when it is an
    array of strings. *)
Definition strings_of (j : Json) : option (list string) :=
  match j with
  | J_array items =>
      mapM (fun i => match i with I_string e => Some e | I_other => None end) items
  | J_other => None
  end.

(** The cooldown tables for startup and recovery hold the instant of the
    last call of their kind, the calls of each kind are spaced by more than
    the cooldown, and a store that got a startup call is in the registry. *)
Definition cooldowns_kept (k : Key) (s : State) : Prop :=
  lastStartupAlerts s !! k = last (call_times k A_startup s) /\
  lastRecoveryAlerts s !! k = last (call_times k A_recovery s) /\
  spaced 600000 (call_times k A_startup s) /\
  spaced 300000 (call_times k A_recovery s) /\
  (call_times k A_startup s <> [] -> Map_has k (allStores s) = true).

(** ** Scenarios *)

(** A sweep six minutes after the first heartbeat of store A, then a
    heartbeat of the store. *)
Definition sweep_then_heartbeat : list (Z * Event) :=
  [(360000, Ev_sweep); (900000, Ev_heartbeat (hb_A false))].

(** The host's sort on a list that is in order already, as the list of a
    single store is. *)
Definition sort_in_order (l : list DashboardStore) : option (list DashboardStore) :=
  Some l.

(** The dashboard one minute after the first heartbeat of store A. *)
Definition dashboard_1 : Dashboard :=
  {| stores :=
       [{| d_store_id := store_A; d_store_name := "Alpha"; d_location := "Unknown";
           d_status := St_online; d_last_heartbeat := Some 0; d_age := Some 60000;
           d_first_seen := 0; d_email_recipients := ["ops@example.org"%string] |}];
     summary := {| total_stores := 1; online_stores := 1; offline_stores := 0;
                   unknown_stores := 0; last_updated := 60000 |} |}.

(** A [trim] for addresses that carry no blanks. *)
Definition trim_nothing (e : string) : string := e.

(** A server configured for store 7 whose file is the sample, one whose
    file is gone, and one whose file has a number among the addresses of
    its second entry. *)
Definition config_sample : Config :=
  {| cfg_map := {[ "7"%string := ["seven@example.org"%string] ]};
     cfg_file := File_entries sampleConfig; write_ok := true |}.

Definition config_gone : Config :=
  {| cfg_map := {[ "default"%string := ["ops@example.org"%string] ]};
     cfg_file := File_absent; write_ok := true |}.

Definition config_broken : Config :=
  {| cfg_map := ∅;
     cfg_file := File_entries
       ([("2308"%string, J_array [I_string "a@example.org"])] ++
        ("2309"%string, J_array [I_string "b@example.org"; I_other]) ::
        [("default"%string, J_array [I_string "ops@example.org"])]);
     write_ok := true |}.

End ServerExtra.


(** * More of the client: the timers and the speed cache *)

Module ClientExtra.
Import Client.

(** ** The timers *)

(** What the timers and the shutdown run: the periodic send, the periodic
    cleanup, and the final drain of [stop].  In a run each is taken to
    finish before the next starts. *)
Inductive Action :=
| Act_send (w : World)
| Act_cleanup (w : World)
| Act_final_drain (w : World).

Definition perform (a : Action) (s : State) : State :=
  match a with
  | Act_send w => snd (sendHeartbeat w s)
  | Act_cleanup w => clearOldBufferedHeartbeats w s
  | Act_final_drain w => sendBufferedHeartbeats w s
  end.

Fixpoint run_actions (acts : list (Z * Action)) (s : State) : State :=
  match acts with
  | [] => s
  | (t, a) :: rest => run_actions rest (perform a (set_clock t s))
  end.

(** [getBufferStatus]: the number of unsent rows and the length of the
    array; a failing [SELECT COUNT] leaves 0. *)
Definition getBufferStatus (w : World) (s : State) : bool * nat * nat :=
  (localDb s,
   length (default [] (heartbeatBuffer s)),
   if localDb s && select_ok w
   then length (List.filter (fun r => negb (b_sent r)) (heartbeat_buffer s))
   else 0%nat).

(** ** The speed cache *)

Section Speed.
Context {Speed : Type}.

(** The host's arithmetic on measured speeds: the mean of the samples,
    rounded to two decimals. *)
Variable average : list Speed -> Speed.

Record SpeedCache := {
  lastNetworkSpeed : option Speed;
  networkSpeedHistory : list (Speed * Z)
}.

(** [measureNetworkSpeed], given the outcome of each probe ([None] for a
    probe that failed) and the instant: with at least one sample the mean
    is cached and appended to the history, which is cut to its last 5
    elements; with none the cache is left alone and the answer is
    [null]. *)
Definition measureNetworkSpeed (probes : list (option Speed)) (now : Z)
    (c : SpeedCache) : option Speed * SpeedCache :=
  let speeds := omap id probes in
  if (0 <? length speeds)%nat then
    let avg := average speeds in
    let history := networkSpeedHistory c ++ [(avg, now)] in
    (Some avg,
     {| lastNetworkSpeed := Some avg;
        networkSpeedHistory :=
          if (5 <? length history)%nat then tail history else history |})
  else (None, c).

(** A series of measurements, each with the outcome of its probes and
    its instant. *)
Fixpoint measure_all (runs : list (list (option Speed) * Z)) (c : SpeedCache)
    : SpeedCache :=
  match runs with
  | [] => c
  | (probes, now) :: rest => measure_all rest (snd (measureNetworkSpeed probes now c))
  end.

End Speed.

(** ** Observations *)

(** The unsent rows of the table. *)
Definition unsent (s : State) : list BufferRow :=
  List.filter (fun r => negb (b_sent r)) (heartbeat_buffer s).

(** The payloads posted to the buffered endpoint, in order. *)
Definition replayed (s : State) : list Payload :=
  map snd (List.filter (fun r => negb (is_live r)) (requests s)).

(** A tick of an outage whose heartbeat is kept: the live send fails and
    the [INSERT] returns. *)
Definition kept (tw : Z * World) : bool :=
  negb (delivered (snd tw)) && insert_ok (snd tw).

(** Whether the live send was rejected (the [catch] branch) rather than
    answered with another status. *)
Definition rejected (w : World) : bool :=
  match live w with Rejected _ _ => true | Resolved _ => false end.

(** ** Scenarios *)

(** The server is down and the local table refuses the [INSERT]. *)
Definition world_down_no_table : World :=
  {| live := Rejected (Some "ECONNREFUSED"%string) None;
     replay := fun _ => Rejected (Some "ECONNREFUSED"%string) None;
     update_err := fun _ => None; select_ok := true; insert_ok := false;
     delete_ok := true |}.

(** An outage of two ticks. *)
Definition outage : list (Z * World) := [(1000, world_down); (2000, world_down)].

(** A failed send, a cleanup and the final drain. *)
Definition fail_clean_stop : list (Z * Action) :=
  [(1000, Act_send world_down); (2000, Act_cleanup world_up);
   (3000, Act_final_drain world_up)].

(** A client without local table whose array holds 100 heartbeats. *)
Definition client_full : State :=
  set_heartbeatBuffer (Some (repeat item_0 100)) client_mem.

(** Speeds as whole numbers with their mean, two probes of which one
    fails, then two that fail. *)
Definition mean (l : list Z) : Z := fold_right Z.add 0 l / Z.of_nat (length l).

Definition two_measurements : list (list (option Z) * Z) :=
  [([Some 10; None], 1000); ([None; None], 2000)].

End ClientExtra.

(** * Properties of the server *)

Module ServerProofs.
Import Server.

(** ** The insertion-ordered map *)

Section MapFacts.
Context {V : Type}.
Implicit Types (m : list (Key * V)) (k : Key) (v : V).

Lemma Map_get_set_eq k v m : Map_get k (Map_set k v m) = Some v.
Proof.
  induction m as [|[k' v'] r IH]; simpl.
  - by rewrite decide_True.
  - destruct (decide (k = k')); simpl.
    + by rewrite decide_True.
    + by rewrite decide_False.
Qed.

Lemma Map_get_set_ne k k' v m :
  k <> k' -> Map_get k' (Map_set k v m) = Map_get k' m.
Proof.
  intros Hne. induction m as [|[k0 v0] r IH]; simpl.
  - by rewrite decide_False.
  - destruct (decide (k = k0)) as [->|]; simpl.
    + by rewrite !decide_False.
    + destruct (decide (k' = k0)); auto.
Qed.

Lemma Map_get_In k v m :
  NoDup (Map_keys m) -> In (k, v) m -> Map_get k m = Some v.
Proof.
  induction m as [|[k0 v0] r IH]; simpl; [tauto|].
  intros Hnd [Heq | Hin].
  - inversion Heq; subst. by rewrite decide_True.
  - apply NoDup_cons in Hnd as [Hnotin Hnd].
    destruct (decide (k = k0)) as [->|].
    + exfalso. apply Hnotin. apply list_elem_of_In.
      change k0 with (fst (k0, v)). by apply in_map.
    + by apply IH.
Qed.

Lemma Map_get_None k m : Map_get k m = None <-> ~ In k (Map_keys m).
Proof.
  induction m as [|[k0 v0] r IH]; simpl; [tauto|].
  destruct (decide (k = k0)) as [->|]; [intuition congruence|].
  rewrite IH. intuition congruence.
Qed.

Lemma In_split_keys k v m :
  NoDup (Map_keys m) -> In (k, v) m ->
  exists l1 l2,
    m = l1 ++ (k, v) :: l2 /\ ~ In k (Map_keys l1) /\ ~ In k (Map_keys l2).
Proof.
  intros Hnd Hin. apply in_split in Hin as (l1 & l2 & ->).
  exists l1, l2. split; [done|].
  unfold Map_keys in *. rewrite map_app in Hnd. simpl in Hnd.
  apply NoDup_app in Hnd as (_ & Hdis & Hnd2).
  apply NoDup_cons in Hnd2 as [Hn2 _].
  split.
  - intros Hin. apply (Hdis k); [by apply list_elem_of_In | left].
  - intros Hin. apply Hn2. by apply list_elem_of_In.
Qed.
End MapFacts.

(** ** Unfolding the handlers *)

Ltac step :=
  unfold healthCheck_body, sendAlert, updateStoreStatusInDB, canSendOfflineAlert,
    db_execute, db_call, new_Date, bind, gets, modify, ret in *; simpl in *.

Ltac step_hb :=
  unfold post_heartbeat, post_heartbeat_buffered, processHeartbeat,
    saveHeartbeatToDatabase, rollback, sendAlert, db_execute, db_execute_params,
    db_call, new_Date, bind, gets, modify, ret in *; simpl in *.

Ltac cases := repeat (case_match; simpl in *; simplify_eq).

Lemma same_config_refl s : same_config s s.
Proof. by repeat split. Qed.

Lemma same_config_trans s1 s2 s3 :
  same_config s1 s2 -> same_config s2 s3 -> same_config s1 s3.
Proof. unfold same_config. intuition congruence. Qed.

Lemma filter_calls_same k (l : list AlertCall) c :
  ac_store c = k ->
  List.filter (fun c => bool_decide (ac_store c = k)) (l ++ [c]) =
  List.filter (fun c => bool_decide (ac_store c = k)) l ++ [c].
Proof.
  intros H. rewrite List.filter_app. simpl.
  by rewrite (bool_decide_eq_true_2 _ H).
Qed.

Lemma filter_calls_other k (l : list AlertCall) c :
  ac_store c <> k ->
  List.filter (fun c => bool_decide (ac_store c = k)) (l ++ [c]) =
  List.filter (fun c => bool_decide (ac_store c = k)) l.
Proof.
  intros H. rewrite List.filter_app. simpl.
  by rewrite (bool_decide_eq_false_2 _ H), app_nil_r.
Qed.

(** ** The sweep, one entry at a time *)

(** An iteration leaves the other stores alone. *)
Lemma body_other ts storeId store k s :
  k <> storeId ->
  let s' := snd (healthCheck_body ts (storeId, store) s) in
  Map_get k (allStores s') = Map_get k (allStores s) /\
  alerts_for k s' = alerts_for k s /\
  lastOfflineAlerts s' !! k = lastOfflineAlerts s !! k.
Proof.
  intros Hne. step. cases;
    unfold alerts_for; simpl;
    rewrite ?filter_calls_other by (simpl; congruence);
    rewrite ?Map_get_set_ne, ?lookup_insert_ne by congruence;
    done.
Qed.

Lemma body_config ts e s : same_config s (snd (healthCheck_body ts e s)).
Proof.
  destruct e as [storeId store]. step. cases; unfold same_config; simpl; done.
Qed.

(** An iteration leaves the rows of the other stores alone. *)
Lemma body_rows ts storeId store (r : StoreRow) s :
  Some (row_store_id r) <> storeId ->
  let s' := snd (healthCheck_body ts (storeId, store) s) in
  map row_store_id (stores_tbl (db s')) = map row_store_id (stores_tbl (db s)) /\
  (In r (stores_tbl (db s)) -> In r (stores_tbl (db s'))).
Proof.
  intros Hne. step. cases; split; try done.
  all: try (rewrite map_map; apply map_ext; intros a; by case_match).
  all: intros Hin; apply in_map_iff; exists r; split; [|done].
  all: case_match; [congruence | done].
Qed.

(** The first offline alert: the status changes and one call is made; the
    cooldown table is not written. *)
Lemma body_first_offline ts k st lh s :
  last_heartbeat st = Some lh -> status st <> St_offline ->
  alertThresholdMinutes s * 60000 < ts - lh ->
  let s' := snd (healthCheck_body ts (k, st) s) in
  Map_get k (allStores s') = Some (with_status st St_offline) /\
  alerts_for k s' = alerts_for k s ++ [offline_call k (clock s)] /\
  lastOfflineAlerts s' = lastOfflineAlerts s.
Proof.
  intros Hlh Hst Hlt. step. rewrite Hlh. simpl.
  assert ((alertThresholdMinutes s * 60000 <? ts - lh) = true) as -> by lia.
  case_bool_decide; [contradiction|]. simpl.
  cases; unfold alerts_for; simpl; rewrite filter_calls_same by done;
    by rewrite Map_get_set_eq.
Qed.

Lemma body_quiet ts k st lh s :
  last_heartbeat st = Some lh ->
  ts - lh <= alertThresholdMinutes s * 60000 ->
  snd (healthCheck_body ts (k, st) s) = s.
Proof.
  intros Hlh Hle. step. rewrite Hlh. simpl.
  assert ((alertThresholdMinutes s * 60000 <? ts - lh) = false) as -> by lia.
  done.
Qed.

(** ** The loop *)

Lemma loop_cons ts e l s :
  snd (healthCheck_loop ts (e :: l) s) =
  snd (healthCheck_loop ts l (snd (healthCheck_body ts e s))).
Proof. simpl. unfold bind. by destruct (healthCheck_body ts e s) as [[] s1]. Qed.

Lemma loop_app ts l1 l2 s :
  snd (healthCheck_loop ts (l1 ++ l2) s) =
  snd (healthCheck_loop ts l2 (snd (healthCheck_loop ts l1 s))).
Proof.
  revert s. induction l1 as [|e l1 IH]; intros s; [done|].
  rewrite <- app_comm_cons, !loop_cons. apply IH.
Qed.

Lemma loop_config ts l s : same_config s (snd (healthCheck_loop ts l s)).
Proof.
  revert s. induction l as [|e l IH]; intros s.
  - apply same_config_refl.
  - rewrite loop_cons. eapply same_config_trans; [apply body_config | apply IH].
Qed.

Lemma loop_other ts l k s :
  ~ In k (Map_keys l) ->
  let s' := snd (healthCheck_loop ts l s) in
  Map_get k (allStores s') = Map_get k (allStores s) /\
  alerts_for k s' = alerts_for k s /\
  lastOfflineAlerts s' !! k = lastOfflineAlerts s !! k.
Proof.
  revert s. induction l as [|[k0 st0] l IH]; intros s Hnotin; [done|].
  cbv zeta. rewrite loop_cons. simpl in Hnotin.
  destruct (body_other ts k0 st0 k s) as (H1 & H2 & H3); [intuition congruence|].
  destruct (IH (snd (healthCheck_body ts (k0, st0) s))) as (I1 & I2 & I3); [tauto|].
  cbv zeta in *. rewrite I1, I2, I3. done.
Qed.

Lemma loop_rows ts l (r : StoreRow) s :
  ~ In (Some (row_store_id r)) (Map_keys l) ->
  let s' := snd (healthCheck_loop ts l s) in
  map row_store_id (stores_tbl (db s')) = map row_store_id (stores_tbl (db s)) /\
  (In r (stores_tbl (db s)) -> In r (stores_tbl (db s'))).
Proof.
  revert s. induction l as [|[k0 st0] l IH]; intros s Hnotin; [done|].
  cbv zeta. rewrite loop_cons. simpl in Hnotin.
  destruct (body_rows ts k0 st0 r s) as (H1 & H2); [intuition congruence|].
  destruct (IH (snd (healthCheck_body ts (k0, st0) s))) as (I1 & I2); [tauto|].
  cbv zeta in *. rewrite I1, H1. auto.
Qed.

(** ** Hydration *)

Lemma hydrate_keeps {A} k (v : StoreState) (f : A -> Key) (g : A -> StoreState) rows m :
  Map_get k m = Some v ->
  Map_get k (fold_left (fun m r => if negb (Map_has (f r) m)
                                   then Map_set (f r) (g r) m else m) rows m) = Some v.
Proof.
  revert m. induction rows as [|r rows IH]; intros m Hm; simpl; [done|].
  apply IH. unfold Map_has.
  destruct (Map_get (f r) m) eqn:E; simpl; [done|].
  rewrite Map_get_set_ne; [done|]. congruence.
Qed.

Lemma sync_frame ts s :
  let s' := snd (syncWithDatabase ts s) in
  alert_calls s' = alert_calls s /\ outbox s' = outbox s /\ db s' = db s /\
  lastOfflineAlerts s' = lastOfflineAlerts s /\
  (forall k v, Map_get k (allStores s) = Some v -> Map_get k (allStores s') = Some v).
Proof.
  unfold syncWithDatabase. step.
  destruct (db_ok s (db_ops s)); simpl; repeat split; auto.
  intros k v Hk.
  apply (hydrate_keeps k v (fun r => Some (row_store_id r)) (hydrate_sync ts)). done.
Qed.

Lemma sync_fold_hydrates ts (r : StoreRow) rows m :
  NoDup (map row_store_id rows) -> In r rows ->
  Map_get (Some (row_store_id r)) m = None ->
  Map_get (Some (row_store_id r))
    (fold_left (fun m dbStore =>
                  if negb (Map_has (Some (row_store_id dbStore)) m)
                  then Map_set (Some (row_store_id dbStore)) (hydrate_sync ts dbStore) m
                  else m) rows m) = Some (hydrate_sync ts r).
Proof.
  revert m. induction rows as [|r0 rows IH]; intros m Hnd Hin Hm; [done|].
  simpl in Hnd. apply NoDup_cons in Hnd as [Hnotin Hnd].
  destruct Hin as [-> | Hin]; simpl.
  - unfold Map_has. rewrite Hm. simpl.
    apply (hydrate_keeps _ _ (fun r => Some (row_store_id r)) (hydrate_sync ts)).
    apply Map_get_set_eq.
  - apply IH; [done | done |].
    assert (row_store_id r0 <> row_store_id r) as Hne.
    { intros Heq. apply Hnotin. rewrite Heq. apply list_elem_of_In. by apply in_map. }
    destruct (negb (Map_has (Some (row_store_id r0)) m)); [|done].
    rewrite Map_get_set_ne; [done | congruence].
Qed.

Lemma sync_hydrates ts s (r : StoreRow) :
  db_ok s (db_ops s) = true ->
  NoDup (map row_store_id (stores_tbl (db s))) -> In r (stores_tbl (db s)) ->
  Map_get (Some (row_store_id r)) (allStores s) = None ->
  Map_get (Some (row_store_id r)) (allStores (snd (syncWithDatabase ts s))) =
    Some (hydrate_sync ts r).
Proof.
  intros Hok Hnd Hin Hm. unfold syncWithDatabase. step. rewrite Hok. simpl.
  by apply sync_fold_hydrates.
Qed.

Lemma load_fold_keeps k (v : StoreState) rows m :
  ~ In k (map (fun r => Some (row_store_id r)) rows) ->
  Map_get k m = Some v ->
  Map_get k (fold_left (fun m store =>
                          Map_set (Some (row_store_id store)) (hydrate_load store) m)
                       rows m) = Some v.
Proof.
  revert m. induction rows as [|r0 rows IH]; intros m Hnotin Hm; [done|].
  simpl in *. apply IH; [tauto|].
  rewrite Map_get_set_ne; [done | intuition congruence].
Qed.

Lemma load_fold_hydrates (r : StoreRow) rows m :
  NoDup (map row_store_id rows) -> In r rows ->
  Map_get (Some (row_store_id r))
    (fold_left (fun m store =>
                  Map_set (Some (row_store_id store)) (hydrate_load store) m)
               rows m) = Some (hydrate_load r).
Proof.
  revert m. induction rows as [|r0 rows IH]; intros m Hnd Hin; [done|].
  simpl in Hnd. apply NoDup_cons in Hnd as [Hnotin Hnd].
  destruct Hin as [-> | Hin]; simpl.
  - apply load_fold_keeps; [|apply Map_get_set_eq].
    intros Hin. apply Hnotin. apply list_elem_of_In.
    apply in_map_iff in Hin as (r' & Heq & Hr').
    injection Heq as Heq. rewrite <- Heq. by apply in_map.
  - by apply IH.
Qed.

Lemma performHealthCheck_unfold s :
  snd (performHealthCheck s) =
  snd (syncWithDatabase (clock s) (snd (healthCheck_loop (clock s) (allStores s) s))).
Proof.
  unfold performHealthCheck, bind, new_Date, gets. simpl.
  by destruct (healthCheck_loop (clock s) (allStores s) s) as [[] s1].
Qed.

(** ** Ingestion *)

Lemma processHeartbeat_ack s hb :
  ack_status (fst (processHeartbeat hb s)) = "success"%string.
Proof. step_hb. cases; done. Qed.

Lemma post_heartbeat_ok s hb :
  http_status (fst (post_heartbeat hb s)) = 200 /\
  body_status (fst (post_heartbeat hb s)) = "success"%string /\
  http_status (fst (post_heartbeat_buffered hb s)) = 200 /\
  body_status (fst (post_heartbeat_buffered hb s)) = "success"%string.
Proof.
  pose proof (processHeartbeat_ack s hb) as Hack.
  unfold post_heartbeat, post_heartbeat_buffered, bind, ret.
  destruct (processHeartbeat hb s) as [a s']. simpl in *. done.
Qed.

Lemma processHeartbeat_registry s hb :
  exists st,
    Map_get (hb_store_id hb) (allStores (snd (processHeartbeat hb s))) = Some st /\
    status st = St_online /\ last_heartbeat st = Some (clock s) /\
    data st = Some hb /\
    first_seen st = match Map_get (hb_store_id hb) (allStores s) with
                    | Some p => first_seen p
                    | None => clock s
                    end.
Proof.
  step_hb. cases; eexists; (split; [apply Map_get_set_eq | done]).
Qed.

(** ** Cooldowns, one step at a time *)

(** A heartbeat without the startup flag for a store recorded as offline
    makes a recovery call when the 5-minute recovery cooldown allows, and
    records the instant; otherwise it makes no call. *)
Lemma recovery_respects_cooldown s hb p :
  Map_get (hb_store_id hb) (allStores s) = Some p ->
  hb_is_startup hb = false -> status p = St_offline ->
  let k := hb_store_id hb in
  let s' := snd (processHeartbeat hb s) in
  if cooldown_over (lastRecoveryAlerts s !! k) (clock s) 5
  then alert_calls s' = alert_calls s ++ [recovery_call k (clock s)] /\
       lastRecoveryAlerts s' = <[k := clock s]> (lastRecoveryAlerts s)
  else alert_calls s' = alert_calls s /\
       lastRecoveryAlerts s' = lastRecoveryAlerts s.
Proof.
  intros Hp Hst Hoff. cbv zeta. step_hb. rewrite Hp, Hst, Hoff. simpl.
  destruct (cooldown_over _ _ _) eqn:Hc; cases; rewrite ?app_nil_r; done.
Qed.

(** For a store that is already offline, the sweep makes a repeat call when
    the cooldown table has no entry for it or the recorded instant is at
    least the cooldown old, and records the instant of the call. *)
Lemma repeat_offline_respects_record ts k st lh s :
  last_heartbeat st = Some lh -> status st = St_offline ->
  alertThresholdMinutes s * 60000 < ts - lh ->
  let s' := snd (healthCheck_body ts (k, st) s) in
  let due := match lastOfflineAlerts s !! k with
             | Some last => offlineAlertCooldownMinutes s * 60000 <=? clock s - last
             | None => true
             end in
  if due
  then alerts_for k s' = alerts_for k s ++ [offline_call k (clock s)] /\
       lastOfflineAlerts s' !! k = Some (clock s)
  else alerts_for k s' = alerts_for k s /\
       lastOfflineAlerts s' = lastOfflineAlerts s.
Proof.
  intros Hlh Hst Hlt. cbv zeta. step. rewrite Hlh, Hst. simpl.
  assert ((alertThresholdMinutes s * 60000 <? ts - lh) = true) as -> by lia.
  simpl. destruct (lastOfflineAlerts s !! k) as [last|] eqn:El; simpl.
  - destruct (offlineAlertCooldownMinutes s * 60000 <=? clock s - last) eqn:Ec;
      simpl; [|done].
    cases; unfold alerts_for; simpl; rewrite filter_calls_same by done;
      by rewrite lookup_insert_eq.
  - cases; unfold alerts_for; simpl; rewrite filter_calls_same by done;
      by rewrite lookup_insert_eq.
Qed.

(** ** Main results *)

(** C1, as the code has it: the sweep compares the age of the last heartbeat
    with the threshold alone, there is no 30-second buffer.  For a store
    with a recorded last heartbeat whose status is not offline, a sweep at
    [clock s] turns it offline and makes exactly one offline call when the
    age exceeds [alertThresholdMinutes] minutes, and otherwise leaves the
    record alone and makes no call for it. *)
Theorem sweep_offline_threshold s k st lh :
  NoDup (Map_keys (allStores s)) -> In (k, st) (allStores s) ->
  last_heartbeat st = Some lh -> status st <> St_offline ->
  let s' := snd (performHealthCheck s) in
  if alertThresholdMinutes s * 60000 <? clock s - lh
  then Map_get k (allStores s') = Some (with_status st St_offline) /\
       alerts_for k s' = alerts_for k s ++ [offline_call k (clock s)]
  else Map_get k (allStores s') = Some st /\ alerts_for k s' = alerts_for k s.
Proof.
  intros Hnd Hin Hlh Hst. cbv zeta. rewrite performHealthCheck_unfold.
  destruct (In_split_keys k st _ Hnd Hin) as (l1 & l2 & Hm & Hn1 & Hn2).
  assert (snd (healthCheck_loop (clock s) (allStores s) s) =
          snd (healthCheck_loop (clock s) l2
                 (snd (healthCheck_body (clock s) (k, st)
                         (snd (healthCheck_loop (clock s) l1 s)))))) as ->
    by (rewrite Hm at 1; by rewrite loop_app, loop_cons).
  destruct (loop_other (clock s) l1 k s Hn1) as (A1 & A2 & _).
  pose proof (loop_config (clock s) l1 s) as (Ac & At & _).
  remember (snd (healthCheck_loop (clock s) l1 s)) as sa eqn:Esa.
  pose proof (body_first_offline (clock s) k st lh sa Hlh Hst) as Hfirst.
  pose proof (body_quiet (clock s) k st lh sa Hlh) as Hquiet.
  remember (snd (healthCheck_body (clock s) (k, st) sa)) as sb eqn:Esb.
  destruct (loop_other (clock s) l2 k sb Hn2) as (B1 & B2 & _).
  remember (snd (healthCheck_loop (clock s) l2 sb)) as sc eqn:Esc.
  destruct (sync_frame (clock s) sc) as (S1 & _ & _ & _ & S2).
  remember (snd (syncWithDatabase (clock s) sc)) as sd eqn:Esd.
  assert (alerts_for k sd = alerts_for k sb) as ->
    by (rewrite <- B2; unfold alerts_for; by rewrite S1).
  rewrite At in *.
  destruct (alertThresholdMinutes s * 60000 <? clock s - lh) eqn:Hd.
  - destruct Hfirst as (C1 & C2 & _); [lia|]. split.
    + apply S2. by rewrite B1.
    + by rewrite C2, A2, Ac.
  - rewrite Hquiet in * by lia. split.
    + apply S2. rewrite B1, A1. by apply Map_get_In.
    + done.
Qed.

(** C1, as stated, fails: with the default threshold of 5 minutes, a sweep
    exactly 5 minutes and 30 seconds after the last heartbeat turns the
    store offline and makes the offline call. *)
Lemma sweep_fires_at_buffer_boundary :
  let s' := at_time 330000 performHealthCheck server_1 in
  alertThresholdMinutes server_1 = 5 /\
  last_heartbeat <$> Map_get store_A (allStores server_1) = Some (Some 0) /\
  330000 - 0 = 5 * 60000 + 30000 /\
  status <$> Map_get store_A (allStores server_1) = Some St_online /\
  status <$> Map_get store_A (allStores s') = Some St_offline /\
  alerts_for store_A s' = alerts_for store_A server_1 ++ [offline_call store_A 330000].
Proof. vm_compute. repeat split. Qed.

(** C2, at the failing input: store A goes silent after instant 0; the sweep
    at 6 minutes makes the first offline call and leaves the cooldown table
    empty, so the sweep at 8 minutes, which finds the store already
    offline, makes a repeat call 2 minutes after the first although the
    cooldown is 5 minutes. *)
Lemma repeat_offline_alert_inside_cooldown :
  status <$> Map_get store_A (allStores server_6min) = Some St_offline /\
  lastOfflineAlerts server_6min !! store_A = None /\
  alerts_for store_A server_8min =
    [startup_call store_A 0; offline_call store_A 360000; offline_call store_A 480000] /\
  offlineAlertCooldownMinutes server_8min * 60000 = 300000 /\
  480000 - 360000 < 300000.
Proof. vm_compute. repeat split. Qed.

(** C3, as the code has it: a store found in persistence and absent from
    memory is hydrated with the status its row holds, whatever it is; the
    sweep that hydrates it makes no call for it, and the load at start
    makes no call, queues no mail and writes no alert row. *)
Theorem hydration_keeps_persisted_status s (r : StoreRow) :
  NoDup (map row_store_id (stores_tbl (db s))) ->
  In r (stores_tbl (db s)) ->
  (forall n, db_ok s n = true) ->
  Map_get (Some (row_store_id r)) (allStores s) = None ->
  let k := Some (row_store_id r) in
  (let s' := snd (performHealthCheck s) in
   Map_get k (allStores s') = Some (hydrate_sync (clock s) r) /\
   status (hydrate_sync (clock s) r) = row_status r /\
   alerts_for k s' = alerts_for k s) /\
  (let s' := snd (loadExistingStoresFromDB s) in
   Map_get k (allStores s') = Some (hydrate_load r) /\
   status (hydrate_load r) = row_status r /\
   alert_calls s' = alert_calls s /\ outbox s' = outbox s /\
   alerts_tbl (db s') = alerts_tbl (db s)).
Proof.
  intros Hnd Hin Hok Hm. cbv zeta. split.
  - rewrite performHealthCheck_unfold.
    apply Map_get_None in Hm.
    destruct (loop_other (clock s) (allStores s) _ s Hm) as (A1 & A2 & _).
    destruct (loop_rows (clock s) (allStores s) r s Hm) as (R1 & R2).
    pose proof (loop_config (clock s) (allStores s) s) as (_ & _ & _ & _ & _ & Hdb).
    remember (snd (healthCheck_loop (clock s) (allStores s) s)) as sc eqn:Esc.
    destruct (sync_frame (clock s) sc) as (S1 & _).
    split; [|split; [done|]].
    + apply sync_hydrates.
      * rewrite Hdb. apply Hok.
      * by rewrite R1.
      * by apply R2.
      * rewrite A1. by apply Map_get_None.
    + rewrite <- A2. unfold alerts_for. by rewrite S1.
  - unfold loadExistingStoresFromDB. step. rewrite Hok. simpl.
    split; [|done]. by apply load_fold_hydrates.
Qed.

(** C3, as stated, fails: store B is persisted as offline and absent from
    memory; after the sweep, and after the load at start, its status in
    memory is offline, not unknown. *)
Lemma hydration_copies_offline_status :
  Map_get (Some "B"%string) (allStores server_B) = None /\
  status <$> Map_get (Some "B"%string) (allStores (snd (performHealthCheck server_B)))
    = Some St_offline /\
  status <$> Map_get (Some "B"%string) (allStores (snd (loadExistingStoresFromDB server_B)))
    = Some St_offline /\
  St_offline <> St_unknown.
Proof. vm_compute. repeat split; discriminate. Qed.

(** C5: a heartbeat with [is_startup = true] for a store that has a record,
    whatever its status, takes the startup branch: the only call it can
    make is a startup call, made when the 10-minute startup cooldown
    allows, and the recovery table is not written. *)
Theorem startup_flag_never_recovery s hb p :
  Map_get (hb_store_id hb) (allStores s) = Some p ->
  hb_is_startup hb = true ->
  let k := hb_store_id hb in
  let s' := snd (processHeartbeat hb s) in
  let made := if cooldown_over (lastStartupAlerts s !! k) (clock s) 10
              then [startup_call k (clock s)] else [] in
  alert_calls s' = alert_calls s ++ made /\
  Forall (fun c => ac_type c = A_startup) made /\
  lastRecoveryAlerts s' = lastRecoveryAlerts s.
Proof.
  intros Hp Hst. cbv zeta. split; [|split].
  - step_hb. rewrite Hp, Hst. simpl. cases; rewrite ?app_nil_r; done.
  - destruct (cooldown_over _ _ _); repeat constructor.
  - step_hb. rewrite Hp, Hst. simpl. cases; done.
Qed.

Lemma bind_run {A B} (c : M A) (k : A -> M B) s :
  bind c k s = k (fst (c s)) (snd (c s)).
Proof. unfold bind. by destruct (c s). Qed.

(** The transaction either leaves the database as it was or commits, and it
    commits only with a store id, six answered calls and every telemetry
    parameter defined. *)
Lemma save_outcome k hb ts s :
  let s' := snd (saveHeartbeatToDatabase k hb ts s) in
  db s' = db s \/
  exists id, k = Some id /\
    (forall i, (i < 6)%nat -> db_ok s (db_ops s + i)%nat = true) /\
    all_defined (history_params hb) = true /\
    all_defined (stats_params hb) = true /\
    db s' = commit_heartbeat id hb ts (db s).
Proof.
  cbv zeta.
  unfold saveHeartbeatToDatabase, rollback, db_execute, db_execute_params, db_call,
    bind, gets, modify, ret. simpl.
  destruct (db_ok s (db_ops s)) eqn:E0; simpl; [|by left].
  destruct (db_ok s (S (db_ops s))) eqn:E1; simpl; [|by left].
  destruct k as [id|]; simpl; [|by left].
  destruct (db_ok s (S (S (db_ops s)))) eqn:E2; simpl; [|by left].
  destruct (all_defined (history_params hb)) eqn:D1; simpl; [|by left].
  destruct (db_ok s (S (S (S (db_ops s))))) eqn:E3; simpl; [|by left].
  destruct (all_defined (stats_params hb)) eqn:D2; simpl; [|by left].
  destruct (db_ok s (S (S (S (S (db_ops s)))))) eqn:E4; simpl; [|by left].
  destruct (db_ok s (S (S (S (S (S (db_ops s))))))) eqn:E5; simpl; [|by left].
  right. exists id. split; [done|]. split; [|done].
  intros i Hi. destruct i as [|[|[|[|[|[|]]]]]]; try lia;
    rewrite ?Nat.add_succ_r, ?Nat.add_0_r; done.
Qed.

(** An alert writes to the alerts table only. *)
Lemma sendAlert_tables k ty sev s :
  let d := db (snd (sendAlert k ty sev s)) in
  stores_tbl d = stores_tbl (db s) /\
  heartbeat_history d = heartbeat_history (db s) /\
  system_stats d = system_stats (db s).
Proof. cbv zeta. step. cases; done. Qed.

(** The three tables of a heartbeat are those its transaction leaves: the
    alert a heartbeat may send only adds to the alerts table. *)
Lemma processHeartbeat_tables s hb :
  exists r,
    let s1 := snd (saveHeartbeatToDatabase (hb_store_id hb) hb (clock s)
                     (set_allStores (Map_set (hb_store_id hb) r) s)) in
    let d := db (snd (processHeartbeat hb s)) in
    stores_tbl d = stores_tbl (db s1) /\
    heartbeat_history d = heartbeat_history (db s1) /\
    system_stats d = system_stats (db s1).
Proof.
  exists {| store_id := hb_store_id hb;
            store_name := js_or (hb_store_name hb)
                                ("Store " ++ show_key (hb_store_id hb));
            location := js_or (hb_timezone hb) "Unknown";
            status := St_online; last_heartbeat := Some (clock s);
            last_seen := Some (clock s); data := Some hb; updated_at := clock s;
            first_seen := match Map_get (hb_store_id hb) (allStores s) with
                          | Some p => first_seen p
                          | None => clock s
                          end |}.
  cbv zeta. unfold processHeartbeat. cbv zeta.
  rewrite bind_run. cbv beta. rewrite bind_run. cbv beta.
  rewrite bind_run. cbv beta. rewrite bind_run. cbv beta.
  rewrite bind_run. cbv beta. rewrite bind_run. cbv beta.
  unfold new_Date. unfold gets at 1 2 3 4 5 6. unfold modify at 1 2 3. unfold ret at 1. simpl.
  set (s1 := (saveHeartbeatToDatabase _ _ _ _).2). clearbody s1.
  assert (Hsend : forall ty sev f,
    let d := db (snd ((sendAlert (hb_store_id hb) ty sev ;; modify f) s1)) in
    (forall x, db (f x) = db x) ->
    stores_tbl d = stores_tbl (db s1) /\
    heartbeat_history d = heartbeat_history (db s1) /\
    system_stats d = system_stats (db s1)).
  { intros ty sev f d Hf. subst d. rewrite bind_run. unfold modify. simpl.
    rewrite Hf. apply sendAlert_tables. }
  destruct (Map_get (hb_store_id hb) (allStores s)) as [p|]; [|by apply Hsend].
  destruct (hb_is_startup hb).
  { rewrite bind_run. unfold gets at 1. simpl.
    destruct (cooldown_over _ _ _); [by apply Hsend | done]. }
  destruct (bool_decide (status p = St_offline)); [|done].
  rewrite bind_run. unfold gets at 1. simpl.
  destruct (cooldown_over _ _ _); [by apply Hsend | done].
Qed.

(** C8: when the transaction that persists a heartbeat fails, at whichever
    of its six driver calls, the handler still returns the success ack and
    the route answers 200; the record in memory is updated all the same and
    none of the three tables has changed. *)
Theorem persistence_failure_still_acks s hb i :
  (i < 6)%nat -> db_ok s (db_ops s + i)%nat = false ->
  let r := processHeartbeat hb s in
  ack_status (fst r) = "success"%string /\
  http_status (fst (post_heartbeat hb s)) = 200 /\
  body_status (fst (post_heartbeat hb s)) = "success"%string /\
  (exists st, Map_get (hb_store_id hb) (allStores (snd r)) = Some st /\
              status st = St_online /\ last_heartbeat st = Some (clock s) /\
              data st = Some hb) /\
  stores_tbl (db (snd r)) = stores_tbl (db s) /\
  heartbeat_history (db (snd r)) = heartbeat_history (db s) /\
  system_stats (db (snd r)) = system_stats (db s).
Proof.
  intros Hi Hfail. cbv zeta.
  split; [apply processHeartbeat_ack|].
  destruct (post_heartbeat_ok s hb) as (P1 & P2 & _).
  split; [done|split; [done|]].
  split.
  { destruct (processHeartbeat_registry s hb) as (st & ? & ? & ? & ? & _). eauto. }
  destruct (processHeartbeat_tables s hb) as (r & -> & -> & ->).
  destruct (save_outcome (hb_store_id hb) hb (clock s)
              (set_allStores (Map_set (hb_store_id hb) r) s))
    as [Hd | (id & _ & Hall & _)].
  - cbv zeta in Hd. by rewrite Hd.
  - specialize (Hall i Hi). simpl in Hall. congruence.
Qed.

(** C9: the recipients of an alert are the store's own list when it is not
    empty and the default list otherwise; the alert row is written before
    recipients are looked at, and a mail is queued only when mail is enabled
    and the recipient list is not empty, so with both lists empty the row
    is there and nothing is queued. *)
Theorem alert_recipients s id ty sev :
  db_ok s (db_ops s) = true ->
  let k := Some id in
  let s' := snd (sendAlert k ty sev s) in
  let own := default [] (storeEmailConfig s !! id) in
  let fallback := default [] (storeEmailConfig s !! "default"%string) in
  let recipients := getEmailRecipients (storeEmailConfig s) k in
  recipients = match own with [] => fallback | _ :: _ => own end /\
  alerts_tbl (db s') = alerts_tbl (db s) ++
    [{| al_store_id := id; al_type := alertTypeMapping ty;
        al_severity := sev; al_timestamp := clock s |}] /\
  outbox s' = outbox s ++
    (if emailEnabled s && negb (bool_decide (recipients = []))
     then [{| em_to := recipients; em_store := k; em_type := ty;
              em_severity := sev |}]
     else []).
Proof.
  intros Hok. cbv zeta. split; [|split].
  - unfold getEmailRecipients. simpl. by destruct (default [] _).
  - step_hb. rewrite Hok. simpl. cases; done.
  - step_hb. rewrite Hok. simpl.
    destruct (emailEnabled s); simpl; [|by rewrite app_nil_r].
    destruct (getEmailRecipients (storeEmailConfig s) (Some id)) eqn:E; simpl.
    + by rewrite app_nil_r.
    + done.
Qed.

(** ** The results on the scenarios *)

(** C1 witness: the sweep 6 minutes after the only heartbeat of store A. *)
Lemma sweep_offline_threshold_witness :
  let s := set_clock 360000 server_1 in
  NoDup (Map_keys (allStores s)) /\ In (store_A, record_A) (allStores s) /\
  last_heartbeat record_A = Some 0 /\ status record_A <> St_offline /\
  Map_get store_A (allStores (snd (performHealthCheck s))) =
    Some (with_status record_A St_offline) /\
  alerts_for store_A (snd (performHealthCheck s)) =
    alerts_for store_A s ++ [offline_call store_A 360000].
Proof.
  assert (NoDup (Map_keys (allStores (set_clock 360000 server_1)))) as H1
    by (vm_compute; apply NoDup_singleton).
  assert (In (store_A, record_A) (allStores (set_clock 360000 server_1))) as H2
    by (vm_compute; left; reflexivity).
  assert (last_heartbeat record_A = Some 0) as H3 by reflexivity.
  assert (status record_A <> St_offline) as H4 by discriminate.
  split; [exact H1|]. split; [exact H2|]. split; [exact H3|]. split; [exact H4|].
  exact (sweep_offline_threshold (set_clock 360000 server_1) store_A record_A 0
           H1 H2 H3 H4).
Defined.

(** C3 witness: store B, persisted as offline, on a freshly started server. *)
Lemma hydration_keeps_persisted_status_witness :
  NoDup (map row_store_id (stores_tbl (db server_B))) /\
  In row_B (stores_tbl (db server_B)) /\
  (forall n, db_ok server_B n = true) /\
  Map_get (Some "B"%string) (allStores server_B) = None /\
  (Map_get (Some "B"%string) (allStores (snd (performHealthCheck server_B))) =
     Some (hydrate_sync 2000 row_B) /\
   status (hydrate_sync 2000 row_B) = St_offline /\
   alerts_for (Some "B"%string) (snd (performHealthCheck server_B)) =
     alerts_for (Some "B"%string) server_B) /\
  (Map_get (Some "B"%string) (allStores (snd (loadExistingStoresFromDB server_B))) =
     Some (hydrate_load row_B) /\
   status (hydrate_load row_B) = St_offline /\
   alert_calls (snd (loadExistingStoresFromDB server_B)) = alert_calls server_B /\
   outbox (snd (loadExistingStoresFromDB server_B)) = outbox server_B /\
   alerts_tbl (db (snd (loadExistingStoresFromDB server_B))) =
     alerts_tbl (db server_B)).
Proof.
  assert (NoDup (map row_store_id (stores_tbl (db server_B)))) as H1
    by (vm_compute; apply NoDup_singleton).
  assert (In row_B (stores_tbl (db server_B))) as H2 by (left; reflexivity).
  assert (forall n, db_ok server_B n = true) as H3 by (intros n; reflexivity).
  assert (Map_get (Some "B"%string) (allStores server_B) = None) as H4 by reflexivity.
  split; [exact H1|]. split; [exact H2|]. split; [exact H3|]. split; [exact H4|].
  exact (hydration_keeps_persisted_status server_B row_B H1 H2 H3 H4).
Defined.

(** C5 witness: store A, offline after the sweep at 6 minutes, restarts 15
    minutes after its first heartbeat: one startup call, no recovery. *)
Lemma startup_flag_never_recovery_witness :
  let s := set_clock 900000 server_6min in
  Map_get (hb_store_id (hb_A true)) (allStores s) = Some (with_status record_A St_offline) /\
  hb_is_startup (hb_A true) = true /\
  alert_calls (snd (processHeartbeat (hb_A true) s)) =
    alert_calls s ++ [startup_call store_A 900000] /\
  Forall (fun c => ac_type c = A_startup) [startup_call store_A 900000] /\
  lastRecoveryAlerts (snd (processHeartbeat (hb_A true) s)) = lastRecoveryAlerts s.
Proof.
  assert (Map_get (hb_store_id (hb_A true)) (allStores (set_clock 900000 server_6min))
          = Some (with_status record_A St_offline)) as H1 by (vm_compute; reflexivity).
  assert (hb_is_startup (hb_A true) = true) as H2 by reflexivity.
  split; [exact H1|]. split; [exact H2|].
  exact (startup_flag_never_recovery (set_clock 900000 server_6min) (hb_A true)
           (with_status record_A St_offline) H1 H2).
Defined.

(** C8 witness: the database refuses the first call, [getConnection]. *)
Lemma persistence_failure_still_acks_witness :
  (0 < 6)%nat /\ db_ok server_down (db_ops server_down + 0)%nat = false /\
  ack_status (fst (processHeartbeat (hb_A true) server_down)) = "success"%string /\
  http_status (fst (post_heartbeat (hb_A true) server_down)) = 200 /\
  body_status (fst (post_heartbeat (hb_A true) server_down)) = "success"%string /\
  (exists st,
     Map_get store_A (allStores (snd (processHeartbeat (hb_A true) server_down))) = Some st /\
     status st = St_online /\ last_heartbeat st = Some 0 /\
     data st = Some (hb_A true)) /\
  stores_tbl (db (snd (processHeartbeat (hb_A true) server_down))) = [] /\
  heartbeat_history (db (snd (processHeartbeat (hb_A true) server_down))) = [] /\
  system_stats (db (snd (processHeartbeat (hb_A true) server_down))) = [].
Proof.
  assert ((0 < 6)%nat) as H1 by lia.
  assert (db_ok server_down (db_ops server_down + 0)%nat = false) as H2 by reflexivity.
  split; [exact H1|]. split; [exact H2|].
  exact (persistence_failure_still_acks server_down (hb_A true) 0%nat H1 H2).
Defined.

(** C9 witness: an offline alert for store B on a server without any
    recipient: the row is written, nothing is queued. *)
Lemma alert_recipients_witness :
  db_ok server_B (db_ops server_B) = true /\
  getEmailRecipients (storeEmailConfig server_B) (Some "B"%string) = [] /\
  alerts_tbl (db (snd (sendAlert (Some "B"%string) A_offline critical server_B))) =
    [{| al_store_id := "B"; al_type := Db_offline; al_severity := critical;
        al_timestamp := 2000 |}] /\
  outbox (snd (sendAlert (Some "B"%string) A_offline critical server_B)) = [].
Proof.
  assert (db_ok server_B (db_ops server_B) = true) as H1 by reflexivity.
  split; [exact H1|].
  exact (alert_recipients server_B "B"%string A_offline critical H1).
Defined.

End ServerProofs.

(** * Properties of the client *)

Module ClientProofs.
Import Client.

(** ** The startup flag *)








(** ** The batch *)

Lemma insert_by_id_perm r l : Permutation (insert_by_id r l) (r :: l).
Proof.
  induction l as [|x t IH]; simpl; [done|].
  destruct (b_id r <=? b_id x); [done|].
  rewrite IH. apply perm_swap.
Qed.

Lemma insert_by_id_sorted r l :
  StronglySorted id_le l -> StronglySorted id_le (insert_by_id r l).
Proof.
  induction 1 as [|x t Hs IH Hall]; simpl.
  - repeat constructor.
  - destruct (b_id r <=? b_id x) eqn:E.
    + constructor; [by constructor|].
      constructor; [unfold id_le; lia|].
      eapply Forall_impl; [exact Hall|]. unfold id_le. simpl. intros; lia.
    + constructor; [done|].
      rewrite insert_by_id_perm. constructor; [unfold id_le; lia | done].
Qed.

Lemma order_by_id_perm l : Permutation (order_by_id l) l.
Proof.
  induction l as [|x t IH]; simpl; [done|].
  rewrite insert_by_id_perm. by constructor.
Qed.

Lemma order_by_id_sorted l : StronglySorted id_le (order_by_id l).
Proof.
  induction l as [|x t IH]; simpl; [constructor | by apply insert_by_id_sorted].
Qed.

Lemma peek_batch w s batch :
  peek w s = Some batch ->
  (length batch <= 10)%nat /\
  if localDb s
  then exists sorted,
         Permutation sorted
           (List.filter (fun r => negb (b_sent r)) (heartbeat_buffer s)) /\
         StronglySorted id_le sorted /\
         batch = map (fun r => (b_id r, b_data r)) (take 10 sorted)
  else batch = map (fun i => (m_id i, DataValue (Some (m_data i))))
                   (take 10 (default [] (heartbeatBuffer s))).
Proof.
  unfold peek, select_unsent. intros Hp.
  destruct (localDb s).
  - destruct (select_ok w); [|done]. injection Hp as <-.
    split; [rewrite length_map, length_take; lia|].
    eexists. split; [apply order_by_id_perm|]. split; [apply order_by_id_sorted|done].
  - destruct (heartbeatBuffer s) as [l|]; injection Hp as <-; simpl.
    + split; [rewrite length_map, length_take; lia|]. done.
    + split; [lia|]. done.
Qed.

(** Every row of the batch read from the table is an unsent row of the
    table. *)
Lemma select_unsent_In rows id d :
  In (id, d) (select_unsent rows) ->
  exists r, In r rows /\ b_id r = id /\ b_data r = d /\ b_sent r = false.
Proof.
  unfold select_unsent. intros Hin.
  apply in_map_iff in Hin as (r & Heq & Hr). injection Heq as <- <-.
  exists r. apply list_elem_of_In, elem_of_take in Hr as (i & Hr & _).
  apply list_elem_of_lookup_2, list_elem_of_In in Hr.
  apply (Permutation_in _ (order_by_id_perm _)) in Hr.
  apply filter_In in Hr as [Hr Hs]. apply negb_true_iff in Hs. done.
Qed.

(** ** The drain *)

Lemma processed_cons w b i r rest :
  processed w b i (r :: rest) =
  (i, r) :: (if aborts w b i r then [] else processed w b (S i) rest).
Proof. done. Qed.

Lemma posted_cons b i r l :
  posted b ((i, r) :: l) =
  match decode b (snd r) with
  | Some p => (Buffered, p) :: posted b l
  | None => posted b l
  end.
Proof. unfold posted. simpl. by destruct (decode b (snd r)). Qed.

Lemma acked_ids_cons w b i r l :
  acked_ids w b ((i, r) :: l) =
  if acked w b i r then fst r :: acked_ids w b l else acked_ids w b l.
Proof. unfold acked_ids. simpl. by destruct (acked w b i r). Qed.

Lemma processed_In w b i rows j r :
  In (j, r) (processed w b i rows) -> In r rows.
Proof.
  revert i. induction rows as [|r0 rest IH]; intros i; simpl; [done|].
  intros [Heq | Hin]; [injection Heq as _ <-; by left|].
  destruct (aborts w b i r0); [done|]. right. by eapply IH.
Qed.

Lemma acked_ids_In w b l id :
  In id (acked_ids w b l) ->
  exists i d, In (i, (id, d)) l /\ acked w b i (id, d) = true.
Proof.
  unfold acked_ids. intros Hin.
  apply in_map_iff in Hin as ([i [id' d]] & Heq & Hf). simpl in Heq. subst id'.
  apply filter_In in Hf as [Hl Ha]. eauto.
Qed.

(** The loop with its early exit is the batch description: requests for
    the entries it gets to, marks (or removals) for the acknowledged
    ones. *)
Lemma drain_loop_spec w i rows s :
  let l := processed w (localDb s) i rows in
  let s' := drain_loop w i rows s in
  requests s' = requests s ++ posted (localDb s) l /\
  heartbeat_buffer s' =
    (if localDb s
     then fold_left (fun t id => mark_sent id t) (acked_ids w (localDb s) l)
                    (heartbeat_buffer s)
     else heartbeat_buffer s) /\
  heartbeatBuffer s' =
    (if localDb s then heartbeatBuffer s
     else option_map
            (fun b => fold_left (fun b id => splice_id id b)
                                (acked_ids w (localDb s) l) b)
            (heartbeatBuffer s)).
Proof.
  revert i s. induction rows as [|[id d] rest IH]; intros i s.
  - simpl. rewrite app_nil_r. by destruct (localDb s), (heartbeatBuffer s).
  - cbv zeta. rewrite processed_cons. rewrite posted_cons, acked_ids_cons.
    unfold aborts, acked. simpl.
    destruct (decode (localDb s) d) as [p|] eqn:Ed.
    { destruct (replay w i) as [status|code resp] eqn:Er;
        [destruct (status =? 200) eqn:E200;
         [destruct (localDb s) eqn:El;
          [destruct (update_err w i) as [code|] eqn:Eu;
           [destruct (network_class code) eqn:En|]|]|]
        |destruct (network_class code) eqn:En]; simpl;
      rewrite ?El; simpl;
      try (by destruct (localDb s), (heartbeatBuffer s));
      match goal with |- context [drain_loop w (S i) rest ?s0] =>
        destruct (IH (S i) s0) as (I1 & I2 & I3) end;
      simpl in I1, I2, I3; rewrite ?El in I1, I2, I3; rewrite I1, I2, I3;
      rewrite <- app_assoc; simpl;
      try done; by destruct (heartbeatBuffer s). }
    destruct (IH (S i) s) as (I1 & I2 & I3). by rewrite I1, I2, I3.
Qed.

Lemma mark_sent_keeps ids r t :
  In r t -> ~ In (b_id r) ids ->
  In r (fold_left (fun t id => mark_sent id t) ids t).
Proof.
  revert t. induction ids as [|id ids IH]; intros t Hin Hnotin; simpl; [done|].
  simpl in Hnotin. apply IH; [|tauto].
  unfold mark_sent. apply in_map_iff. exists r. split; [|done].
  case_match; [|done]. exfalso. apply Hnotin. by left.
Qed.

Lemma same_id_same_row {A B} (f : A -> B) l a b :
  NoDup (map f l) -> In a l -> In b l -> f a = f b -> a = b.
Proof.
  induction l as [|x l IH]; simpl; [done|].
  intros Hnd Ha Hb Hf. apply NoDup_cons in Hnd as [Hx Hnd].
  destruct Ha as [->|Ha], Hb as [->|Hb]; auto.
  - exfalso. apply Hx. rewrite Hf. apply list_elem_of_In. by apply in_map.
  - exfalso. apply Hx. rewrite <- Hf. apply list_elem_of_In. by apply in_map.
Qed.

(** A row of the table that is not acknowledged at any position of the
    drain is still in the table afterwards, as it was. *)
Lemma unacked_row_stays w s r :
  localDb s = true ->
  NoDup (map b_id (heartbeat_buffer s)) ->
  In r (heartbeat_buffer s) ->
  (forall i, acked w true i (b_id r, b_data r) = false) ->
  In r (heartbeat_buffer (sendBufferedHeartbeats w s)).
Proof.
  intros Hdb Hnd Hin Hack. unfold sendBufferedHeartbeats.
  destruct (peek w s) as [batch|] eqn:Hp; [|done].
  destruct (drain_loop_spec w 0%nat batch s) as (_ & -> & _).
  rewrite Hdb. apply mark_sent_keeps; [done|].
  intros Hid. apply acked_ids_In in Hid as (i & d & Hl & Ha).
  apply processed_In in Hl.
  unfold peek in Hp. rewrite Hdb in Hp.
  destruct (select_ok w); [|done]. injection Hp as <-.
  apply select_unsent_In in Hl as (r' & Hr' & Hid' & Hd' & _).
  assert (r' = r) as -> by (by apply (same_id_same_row b_id (heartbeat_buffer s))).
  subst d. by rewrite Hack in Ha.
Qed.

(** ** Marking and removing, by membership *)

Lemma fold_mark_sent ids t :
  fold_left (fun t id => mark_sent id t) ids t =
  map (fun r => if bool_decide (b_id r ∈ ids) then sent_row r else r) t.
Proof.
  revert t. induction ids as [|id ids IH]; intros t; simpl.
  - induction t as [|r t IHt]; simpl; [done | by f_equal].
  - rewrite IH. unfold mark_sent. rewrite map_map. apply map_ext. intros r.
    destruct (decide (b_id r = id)) as [Heq|Hne]; simpl.
    + rewrite (bool_decide_eq_true_2 (b_id r ∈ id :: ids)) by (rewrite Heq; left).
      by destruct (bool_decide (b_id r ∈ ids)).
    + destruct (bool_decide (b_id r ∈ ids)) eqn:E.
      * apply bool_decide_eq_true in E.
        rewrite bool_decide_eq_true_2; [done | by right].
      * apply bool_decide_eq_false in E.
        rewrite bool_decide_eq_false_2; [done|].
        intros Hin. apply elem_of_cons in Hin as [?|?]; done.
Qed.

Lemma splice_id_In id l x : In x (splice_id id l) -> In x l.
Proof.
  induction l as [|y l IH]; simpl; [done|].
  destruct (decide (m_id y = id)); simpl; intuition.
Qed.

Lemma splice_id_NoDup id l :
  NoDup (map m_id l) -> NoDup (map m_id (splice_id id l)).
Proof.
  induction l as [|y l IH]; simpl; [done|].
  intros Hnd. apply NoDup_cons in Hnd as [Hy Hnd].
  destruct (decide (m_id y = id)); simpl; [done|].
  apply NoDup_cons. split; [|by apply IH].
  intros Hin. apply Hy. apply list_elem_of_In in Hin.
  apply in_map_iff in Hin as (x & Hx & Hin). apply splice_id_In in Hin.
  apply list_elem_of_In. rewrite <- Hx. by apply in_map.
Qed.

Lemma splice_id_filter id l :
  NoDup (map m_id l) ->
  splice_id id l = List.filter (fun i => negb (bool_decide (m_id i = id))) l.
Proof.
  induction l as [|y l IH]; simpl; [done|].
  intros Hnd. apply NoDup_cons in Hnd as [Hy Hnd].
  destruct (decide (m_id y = id)) as [Heq|Hne]; simpl.
  - rewrite bool_decide_eq_true_2 by done. simpl.
    clear IH Hnd. induction l as [|z l IH]; simpl; [done|]. simpl in Hy.
    rewrite bool_decide_eq_false_2.
    + simpl. f_equal. apply IH. intros Hin. apply Hy. by right.
    + intros Hz. apply Hy. apply elem_of_cons. left. congruence.
  - rewrite bool_decide_eq_false_2 by done. simpl. f_equal. by apply IH.
Qed.

Lemma fold_splice_id ids l :
  NoDup (map m_id l) ->
  fold_left (fun b id => splice_id id b) ids l =
  List.filter (fun i => negb (bool_decide (m_id i ∈ ids))) l.
Proof.
  revert l. induction ids as [|id ids IH]; intros l Hnd; simpl.
  - clear Hnd. induction l as [|y l IHl]; simpl; [done | by f_equal].
  - rewrite IH by (by apply splice_id_NoDup). rewrite splice_id_filter by done.
    clear. induction l as [|y l IHl]; simpl; [done|].
    destruct (decide (m_id y = id)) as [Heq|Hne].
    + rewrite bool_decide_eq_true_2 by done. simpl.
      rewrite (bool_decide_eq_true_2 (m_id y ∈ id :: ids)) by (rewrite Heq; left).
      simpl. exact IHl.
    + rewrite bool_decide_eq_false_2 by done. simpl.
      destruct (bool_decide (m_id y ∈ ids)) eqn:E.
      * apply bool_decide_eq_true in E.
        rewrite (bool_decide_eq_true_2 (m_id y ∈ id :: ids)) by (by right).
        simpl. exact IHl.
      * apply bool_decide_eq_false in E.
        rewrite (bool_decide_eq_false_2 (m_id y ∈ id :: ids)).
        -- simpl. by f_equal.
        -- intros Hin. apply elem_of_cons in Hin as [?|?]; done.
Qed.

(** ** Main results *)

(** X23: after a live send answered with 200 the client drains the buffer.
    The batch holds at most 10 entries: with the local table the unsent
    rows in ascending id order, cut at 10; without it the first 10 elements
    of the array.  The drain gets to the entries up to and including the
    first failure whose error code is [ECONNREFUSED] or [ETIMEDOUT]; it
    posts each of them that decodes to the buffered endpoint, in order, and
    marks (in the table) or removes (in the array) the acknowledged ones:
    the table afterwards is the table before with [sent] set on the rows
    whose id was acknowledged, the array (when its ids are distinct) is the
    array before without the elements whose id was acknowledged.  Entries
    after the failure are neither posted nor touched, and an entry that
    fails otherwise is left as it is while the drain goes on. *)
Theorem buffer_drain w s batch :
  live w = Resolved 200 ->
  peek w (set_flags false 0 (Some (clock s))
            (log_request Live (createHeartbeatPayload s) s)) = Some batch ->
  let s' := snd (sendHeartbeat w s) in
  let l := processed w (localDb s) 0 batch in
  (length batch <= 10)%nat /\
  (if localDb s
   then exists sorted,
          Permutation sorted
            (List.filter (fun r => negb (b_sent r)) (heartbeat_buffer s)) /\
          StronglySorted id_le sorted /\
          batch = map (fun r => (b_id r, b_data r)) (take 10 sorted)
   else batch = map (fun i => (m_id i, DataValue (Some (m_data i))))
                    (take 10 (default [] (heartbeatBuffer s)))) /\
  requests s' = requests s ++ (Live, createHeartbeatPayload s) :: posted (localDb s) l /\
  heartbeat_buffer s' =
    (if localDb s
     then fold_left (fun t id => mark_sent id t) (acked_ids w (localDb s) l)
                    (heartbeat_buffer s)
     else heartbeat_buffer s) /\
  heartbeatBuffer s' =
    (if localDb s then heartbeatBuffer s
     else option_map
            (fun b => fold_left (fun b id => splice_id id b)
                                (acked_ids w (localDb s) l) b)
            (heartbeatBuffer s)) /\
  (localDb s = true ->
   heartbeat_buffer s' =
     map (fun r => if bool_decide (b_id r ∈ acked_ids w true l) then sent_row r else r)
         (heartbeat_buffer s)) /\
  (localDb s = false ->
   forall items, heartbeatBuffer s = Some items -> NoDup (map m_id items) ->
     heartbeatBuffer s' =
       Some (List.filter (fun i => negb (bool_decide (m_id i ∈ acked_ids w false l)))
                         items)).
Proof.
  intros Hlive Hpeek. cbv zeta.
  destruct (peek_batch _ _ _ Hpeek) as (Hlen & Hbatch). simpl in Hbatch.
  split; [done|]. split; [done|].
  unfold sendHeartbeat, sendBufferedHeartbeats. rewrite Hlive. simpl.
  rewrite Hpeek.
  match goal with |- context [drain_loop w 0%nat batch ?s0] =>
    destruct (drain_loop_spec w 0%nat batch s0) as (I1 & I2 & I3) end.
  simpl in I1, I2, I3. rewrite I1, I2, I3.
  split; [by rewrite <- app_assoc|]. split; [done|]. split; [done|]. split.
  - intros Hdb. rewrite Hdb. apply fold_mark_sent.
  - intros Hdb items Hitems Hnd. rewrite Hdb, Hitems. simpl.
    by rewrite fold_splice_id.
Qed.

(** C6, at the failing input: the first of three replays runs into the 5 s
    timeout of its request, which axios reports with the code
    [ECONNABORTED]; the drain does not stop there: it posts the two other
    rows as well and marks them, and the row that timed out stays
    unsent. *)
Lemma timed_out_replay_does_not_stop_drain :
  replay world_timeout 0 = Rejected (Some "ECONNABORTED"%string) None /\
  requests (snd (sendHeartbeat world_timeout client_db)) =
    [(Live, createHeartbeatPayload client_db);
     (Buffered, payload_at 1000 (Some "A"%string));
     (Buffered, payload_at 2000 (Some "A"%string));
     (Buffered, payload_at 3000 (Some "A"%string))] /\
  map (fun r => (b_id r, b_sent r))
      (heartbeat_buffer (snd (sendHeartbeat world_timeout client_db))) =
    [(2, true); (1, false); (3, true)].
Proof. vm_compute. repeat split. Qed.

(** ** What the buffer holds *)














(** C10, as the code has it: with the local table, garbage collection
    deletes exactly the rows created more than 24 hours ago.  Without it
    the window is one hour: the recorded time of an element is the instant
    it was buffered, cut to the second, and on a host at UTC the elements
    kept are exactly those recorded less than one hour before now.  (The
    recorded time is written in UTC and read back as local time, so in
    general the elements kept are those recorded less than one hour minus
    the UTC offset before now.) *)
Theorem gc_windows w s m l :
  localDb s = true -> delete_ok w = true ->
  localDb m = false -> heartbeatBuffer m = Some l ->
  (forall r, In r (heartbeat_buffer (clearOldBufferedHeartbeats w s)) <->
             In r (heartbeat_buffer s) /\ clock s - 24 * 3600000 <= b_created_at r) /\
  (forall w0 p t0,
     last (default [] (heartbeatBuffer (storeHeartbeatLocally w0 p (set_clock t0 m)))) =
     Some {| m_id := t0; m_timestamp := t0 / 1000 * 1000; m_data := p |}) /\
  (exists l', heartbeatBuffer (clearOldBufferedHeartbeats w m) = Some l' /\
     (forall item, In item l' <->
                   In item l /\ clock m - m_timestamp item < 3600000 - utc_offset m) /\
     (utc_offset m = 0 ->
      forall item, In item l' <->
                   In item l /\ clock m - m_timestamp item < 3600000)).
Proof.
  unfold clearOldBufferedHeartbeats. intros Hs Hw Hm Hl. rewrite Hs, Hw, Hm, Hl.
  split; [|split].
  - intros r. simpl. rewrite filter_In.
    apply and_iff_compat_l. rewrite negb_true_iff. lia.
  - intros w0 p t0. unfold storeHeartbeatLocally. simpl. rewrite Hm, Hl. simpl.
    destruct (100 <? _)%nat eqn:E; simpl.
    + unfold slice_last. rewrite length_app. simpl.
      rewrite drop_app_le by lia. by rewrite last_snoc.
    + by rewrite last_snoc.
  - simpl. eexists; split; [done|]. split.
    + intros item. rewrite filter_In. apply and_iff_compat_l.
      unfold itemTime. lia.
    + intros Hutc item. rewrite filter_In. apply and_iff_compat_l.
      unfold itemTime. lia.
Qed.

(** C10, as stated, fails: without local table, on a host at UTC, an
    element recorded two hours ago, well inside 24 hours, is deleted. *)
Lemma memory_gc_drops_two_hour_old_entry :
  localDb client_mem = false /\
  heartbeatBuffer client_mem = Some [item_0] /\
  utc_offset client_mem = 0 /\
  clock client_mem - m_timestamp item_0 = 2 * 3600000 /\
  2 * 3600000 < 24 * 3600000 /\
  heartbeatBuffer (clearOldBufferedHeartbeats world_up client_mem) = Some [].
Proof. vm_compute. repeat split. Qed.

(** ** The results on the scenarios *)

(** Two refused sends, a success, a refused send: the first three
    heartbeats carry the startup flag, the fourth does not. *)
Example startup_flags_of_a_run :
  live_flags (run [(0, world_down); (60000, world_down); (120000, world_up);
                   (180000, world_down)]
                  (new_client "A" true 0 0))
  = [true; true; true; false].
Proof. reflexivity. Qed.

(** X23 instance: three buffered heartbeats, in the table and in the
    array; the first replay succeeds, the second is refused: the first
    entry is marked or removed, the second was posted and stays, the third
    was not posted. *)
Lemma buffer_drain_witness :
  live world_flaky = Resolved 200 /\
  peek world_flaky
    (set_flags false 0 (Some (clock client_db))
       (log_request Live (createHeartbeatPayload client_db) client_db))
    = Some client_db_batch /\
  peek world_flaky
    (set_flags false 0 (Some (clock client_mem_3))
       (log_request Live (createHeartbeatPayload client_mem_3) client_mem_3))
    = Some (map (fun i => (m_id i, DataValue (Some (m_data i))))
                [item_at 1000; item_at 2000; item_at 3000]) /\
  requests (snd (sendHeartbeat world_flaky client_db)) =
    [(Live, createHeartbeatPayload client_db);
     (Buffered, payload_at 1000 (Some "A"%string));
     (Buffered, payload_at 2000 (Some "A"%string))] /\
  map (fun r => (b_id r, b_sent r))
      (heartbeat_buffer (snd (sendHeartbeat world_flaky client_db))) =
    [(2, false); (1, true); (3, false)] /\
  requests (snd (sendHeartbeat world_flaky client_mem_3)) =
    [(Live, createHeartbeatPayload client_mem_3);
     (Buffered, payload_at 1000 (Some "A"%string));
     (Buffered, payload_at 2000 (Some "A"%string))] /\
  heartbeatBuffer (snd (sendHeartbeat world_flaky client_mem_3)) =
    Some [item_at 2000; item_at 3000].
Proof.
  assert (live world_flaky = Resolved 200) as H1 by reflexivity.
  assert (peek world_flaky
            (set_flags false 0 (Some (clock client_db))
               (log_request Live (createHeartbeatPayload client_db) client_db))
          = Some client_db_batch) as H2 by reflexivity.
  assert (peek world_flaky
            (set_flags false 0 (Some (clock client_mem_3))
               (log_request Live (createHeartbeatPayload client_mem_3) client_mem_3))
          = Some (map (fun i => (m_id i, DataValue (Some (m_data i))))
                      [item_at 1000; item_at 2000; item_at 3000])) as H3
    by reflexivity.
  split; [exact H1|]. split; [exact H2|]. split; [exact H3|].
  destruct (buffer_drain world_flaky client_db client_db_batch H1 H2)
    as (_ & _ & Hreq & _ & _ & Htbl & _).
  destruct (buffer_drain world_flaky client_mem_3 _ H1 H3)
    as (_ & _ & Hreq' & _ & _ & _ & Hmem).
  split; [exact Hreq|]. split; [rewrite (Htbl eq_refl); reflexivity|].
  split; [exact Hreq'|].
  assert (NoDup (map m_id [item_at 1000; item_at 2000; item_at 3000])) as H4
    by (apply (bool_decide_unpack _); vm_compute; exact I).
  rewrite (Hmem eq_refl [item_at 1000; item_at 2000; item_at 3000] eq_refl H4).
  reflexivity.
Defined.

(** C10 witness: the table of [client_db] and the array of [client_mem]. *)
Lemma gc_windows_witness :
  localDb client_db = true /\ delete_ok world_up = true /\
  localDb client_mem = false /\ heartbeatBuffer client_mem = Some [item_0] /\
  (forall r, In r (heartbeat_buffer (clearOldBufferedHeartbeats world_up client_db)) <->
             In r (heartbeat_buffer client_db) /\
             clock client_db - 24 * 3600000 <= b_created_at r) /\
  (exists l', heartbeatBuffer (clearOldBufferedHeartbeats world_up client_mem) = Some l' /\
     forall item, In item l' <->
                  In item [item_0] /\ clock client_mem - m_timestamp item < 3600000).
Proof.
  assert (localDb client_db = true) as H1 by reflexivity.
  assert (delete_ok world_up = true) as H2 by reflexivity.
  assert (localDb client_mem = false) as H3 by reflexivity.
  assert (heartbeatBuffer client_mem = Some [item_0]) as H4 by reflexivity.
  split; [exact H1|]. split; [exact H2|]. split; [exact H3|]. split; [exact H4|].
  destruct (gc_windows world_up client_db client_mem [item_0] H1 H2 H3 H4)
    as (Ht & _ & l' & Hl' & _ & Hutc).
  split; [exact Ht|]. exists l'. split; [exact Hl'|]. exact (Hutc eq_refl).
Defined.

(** Off UTC the window moves with the offset: at UTC+5:30 an element
    recorded one second ago is deleted. *)
Example memory_gc_east_of_utc :
  clock client_mem_east - m_timestamp item_0 = 1000 /\
  heartbeatBuffer (clearOldBufferedHeartbeats world_up client_mem_east) = Some [].
Proof. vm_compute. repeat split. Qed.

End ClientProofs.

(** * Bad input, from the server to the client *)

Module IngestionProofs.

(** C4, as the code has it: the server does not validate the body, and a
    heartbeat without [store_id] is processed and answered 200 with status
    success on both routes.  On the client, with its local table, a
    buffered row whose data does not decode is skipped without being
    posted, a row the server rejects with a 4xx is skipped after the post,
    the drain goes on with the rest of the batch in both cases, and both
    rows are still in the table, unsent as before, when the drain is over;
    what ends their stay is garbage collection, once they are more than 24
    hours old. *)
Theorem bad_input_handling (s : Server.State) (hb : Server.Heartbeat)
    (w w' : Client.World) (c c' : Client.State) (bad rej : Client.BufferRow)
    (p : Client.Payload) (code : option string) :
  Server.hb_store_id hb = None ->
  Client.localDb c = true ->
  NoDup (map Client.b_id (Client.heartbeat_buffer c)) ->
  In bad (Client.heartbeat_buffer c) ->
  Client.decode true (Client.b_data bad) = None ->
  In rej (Client.heartbeat_buffer c) ->
  Client.decode true (Client.b_data rej) = Some p ->
  (forall i, Client.replay w i = Client.Rejected code (Some 400)) ->
  Client.network_class code = false ->
  Client.localDb c' = true -> Client.delete_ok w' = true ->
  Client.b_created_at bad < Client.clock c' - 24 * 3600000 ->
  Client.b_created_at rej < Client.clock c' - 24 * 3600000 ->
  (Server.http_status (fst (Server.post_heartbeat hb s)) = 200 /\
   Server.body_status (fst (Server.post_heartbeat hb s)) = "success"%string /\
   Server.http_status (fst (Server.post_heartbeat_buffered hb s)) = 200 /\
   Server.body_status (fst (Server.post_heartbeat_buffered hb s)) = "success"%string) /\
  (forall i rest,
     Client.drain_loop w i ((Client.b_id bad, Client.b_data bad) :: rest) c =
     Client.drain_loop w (S i) rest c) /\
  (forall i rest,
     Client.drain_loop w i ((Client.b_id rej, Client.b_data rej) :: rest) c =
     Client.drain_loop w (S i) rest (Client.log_request Client.Buffered p c)) /\
  In bad (Client.heartbeat_buffer (Client.sendBufferedHeartbeats w c)) /\
  In rej (Client.heartbeat_buffer (Client.sendBufferedHeartbeats w c)) /\
  ~ In bad (Client.heartbeat_buffer (Client.clearOldBufferedHeartbeats w' c')) /\
  ~ In rej (Client.heartbeat_buffer (Client.clearOldBufferedHeartbeats w' c')).
Proof.
  intros _ Hdb Hnd Hbad Hdec Hrej Hdec' Hrep Hnet Hdb' Hdel Hold Hold'.
  split; [apply ServerProofs.post_heartbeat_ok|].
  split; [|split; [|split; [|split; [|split]]]].
  - intros i rest. simpl. by rewrite Hdb, Hdec.
  - intros i rest. simpl. by rewrite Hdb, Hdec', Hrep, Hnet.
  - apply ClientProofs.unacked_row_stays; try done.
    intros i. unfold Client.acked. simpl. by rewrite Hdec.
  - apply ClientProofs.unacked_row_stays; try done.
    intros i. unfold Client.acked. simpl. by rewrite Hdec', Hrep.
  - unfold Client.clearOldBufferedHeartbeats. rewrite Hdb', Hdel. simpl.
    rewrite filter_In, negb_true_iff. intros [_ H]. lia.
  - unfold Client.clearOldBufferedHeartbeats. rewrite Hdb', Hdel. simpl.
    rewrite filter_In, negb_true_iff. intros [_ H]. lia.
Qed.

(** C4, as stated, fails: a heartbeat without [store_id] is answered 200
    with status success, not with a 4xx. *)
Lemma missing_store_id_gets_success :
  Server.hb_store_id Server.hb_anonymous = None /\
  Server.http_status (fst (Server.post_heartbeat Server.hb_anonymous Server.server_0)) = 200 /\
  Server.body_status (fst (Server.post_heartbeat Server.hb_anonymous Server.server_0))
    = "success"%string /\
  Server.http_status
    (fst (Server.post_heartbeat_buffered Server.hb_anonymous Server.server_0)) = 200 /\
  ~ (400 <= 200 < 500).
Proof. vm_compute. repeat split; try discriminate. intros [H _]. by apply H. Qed.

(** C4 witness: a table with an unreadable row and a readable one, against
    a server that answers 400 to every replay; a day and more later the
    garbage collection deletes both. *)
Lemma bad_input_handling_witness :
  Server.hb_store_id Server.hb_anonymous = None /\
  Client.decode true (Client.b_data Client.row_unreadable) = None /\
  Client.decode true (Client.b_data Client.row_readable) =
    Some (Client.payload_at 2000 (Some "A"%string)) /\
  Server.http_status (fst (Server.post_heartbeat Server.hb_anonymous Server.server_0)) = 200 /\
  In Client.row_unreadable
     (Client.heartbeat_buffer (Client.sendBufferedHeartbeats Client.world_400 Client.client_bad)) /\
  In Client.row_readable
     (Client.heartbeat_buffer (Client.sendBufferedHeartbeats Client.world_400 Client.client_bad)) /\
  ~ In Client.row_unreadable
       (Client.heartbeat_buffer
          (Client.clearOldBufferedHeartbeats Client.world_up Client.client_bad_later)).
Proof.
  assert (Server.hb_store_id Server.hb_anonymous = None) as H1 by reflexivity.
  assert (Client.localDb Client.client_bad = true) as H2 by reflexivity.
  assert (NoDup (map Client.b_id (Client.heartbeat_buffer Client.client_bad))) as H3.
  { simpl. apply NoDup_cons. split; [|apply NoDup_singleton].
    intros H. apply list_elem_of_In in H. simpl in H. destruct H as [H|[]].
    discriminate H. }
  assert (In Client.row_unreadable (Client.heartbeat_buffer Client.client_bad)) as H4
    by (left; reflexivity).
  assert (Client.decode true (Client.b_data Client.row_unreadable) = None) as H5
    by reflexivity.
  assert (In Client.row_readable (Client.heartbeat_buffer Client.client_bad)) as H6
    by (right; left; reflexivity).
  assert (Client.decode true (Client.b_data Client.row_readable) =
          Some (Client.payload_at 2000 (Some "A"%string))) as H7 by reflexivity.
  assert (forall i, Client.replay Client.world_400 i =
                    Client.Rejected (Some "ERR_BAD_REQUEST"%string) (Some 400)) as H8
    by (intros i; reflexivity).
  assert (Client.network_class (Some "ERR_BAD_REQUEST"%string) = false) as H9
    by reflexivity.
  assert (Client.localDb Client.client_bad_later = true) as H10 by reflexivity.
  assert (Client.delete_ok Client.world_up = true) as H11 by reflexivity.
  assert (Client.b_created_at Client.row_unreadable <
          Client.clock Client.client_bad_later - 24 * 3600000) as H12 by reflexivity.
  assert (Client.b_created_at Client.row_readable <
          Client.clock Client.client_bad_later - 24 * 3600000) as H13 by reflexivity.
  destruct (bad_input_handling Server.server_0 Server.hb_anonymous Client.world_400
              Client.world_up Client.client_bad Client.client_bad_later
              Client.row_unreadable Client.row_readable
              (Client.payload_at 2000 (Some "A"%string))
              (Some "ERR_BAD_REQUEST"%string)
              H1 H2 H3 H4 H5 H6 H7 H8 H9 H10 H11 H12 H13)
    as ((S1 & _) & _ & _ & K1 & K2 & K3 & _).
  split; [exact H1|]. split; [exact H5|]. split; [exact H7|].
  split; [exact S1|]. split; [exact K1|]. split; [exact K2 | exact K3].
Defined.

End IngestionProofs.

(** * Properties of the rest of the server *)

Module ServerExtraProofs.
Import Server ServerExtra ServerProofs.

(** ** The registry under the handlers *)

Lemma Map_keys_set {V} (k : Key) (v : V) (m : list (Key * V)) :
  Map_keys (Map_set k v m) =
  if Map_has k m then Map_keys m else Map_keys m ++ [k].
Proof.
  unfold Map_has. induction m as [|[k' v'] r IH]; simpl; [done|].
  destruct (decide (k = k')) as [->|Hne]; simpl; [done|].
  rewrite IH. by destruct (Map_get k r).
Qed.

Lemma Map_set_NoDup {V} (k : Key) (v : V) (m : list (Key * V)) :
  NoDup (Map_keys m) -> NoDup (Map_keys (Map_set k v m)).
Proof.
  intros Hnd. rewrite Map_keys_set. unfold Map_has.
  destruct (Map_get k m) eqn:E; [done|].
  apply NoDup_app. split; [done|]. split; [|apply NoDup_singleton].
  intros x Hx Hk. apply list_elem_of_singleton in Hk as ->.
  apply Map_get_None in E. apply E. by apply list_elem_of_In.
Qed.

Lemma Map_set_has {V} (k k' : Key) (v : V) (m : list (Key * V)) :
  Map_has k' m = true -> Map_has k' (Map_set k v m) = true.
Proof.
  unfold Map_has. destruct (decide (k = k')) as [->|Hne].
  - by rewrite Map_get_set_eq.
  - by rewrite Map_get_set_ne.
Qed.

(** Everything [processHeartbeat] does to the registry, the trace of calls
    and the cooldown tables. *)
Lemma processHeartbeat_effect s hb :
  let k := hb_store_id hb in
  let now := clock s in
  let prev := Map_get k (allStores s) in
  let s' := snd (processHeartbeat hb s) in
  allStores s' = Map_set k (heartbeat_record hb now prev) (allStores s) /\
  lastOfflineAlerts s' = lastOfflineAlerts s /\
  same_config s s' /\
  match prev with
  | None =>
      alert_calls s' = alert_calls s ++ [startup_call k now] /\
      lastStartupAlerts s' = <[k := now]> (lastStartupAlerts s) /\
      lastRecoveryAlerts s' = lastRecoveryAlerts s
  | Some p =>
      if hb_is_startup hb then
        lastRecoveryAlerts s' = lastRecoveryAlerts s /\
        if cooldown_over (lastStartupAlerts s !! k) now 10
        then alert_calls s' = alert_calls s ++ [startup_call k now] /\
             lastStartupAlerts s' = <[k := now]> (lastStartupAlerts s)
        else alert_calls s' = alert_calls s /\
             lastStartupAlerts s' = lastStartupAlerts s
      else if bool_decide (status p = St_offline) then
        lastStartupAlerts s' = lastStartupAlerts s /\
        if cooldown_over (lastRecoveryAlerts s !! k) now 5
        then alert_calls s' = alert_calls s ++ [recovery_call k now] /\
             lastRecoveryAlerts s' = <[k := now]> (lastRecoveryAlerts s)
        else alert_calls s' = alert_calls s /\
             lastRecoveryAlerts s' = lastRecoveryAlerts s
      else
        alert_calls s' = alert_calls s /\
        lastStartupAlerts s' = lastStartupAlerts s /\
        lastRecoveryAlerts s' = lastRecoveryAlerts s
  end.
Proof.
  cbv zeta. unfold same_config, heartbeat_record. step_hb.
  cases; repeat split; first [done | congruence].
Qed.

Lemma post_heartbeat_state s hb :
  snd (post_heartbeat hb s) = snd (processHeartbeat hb s) /\
  snd (post_heartbeat_buffered hb s) = snd (processHeartbeat hb s).
Proof.
  unfold post_heartbeat, post_heartbeat_buffered, bind, ret.
  by destruct (processHeartbeat hb s).
Qed.

(** What one iteration of the sweep can do to the registry. *)
Lemma body_registry ts k st s :
  let s' := snd (healthCheck_body ts (k, st) s) in
  (allStores s' = allStores s \/
   (status st <> St_offline /\
    allStores s' = Map_set k (with_status st St_offline) (allStores s))) /\
  lastStartupAlerts s' = lastStartupAlerts s /\
  lastRecoveryAlerts s' = lastRecoveryAlerts s /\
  exists made, alert_calls s' = alert_calls s ++ made /\
               Forall (fun c => ac_type c = A_offline /\ ac_store c = k) made.
Proof.
  cbv zeta. step.
  destruct (last_heartbeat st) as [lh|]; simpl;
    [|repeat split; auto; exists []; by rewrite app_nil_r].
  destruct (alertThresholdMinutes s * 60000 <? ts - lh); simpl;
    [|repeat split; auto; exists []; by rewrite app_nil_r].
  case_bool_decide as Hst; simpl.
  - cases; (split; [by left|]); (split; [done|]); (split; [done|]);
      first [ by eexists [_]; split; [done|]; repeat constructor
            | exists []; by rewrite app_nil_r ].
  - cases; (split; [by right|]); (split; [done|]); (split; [done|]);
      by eexists [_]; split; [done|]; repeat constructor.
Qed.

Lemma offline_only_refl s : offline_only s s.
Proof.
  repeat split; auto. exists []. by rewrite app_nil_r.
Qed.

Lemma offline_only_trans s1 s2 s3 :
  offline_only s1 s2 -> offline_only s2 s3 -> offline_only s1 s3.
Proof.
  intros (A1 & A2 & (m1 & A3 & A4) & A5 & A6) (B1 & B2 & (m2 & B3 & B4) & B5 & B6).
  split; [congruence|]. split; [congruence|]. split; [|split; auto].
  exists (m1 ++ m2). rewrite B3, A3, <- app_assoc. split; [done|].
  by apply Forall_app.
Qed.

Lemma body_offline_only ts k st s :
  offline_only s (snd (healthCheck_body ts (k, st) s)).
Proof.
  destruct (body_registry ts k st s) as (Hreg & H1 & H2 & made & H3 & H4).
  cbv zeta in *. split; [done|]. split; [done|]. split.
  { exists made. split; [done|]. eapply Forall_impl; [exact H4|]. by intros c [? _]. }
  destruct Hreg as [-> | [_ ->]]; split; auto.
  - intros k' Hk'. by apply Map_set_has.
  - apply Map_set_NoDup.
Qed.

Lemma loop_offline_only ts l s :
  offline_only s (snd (healthCheck_loop ts l s)).
Proof.
  revert s. induction l as [|[k st] l IH]; intros s.
  - apply offline_only_refl.
  - rewrite loop_cons. eapply offline_only_trans; [apply body_offline_only | apply IH].
Qed.

Lemma hydrate_fold_registry {A} (f : A -> Key) (g : A -> StoreState)
    (keep : bool) rows m :
  let m' := fold_left (fun m r => if negb (keep && Map_has (f r) m)
                                  then Map_set (f r) (g r) m else m) rows m in
  (forall k, Map_has k m = true -> Map_has k m' = true) /\
  (NoDup (Map_keys m) -> NoDup (Map_keys m')).
Proof.
  revert m. induction rows as [|r rows IH]; intros m; simpl; [done|].
  destruct (IH (if negb (keep && Map_has (f r) m) then Map_set (f r) (g r) m else m))
    as (I1 & I2).
  split.
  - intros k Hk. apply I1. destruct (negb _); [by apply Map_set_has | done].
  - intros Hnd. apply I2. destruct (negb _); [by apply Map_set_NoDup | done].
Qed.

Lemma sync_offline_only ts s :
  offline_only s (snd (syncWithDatabase ts s)) /\
  same_config s (snd (syncWithDatabase ts s)).
Proof.
  unfold syncWithDatabase, offline_only, same_config. step.
  destruct (db_ok s (db_ops s)); simpl.
  - destruct (hydrate_fold_registry (fun r => Some (row_store_id r))
                (hydrate_sync ts) true (stores_tbl (db s)) (allStores s)) as (I1 & I2).
    simpl in I1, I2. repeat split; auto. exists []. by rewrite app_nil_r.
  - repeat split; auto. exists []. by rewrite app_nil_r.
Qed.

Lemma load_offline_only s :
  offline_only s (snd (loadExistingStoresFromDB s)) /\
  same_config s (snd (loadExistingStoresFromDB s)).
Proof.
  unfold loadExistingStoresFromDB, offline_only, same_config. step.
  destruct (db_ok s (db_ops s)); simpl.
  - destruct (hydrate_fold_registry (fun r => Some (row_store_id r))
                hydrate_load false (stores_tbl (db s)) (allStores s)) as (I1 & I2).
    simpl in I1, I2. repeat split; auto. exists []. by rewrite app_nil_r.
  - repeat split; auto. exists []. by rewrite app_nil_r.
Qed.

Lemma sweep_offline_only s :
  offline_only s (snd (performHealthCheck s)) /\
  same_config s (snd (performHealthCheck s)).
Proof.
  rewrite performHealthCheck_unfold.
  pose proof (loop_offline_only (clock s) (allStores s) s) as H1.
  pose proof (loop_config (clock s) (allStores s) s) as C1.
  destruct (sync_offline_only (clock s) (snd (healthCheck_loop (clock s) (allStores s) s)))
    as (H2 & C2).
  split; [eapply offline_only_trans | eapply same_config_trans]; eauto.
Qed.

Lemma test_email_offline_only id s :
  offline_only s (snd (get_test_email id s)) /\
  same_config s (snd (get_test_email id s)) /\
  allStores (snd (get_test_email id s)) = allStores s /\
  lastOfflineAlerts (snd (get_test_email id s)) = lastOfflineAlerts s.
Proof.
  unfold get_test_email, offline_only, same_config. step_hb.
  cases; repeat split; auto;
    first [ by exists []; rewrite app_nil_r
          | by eexists [_]; split; [done|]; repeat constructor ].
Qed.

Lemma Map_get_Some_In {V} (k : Key) (v : V) (m : list (Key * V)) :
  Map_get k m = Some v -> In (k, v) m.
Proof.
  induction m as [|[k' v'] r IH]; simpl; [done|].
  destruct (decide (k = k')) as [->|]; [intros [= ->]; by left | auto].
Qed.

(** The sweep seen from one store: the iterations before and after its own
    leave its record, its calls and its cooldown entry alone. *)
Lemma sweep_focus s k st :
  NoDup (Map_keys (allStores s)) -> In (k, st) (allStores s) ->
  exists sa,
    same_config s sa /\
    Map_get k (allStores sa) = Some st /\
    alerts_for k sa = alerts_for k s /\
    lastOfflineAlerts sa !! k = lastOfflineAlerts s !! k /\
    let sb := snd (healthCheck_body (clock s) (k, st) sa) in
    let s' := snd (performHealthCheck s) in
    (forall v, Map_get k (allStores sb) = Some v -> Map_get k (allStores s') = Some v) /\
    alerts_for k s' = alerts_for k sb /\
    lastOfflineAlerts s' !! k = lastOfflineAlerts sb !! k.
Proof.
  intros Hnd Hin.
  destruct (In_split_keys k st _ Hnd Hin) as (l1 & l2 & Hm & Hn1 & Hn2).
  exists (snd (healthCheck_loop (clock s) l1 s)).
  destruct (loop_other (clock s) l1 k s Hn1) as (A1 & A2 & A3).
  split; [apply loop_config|].
  split; [rewrite A1; by apply Map_get_In|].
  split; [done|]. split; [done|]. cbv zeta.
  rewrite performHealthCheck_unfold.
  assert (snd (healthCheck_loop (clock s) (allStores s) s) =
          snd (healthCheck_loop (clock s) l2
                 (snd (healthCheck_body (clock s) (k, st)
                         (snd (healthCheck_loop (clock s) l1 s)))))) as ->
    by (rewrite Hm at 1; by rewrite loop_app, loop_cons).
  remember (snd (healthCheck_body (clock s) (k, st)
                   (snd (healthCheck_loop (clock s) l1 s)))) as sb eqn:Esb.
  destruct (loop_other (clock s) l2 k sb Hn2) as (B1 & B2 & B3).
  remember (snd (healthCheck_loop (clock s) l2 sb)) as sc eqn:Esc.
  destruct (sync_frame (clock s) sc) as (S1 & _ & _ & S3 & S2).
  split; [|split].
  - intros v Hv. apply S2. by rewrite B1.
  - rewrite <- B2. unfold alerts_for. by rewrite S1.
  - by rewrite S3, B3.
Qed.

(** A record that was in memory comes out of the sweep unchanged or
    changed to offline only. *)
Lemma sweep_record s k st :
  NoDup (Map_keys (allStores s)) -> In (k, st) (allStores s) ->
  let s' := snd (performHealthCheck s) in
  Map_get k (allStores s') = Some st \/
  (status st <> St_offline /\
   Map_get k (allStores s') = Some (with_status st St_offline)).
Proof.
  intros Hnd Hin. cbv zeta.
  destruct (sweep_focus s k st Hnd Hin) as (sa & _ & Ha & _ & _ & Hb & _).
  cbv zeta in Hb.
  destruct (body_registry (clock s) k st sa) as ([Hreg | [Hst Hreg]] & _).
  - left. apply Hb. by rewrite Hreg.
  - right. split; [done|]. apply Hb. rewrite Hreg. apply Map_get_set_eq.
Qed.

(** Each handler keeps the ids of the registry distinct and forgets no
    store. *)
Lemma handle_registry e s :
  (NoDup (Map_keys (allStores s)) -> NoDup (Map_keys (allStores (handle e s)))) /\
  (forall k, Map_has k (allStores s) = true -> Map_has k (allStores (handle e s)) = true).
Proof.
  destruct e as [hb|hb| | |id]; simpl.
  - rewrite (proj1 (post_heartbeat_state _ hb)).
    destruct (processHeartbeat_effect s hb) as (-> & _).
    split; [apply Map_set_NoDup | intros k; apply Map_set_has].
  - rewrite (proj2 (post_heartbeat_state _ hb)).
    destruct (processHeartbeat_effect s hb) as (-> & _).
    split; [apply Map_set_NoDup | intros k; apply Map_set_has].
  - destruct (sweep_offline_only s) as ((_ & _ & _ & H1 & H2) & _). auto.
  - destruct (load_offline_only s) as ((_ & _ & _ & H1 & H2) & _). auto.
  - destruct (test_email_offline_only id s) as ((_ & _ & _ & H1 & H2) & _). auto.
Qed.

(** ** Main results *)

(** X1: the registry never holds a store id twice and never forgets a
    store, whatever the server is given to handle. *)
Theorem registry_keys_unique evs s k :
  NoDup (Map_keys (allStores s)) ->
  Map_has k (allStores s) = true ->
  NoDup (Map_keys (allStores (run_events evs s))) /\
  Map_has k (allStores (run_events evs s)) = true.
Proof.
  revert s. induction evs as [|[t e] evs IH]; intros s Hnd Hk; simpl; [done|].
  destruct (handle_registry e (set_clock t s)) as (H1 & H2).
  apply IH; [by apply H1 | by apply H2].
Qed.

(** X3: the sweep never turns a store online and never touches its last
    heartbeat or its first-seen instant: of a record that was in memory it
    changes at most the status, and only to offline. *)
Theorem sweep_never_online s k st :
  NoDup (Map_keys (allStores s)) -> In (k, st) (allStores s) ->
  exists st',
    Map_get k (allStores (snd (performHealthCheck s))) = Some st' /\
    last_heartbeat st' = last_heartbeat st /\
    first_seen st' = first_seen st /\
    (status st' = status st \/ status st' = St_offline) /\
    (status st' = St_online -> status st = St_online).
Proof.
  intros Hnd Hin.
  destruct (sweep_record s k st Hnd Hin) as [H | [Hst H]].
  - exists st. repeat split; auto.
  - exists (with_status st St_offline). repeat split; auto. discriminate.
Qed.

(** X2: short of a reload from the database, a store that is in the
    registry keeps the [first_seen] it had, whatever the server is given
    to handle. *)
Theorem first_seen_is_stable evs s k st :
  forallb (fun te => negb (is_load (snd te))) evs = true ->
  NoDup (Map_keys (allStores s)) ->
  Map_get k (allStores s) = Some st ->
  exists st', Map_get k (allStores (run_events evs s)) = Some st' /\
              first_seen st' = first_seen st.
Proof.
  revert s st. induction evs as [|[t e] evs IH]; intros s st Hev Hnd Hk; simpl.
  { eauto. }
  simpl in Hev. apply andb_true_iff in Hev as [He Hev].
  assert (exists st1, Map_get k (allStores (handle e (set_clock t s))) = Some st1 /\
                      first_seen st1 = first_seen st) as (st1 & Hk1 & Hf1).
  { destruct e as [hb|hb| | |id]; simpl in *; try done.
    - rewrite (proj1 (post_heartbeat_state _ hb)).
      destruct (processHeartbeat_effect (set_clock t s) hb) as (-> & _). simpl.
      destruct (decide (hb_store_id hb = k)) as [->|Hne].
      + rewrite Map_get_set_eq, Hk. eauto.
      + rewrite Map_get_set_ne by done. eauto.
    - rewrite (proj2 (post_heartbeat_state _ hb)).
      destruct (processHeartbeat_effect (set_clock t s) hb) as (-> & _). simpl.
      destruct (decide (hb_store_id hb = k)) as [->|Hne].
      + rewrite Map_get_set_eq, Hk. eauto.
      + rewrite Map_get_set_ne by done. eauto.
    - destruct (sweep_record (set_clock t s) k st) as [H | [_ H]];
        [done | by apply Map_get_Some_In | |]; rewrite H; eauto.
    - destruct (test_email_offline_only id (set_clock t s)) as (_ & _ & -> & _).
      simpl. eauto. }
  destruct (IH (handle e (set_clock t s)) st1 Hev) as (st' & H1 & H2); [|done|].
  - by apply (handle_registry e (set_clock t s)).
  - exists st'. split; [done | congruence].
Qed.

(** ** Calls and cooldown tables along a run *)

Lemma call_times_app k ty s s' made :
  alert_calls s' = alert_calls s ++ made ->
  call_times k ty s' =
  call_times k ty s ++
  map ac_time (List.filter (fun c => bool_decide (ac_store c = k) &&
                                     bool_decide (ac_type c = ty)) made).
Proof. intros H. unfold call_times. by rewrite H, List.filter_app, map_app. Qed.

Lemma call_times_offline_only k ty s s' :
  offline_only s s' -> ty <> A_offline -> call_times k ty s' = call_times k ty s.
Proof.
  intros (_ & _ & (made & Hc & Hall) & _) Hty.
  rewrite (call_times_app k ty s s' made Hc).
  replace (List.filter _ made) with (@nil AlertCall); [by rewrite app_nil_r|].
  symmetry. clear Hc. induction Hall as [|c l Hc' _ IH]; simpl; [done|].
  rewrite (bool_decide_eq_false_2 (ac_type c = ty)) by congruence.
  rewrite andb_false_r. exact IH.
Qed.

Lemma spaced_snoc gap l t :
  spaced gap (l ++ [t]) <->
  spaced gap l /\ match last l with Some t0 => gap < t - t0 | None => True end.
Proof.
  induction l as [|a l IH]; simpl; [tauto|].
  destruct l as [|b l]; simpl in *; [tauto|].
  rewrite IH. tauto.
Qed.

Lemma cooldown_over_gap l now minutes :
  cooldown_over (last l) now minutes = true ->
  match last l with Some t0 => minutes * 60000 < now - t0 | None => True end.
Proof.
  unfold cooldown_over. destruct (last l); [|done]. intros H. lia.
Qed.

(** A step that makes offline calls only keeps the startup and recovery
    books. *)
Lemma cooldowns_kept_offline_only k s s' :
  offline_only s s' -> cooldowns_kept k s -> cooldowns_kept k s'.
Proof.
  intros Hoff (I1 & I2 & I3 & I4 & I5). unfold cooldowns_kept.
  rewrite !(call_times_offline_only k _ s s' Hoff) by discriminate.
  destruct Hoff as (-> & -> & _ & Hhas & _). repeat split; auto.
Qed.

Lemma call_times_one k ty s s' c :
  alert_calls s' = alert_calls s ++ [c] ->
  call_times k ty s' =
  call_times k ty s ++
  (if bool_decide (ac_store c = k /\ ac_type c = ty) then [ac_time c] else []).
Proof.
  intros Hc. rewrite (call_times_app k ty s s' [c] Hc). simpl.
  destruct (decide (ac_store c = k)), (decide (ac_type c = ty));
    rewrite ?(bool_decide_eq_true_2 (ac_store c = k)),
            ?(bool_decide_eq_false_2 (ac_store c = k)),
            ?(bool_decide_eq_true_2 (ac_type c = ty)),
            ?(bool_decide_eq_false_2 (ac_type c = ty)) by done; simpl;
    [rewrite bool_decide_eq_true_2 by done
    |rewrite bool_decide_eq_false_2 by tauto..]; done.
Qed.

Lemma call_times_none k ty s s' :
  alert_calls s' = alert_calls s -> call_times k ty s' = call_times k ty s.
Proof. intros Hc. unfold call_times. by rewrite Hc. Qed.

(** What a heartbeat does to the books of one store: for each of the two
    kinds, either nothing, or one call at the current instant, recorded in
    the table, and made because the store was unknown (startup only) or
    because the cooldown was over. *)
Lemma heartbeat_for_key k s hb :
  let s' := snd (processHeartbeat hb s) in
  let now := clock s in
  ((call_times k A_startup s' = call_times k A_startup s /\
    lastStartupAlerts s' !! k = lastStartupAlerts s !! k) \/
   (call_times k A_startup s' = call_times k A_startup s ++ [now] /\
    lastStartupAlerts s' !! k = Some now /\ hb_store_id hb = k /\
    (Map_has k (allStores s) = false \/
     cooldown_over (lastStartupAlerts s !! k) now 10 = true))) /\
  ((call_times k A_recovery s' = call_times k A_recovery s /\
    lastRecoveryAlerts s' !! k = lastRecoveryAlerts s !! k) \/
   (call_times k A_recovery s' = call_times k A_recovery s ++ [now] /\
    lastRecoveryAlerts s' !! k = Some now /\
    cooldown_over (lastRecoveryAlerts s !! k) now 5 = true)).
Proof.
  destruct (processHeartbeat_effect s hb) as (_ & _ & _ & Heff). cbv zeta in *.
  set (s' := snd (processHeartbeat hb s)) in *.
  unfold Map_has.
  destruct (Map_get (hb_store_id hb) (allStores s)) as [p|] eqn:Hp.
  - destruct (hb_is_startup hb).
    + destruct Heff as (Hr & Heff).
      rewrite Hr.
      destruct (cooldown_over (lastStartupAlerts s !! hb_store_id hb) (clock s) 10)
        eqn:Hco; destruct Heff as (Hc & Hs); rewrite Hs.
      * rewrite !(call_times_one k _ s s' _ Hc). simpl.
        destruct (decide (hb_store_id hb = k)) as [<-|Hne].
        -- rewrite bool_decide_eq_true_2 by done.
           rewrite bool_decide_eq_false_2 by (intros [_ ?]; discriminate).
           rewrite app_nil_r, lookup_insert_eq. split; [right|left]; auto.
        -- rewrite !bool_decide_eq_false_2 by tauto.
           rewrite !app_nil_r, lookup_insert_ne by done. split; left; auto.
      * rewrite !(call_times_none k _ s s' Hc). split; left; auto.
    + destruct (bool_decide (status p = St_offline)).
      * destruct Heff as (Hs & Heff). rewrite Hs.
        destruct (cooldown_over (lastRecoveryAlerts s !! hb_store_id hb) (clock s) 5)
          eqn:Hco; destruct Heff as (Hc & Hr); rewrite Hr.
        -- rewrite !(call_times_one k _ s s' _ Hc). simpl.
           destruct (decide (hb_store_id hb = k)) as [<-|Hne].
           ++ rewrite (bool_decide_eq_true_2 (_ /\ A_recovery = A_recovery)) by done.
              rewrite bool_decide_eq_false_2 by (intros [_ ?]; discriminate).
              rewrite app_nil_r, lookup_insert_eq. split; [left|right]; auto.
           ++ rewrite !bool_decide_eq_false_2 by tauto.
              rewrite !app_nil_r, lookup_insert_ne by done. split; left; auto.
        -- rewrite !(call_times_none k _ s s' Hc). split; left; auto.
      * destruct Heff as (Hc & Hs & Hr). rewrite Hs, Hr.
        rewrite !(call_times_none k _ s s' Hc). split; left; auto.
  - destruct Heff as (Hc & Hs & Hr). rewrite Hs, Hr.
    rewrite !(call_times_one k _ s s' _ Hc). simpl.
    destruct (decide (hb_store_id hb = k)) as [<-|Hne].
    + rewrite bool_decide_eq_true_2 by done.
      rewrite bool_decide_eq_false_2 by (intros [_ ?]; discriminate).
      rewrite app_nil_r, lookup_insert_eq, Hp. split; [right|left]; auto.
    + rewrite !bool_decide_eq_false_2 by tauto.
      rewrite !app_nil_r, lookup_insert_ne by done. split; left; auto.
Qed.

(** A heartbeat keeps the books. *)
Lemma cooldowns_kept_heartbeat k s hb :
  cooldowns_kept k s -> cooldowns_kept k (snd (processHeartbeat hb s)).
Proof.
  intros (I1 & I2 & I3 & I4 & I5).
  destruct (processHeartbeat_effect s hb) as (Hreg & _).
  destruct (heartbeat_for_key k s hb) as (Hst & Hrc). cbv zeta in *.
  assert (forall k', Map_has k' (allStores s) = true ->
                     Map_has k' (allStores (snd (processHeartbeat hb s))) = true) as Hhas
    by (intros k' Hk'; rewrite Hreg; by apply Map_set_has).
  set (s' := snd (processHeartbeat hb s)) in *.
  unfold cooldowns_kept.
  assert (lastRecoveryAlerts s' !! k = last (call_times k A_recovery s') /\
          spaced 300000 (call_times k A_recovery s')) as (R1 & R2).
  { destruct Hrc as [(-> & ->) | (-> & -> & Hco)]; [done|].
    rewrite last_snoc. split; [done|]. apply spaced_snoc. split; [done|].
    rewrite I2 in Hco. by apply (cooldown_over_gap _ _ 5). }
  destruct Hst as [(Hc & Ht) | (Hc & Ht & Hk & Hwhy)]; rewrite Hc, Ht.
  - repeat split; auto.
  - rewrite last_snoc. repeat split; auto.
    + apply spaced_snoc. split; [done|].
      destruct Hwhy as [Hnew | Hco].
      * destruct (call_times k A_startup s) as [|a l] eqn:E; [done|].
        rewrite I5 in Hnew; [done | discriminate].
      * rewrite I1 in Hco. by apply (cooldown_over_gap _ _ 10).
    + intros _. rewrite Hreg, <- Hk. unfold Map_has. by rewrite Map_get_set_eq.
Qed.

Lemma cooldowns_kept_handle k e s :
  cooldowns_kept k s -> cooldowns_kept k (handle e s).
Proof.
  intros Hinv. destruct e as [hb|hb| | |id]; simpl.
  - rewrite (proj1 (post_heartbeat_state _ hb)). by apply cooldowns_kept_heartbeat.
  - rewrite (proj2 (post_heartbeat_state _ hb)). by apply cooldowns_kept_heartbeat.
  - eapply cooldowns_kept_offline_only; [apply sweep_offline_only | done].
  - eapply cooldowns_kept_offline_only; [apply load_offline_only | done].
  - eapply cooldowns_kept_offline_only; [apply test_email_offline_only | done].
Qed.

Lemma cooldowns_kept_run k evs s :
  cooldowns_kept k s -> cooldowns_kept k (run_events evs s).
Proof.
  revert s. induction evs as [|[t e] evs IH]; intros s Hinv; simpl; [done|].
  apply IH, cooldowns_kept_handle. exact Hinv.
Qed.

(** X4: on a server started with empty tables, whatever it is given to
    handle, two startup alerts for the same store are more than 10 minutes
    apart and two recovery alerts for the same store more than 5 minutes
    apart. *)
Theorem startup_and_recovery_alerts_are_spaced evs threshold cooldown cfg enabled
    d ok t k :
  let s := run_events evs (new_server threshold cooldown cfg enabled d ok t) in
  spaced 600000 (call_times k A_startup s) /\
  spaced 300000 (call_times k A_recovery s).
Proof.
  cbv zeta.
  destruct (cooldowns_kept_run k evs
              (new_server threshold cooldown cfg enabled d ok t))
    as (_ & _ & H1 & H2 & _); [|done].
  unfold cooldowns_kept, call_times. simpl. repeat split; done.
Qed.

(** X5: the first heartbeat of a store the registry does not know always
    makes exactly one startup call, whatever its [is_startup] flag and
    whatever the cooldown table holds, and leaves the store online with
    that instant as first-seen and last heartbeat. *)
Theorem unknown_store_is_announced s hb :
  Map_get (hb_store_id hb) (allStores s) = None ->
  let k := hb_store_id hb in
  let s' := snd (processHeartbeat hb s) in
  alert_calls s' = alert_calls s ++ [startup_call k (clock s)] /\
  lastStartupAlerts s' !! k = Some (clock s) /\
  Map_get k (allStores s') = Some (heartbeat_record hb (clock s) None) /\
  length (allStores s') = S (length (allStores s)).
Proof.
  intros Hnew. cbv zeta.
  destruct (processHeartbeat_effect s hb) as (Hreg & _ & _ & Heff).
  cbv zeta in *. rewrite Hnew in *. destruct Heff as (Hc & Hs & _).
  rewrite Hc, Hs, Hreg, lookup_insert_eq, Map_get_set_eq.
  repeat split; try done.
  clear -Hnew. induction (allStores s) as [|[k' v'] r IH]; simpl in *; [done|].
  destruct (decide (hb_store_id hb = k')); [done|]. simpl. by rewrite IH.
Qed.

(** X6: a heartbeat without the startup flag for a store that is recorded
    and not offline is silent: no call, no alert row, no mail, and none of
    the three cooldown tables is written. *)
Theorem steady_heartbeat_is_silent s hb p :
  Map_get (hb_store_id hb) (allStores s) = Some p ->
  hb_is_startup hb = false -> status p <> St_offline ->
  let s' := snd (processHeartbeat hb s) in
  alert_calls s' = alert_calls s /\ outbox s' = outbox s /\
  alerts_tbl (db s') = alerts_tbl (db s) /\
  lastStartupAlerts s' = lastStartupAlerts s /\
  lastRecoveryAlerts s' = lastRecoveryAlerts s /\
  lastOfflineAlerts s' = lastOfflineAlerts s.
Proof.
  intros Hp Hst Hoff. cbv zeta. step_hb. rewrite Hp, Hst. simpl.
  rewrite bool_decide_eq_false_2 by done. cases; done.
Qed.

(** ** Mails and alert rows *)

Lemma rows_cover_mails_refl s : rows_cover_mails s s.
Proof.
  exists [], [], []. rewrite !app_nil_r. repeat split; constructor.
Qed.

Lemma rows_cover_mails_trans s1 s2 s3 :
  rows_cover_mails s1 s2 -> rows_cover_mails s2 s3 -> rows_cover_mails s1 s3.
Proof.
  intros (m1 & r1 & c1 & A1 & A2 & A3 & A4) (m2 & r2 & c2 & B1 & B2 & B3 & B4).
  exists (m1 ++ m2), (r1 ++ r2), (c1 ++ c2).
  rewrite B1, A1, B2, A2, <- !app_assoc. repeat split.
  - by apply sublist_app.
  - by apply Forall2_app.
Qed.

Ltac cover :=
  first
    [ exists [], [], []; rewrite ?app_nil_r; repeat split; constructor
    | eexists [], [_], []; rewrite ?app_nil_r; repeat split;
      [apply sublist_nil_l | constructor]
    | eexists [_], [_], [_]; repeat split; repeat constructor ].

Lemma sendAlert_covers k ty sev s :
  rows_cover_mails s (snd (sendAlert k ty sev s)).
Proof. unfold rows_cover_mails. step_hb. cases; cover. Qed.

Lemma processHeartbeat_covers hb s :
  rows_cover_mails s (snd (processHeartbeat hb s)).
Proof. unfold rows_cover_mails. step_hb. cases; cover. Qed.

Lemma body_covers ts e s : rows_cover_mails s (snd (healthCheck_body ts e s)).
Proof. destruct e as [k st]. unfold rows_cover_mails. step. cases; cover. Qed.

Lemma loop_covers ts l s : rows_cover_mails s (snd (healthCheck_loop ts l s)).
Proof.
  revert s. induction l as [|e l IH]; intros s.
  - apply rows_cover_mails_refl.
  - rewrite loop_cons. eapply rows_cover_mails_trans; [apply body_covers | apply IH].
Qed.

Lemma handle_covers e s : rows_cover_mails s (handle e s).
Proof.
  destruct e as [hb|hb| | |id]; simpl.
  - rewrite (proj1 (post_heartbeat_state _ hb)). apply processHeartbeat_covers.
  - rewrite (proj2 (post_heartbeat_state _ hb)). apply processHeartbeat_covers.
  - rewrite performHealthCheck_unfold.
    eapply rows_cover_mails_trans; [apply loop_covers|].
    destruct (sync_frame (clock s) (snd (healthCheck_loop (clock s) (allStores s) s)))
      as (_ & Ho & Hd & _).
    exists [], [], []. rewrite Ho, Hd, !app_nil_r. repeat split; constructor.
  - destruct (load_offline_only s) as (_ & _).
    unfold rows_cover_mails, loadExistingStoresFromDB. step. cases; cover.
  - unfold rows_cover_mails, get_test_email. step_hb. cases; cover.
Qed.

(** X7: whatever the server is given to handle, every mail it queues has
    its alert row: the mails queued during a run match, in order, rows
    written to the alerts table during the same run, with the same store,
    the persisted type of the alert kind and the same severity.  A mail is
    never queued for an alert whose row could not be written. *)
Theorem every_mail_has_its_row evs s :
  rows_cover_mails s (run_events evs s).
Proof.
  revert s. induction evs as [|[t e] evs IH]; intros s; simpl.
  - apply rows_cover_mails_refl.
  - eapply rows_cover_mails_trans; [|apply IH].
    destruct (handle_covers e (set_clock t s)) as (m & r & c & H).
    exists m, r, c. exact H.
Qed.

(** ** Persistence, when the database answers *)

Lemma find_row_upsert_eq id name ts rows :
  find_row id (upsert_store id name ts rows) =
  Some {| row_store_id := id; row_store_name := Some name;
          row_last_heartbeat := Some ts; row_status := St_online;
          row_created_at := match find_row id rows with
                            | Some r => row_created_at r
                            | None => ts
                            end;
          row_updated_at := ts |}.
Proof.
  unfold find_row. induction rows as [|r rows IH]; simpl.
  - by rewrite bool_decide_eq_true_2.
  - destruct (decide (row_store_id r = id)) as [Heq|Hne]; simpl.
    + by rewrite !bool_decide_eq_true_2.
    + by rewrite bool_decide_eq_false_2.
Qed.

Lemma find_row_upsert_ne id id' name ts rows :
  id' <> id -> find_row id' (upsert_store id name ts rows) = find_row id' rows.
Proof.
  intros Hne. unfold find_row. induction rows as [|r rows IH]; simpl.
  - by rewrite bool_decide_eq_false_2.
  - destruct (decide (row_store_id r = id)) as [Heq|Hne']; simpl.
    + rewrite Heq. by rewrite !bool_decide_eq_false_2.
    + by rewrite IH.
Qed.

Lemma upsert_store_ids id name ts rows :
  NoDup (map row_store_id rows) ->
  NoDup (map row_store_id (upsert_store id name ts rows)).
Proof.
  induction rows as [|r rows IH]; simpl.
  - intros _. apply NoDup_singleton.
  - intros Hnd. apply NoDup_cons in Hnd as [Hr Hnd].
    destruct (decide (row_store_id r = id)) as [Heq|Hne]; simpl.
    + apply NoDup_cons. by rewrite <- Heq.
    + apply NoDup_cons. split; [|by apply IH].
      intros Hin. apply Hr. clear -Hin Hne.
      induction rows as [|r' rows IH]; simpl in *.
      * apply list_elem_of_singleton in Hin. congruence.
      * destruct (decide (row_store_id r' = id)) as [Heq|Hne']; simpl in *.
        -- rewrite Heq. exact Hin.
        -- apply elem_of_cons in Hin as [->|Hin]; [left | right; by apply IH].
Qed.

Lemma all_defined_length params :
  all_defined params = true -> length (omap (fun p => p) params) = length params.
Proof.
  unfold all_defined. induction params as [|[v|] params IH]; simpl; [done| |done].
  intros H. f_equal. by apply IH.
Qed.

(** With all six calls answered and every telemetry parameter defined the
    transaction commits. *)
Lemma save_commits s hb id ts :
  (forall i, (i < 6)%nat -> db_ok s (db_ops s + i)%nat = true) ->
  all_defined (history_params hb) = true ->
  all_defined (stats_params hb) = true ->
  db (snd (saveHeartbeatToDatabase (Some id) hb ts s)) =
  commit_heartbeat id hb ts (db s).
Proof.
  intros Hok D1 D2.
  pose proof (Hok 0%nat) as K0. pose proof (Hok 1%nat) as K1.
  pose proof (Hok 2%nat) as K2. pose proof (Hok 3%nat) as K3.
  pose proof (Hok 4%nat) as K4. pose proof (Hok 5%nat) as K5.
  rewrite ?Nat.add_succ_r, ?Nat.add_0_r in *.
  unfold saveHeartbeatToDatabase, db_execute, db_execute_params, db_call, bind,
    gets, modify, ret.
  simpl. rewrite K0 by lia. simpl. rewrite K1 by lia. simpl. rewrite K2 by lia.
  simpl. rewrite D1. simpl. rewrite K3 by lia. simpl. rewrite D2. simpl.
  rewrite K4 by lia. simpl. rewrite K5 by lia. reflexivity.
Qed.

(** X8: when the database answers all six calls of the transaction and
    every telemetry parameter of the two inserts is defined, an accepted
    heartbeat adds exactly one row to [heartbeat_history] and one to
    [system_stats], holding the telemetry it carried, and leaves the
    store's row online with the instant of receipt as last heartbeat; the
    row keeps its creation instant when it existed, the rows of the other
    stores are not touched and the ids of the table stay distinct. *)
Theorem accepted_heartbeat_is_persisted s hb id :
  hb_store_id hb = Some id ->
  (forall i, (i < 6)%nat -> db_ok s (db_ops s + i)%nat = true) ->
  all_defined (history_params hb) = true ->
  all_defined (stats_params hb) = true ->
  let s' := snd (processHeartbeat hb s) in
  let old := stores_tbl (db s) in
  heartbeat_history (db s') = heartbeat_history (db s) ++
    [{| hh_store_id := id; hh_timestamp := clock s;
        hh_columns := omap (fun p => p) (history_params hb); hh_payload := hb |}] /\
  system_stats (db s') = system_stats (db s) ++
    [{| ss_store_id := id; ss_timestamp := clock s;
        ss_columns := omap (fun p => p) (stats_params hb) |}] /\
  length (omap (fun p => p) (history_params hb)) = 6%nat /\
  length (omap (fun p => p) (stats_params hb)) = 8%nat /\
  find_row id (stores_tbl (db s')) =
    Some {| row_store_id := id;
            row_store_name := Some (js_or (hb_store_name hb) ("Store " ++ id));
            row_last_heartbeat := Some (clock s); row_status := St_online;
            row_created_at := match find_row id old with
                              | Some r => row_created_at r
                              | None => clock s
                              end;
            row_updated_at := clock s |} /\
  (forall id', id' <> id -> find_row id' (stores_tbl (db s')) = find_row id' old) /\
  (NoDup (map row_store_id old) -> NoDup (map row_store_id (stores_tbl (db s')))).
Proof.
  intros Hid Hok D1 D2. cbv zeta.
  destruct (processHeartbeat_tables s hb) as (r & Hs & Hh & Hst).
  rewrite Hid in Hs, Hh, Hst.
  rewrite save_commits in Hs, Hh, Hst by done. simpl in Hs, Hh, Hst.
  rewrite Hs, Hh, Hst. split; [done|]. split; [done|].
  split; [by apply all_defined_length|]. split; [by apply all_defined_length|].
  split; [apply find_row_upsert_eq|].
  split; [intros id' Hne; by apply find_row_upsert_ne | apply upsert_store_ids].
Qed.

(** X22: a heartbeat that lacks one of the telemetry fields the inserts
    bind is acknowledged and recorded in memory like any other, but none
    of it reaches the database, whatever the database answers: the driver
    refuses the [undefined] parameter and the transaction is rolled back,
    the store's row included. *)
Theorem incomplete_telemetry_is_not_persisted s hb :
  all_defined (history_params hb) && all_defined (stats_params hb) = false ->
  let r := processHeartbeat hb s in
  ack_status (fst r) = "success"%string /\
  (exists st, Map_get (hb_store_id hb) (allStores (snd r)) = Some st /\
              status st = St_online /\ last_heartbeat st = Some (clock s)) /\
  stores_tbl (db (snd r)) = stores_tbl (db s) /\
  heartbeat_history (db (snd r)) = heartbeat_history (db s) /\
  system_stats (db (snd r)) = system_stats (db s).
Proof.
  intros Hmiss. cbv zeta.
  split; [apply processHeartbeat_ack|].
  split.
  { destruct (processHeartbeat_registry s hb) as (st & ? & ? & ? & _). eauto. }
  destruct (processHeartbeat_tables s hb) as (r & -> & -> & ->).
  destruct (save_outcome (hb_store_id hb) hb (clock s)
              (set_allStores (Map_set (hb_store_id hb) r) s))
    as [Hd | (id & _ & _ & D1 & D2 & _)].
  - cbv zeta in Hd. by rewrite Hd.
  - rewrite D1, D2 in Hmiss. discriminate.
Qed.

(** ** The dashboard *)

Lemma count_status_partition l :
  (count_status St_online l + count_status St_offline l +
   count_status St_unknown l)%nat = length l.
Proof.
  unfold count_status. induction l as [|x l IH]; simpl; [done|].
  destruct (d_status x); simpl; lia.
Qed.

Lemma count_status_perm x l l' :
  l ≡ₚ l' -> count_status x l = count_status x l'.
Proof.
  intros H. unfold count_status. induction H; simpl; repeat case_match; simpl; lia.
Qed.

Lemma dashboard_store_status cfg thr t k st :
  d_store_id (dashboard_store cfg thr t (k, st)) = k /\
  match last_heartbeat st with
  | None => d_status (dashboard_store cfg thr t (k, st)) = St_unknown
  | Some lh =>
      d_status (dashboard_store cfg thr t (k, st)) =
      if thr * 60000 <? t - lh then St_offline else St_online
  end.
Proof.
  unfold dashboard_store. simpl. split; [done|].
  destruct (last_heartbeat st) as [lh|]; simpl; [|done].
  destruct (Z.leb_spec (t - lh) (thr * 60000)), (Z.ltb_spec (thr * 60000) (t - lh));
    first [done | lia].
Qed.

(** X9: the dashboard is a read: it leaves the server as it is; when the
    host's sort returns its input reordered, the report lists each store of
    the registry once and the three counts of the summary add up to its
    total. *)
Theorem dashboard_counts_add_up sort s d :
  fst (getDashboardData sort s) = Some d ->
  stores d ≡ₚ map (dashboard_store (storeEmailConfig s) (alertThresholdMinutes s)
                     (clock s)) (allStores s) ->
  snd (getDashboardData sort s) = s /\
  map d_store_id (stores d) ≡ₚ Map_keys (allStores s) /\
  total_stores (summary d) = length (stores d) /\
  (online_stores (summary d) + offline_stores (summary d) +
   unknown_stores (summary d))%nat = total_stores (summary d).
Proof.
  unfold getDashboardData, new_Date, bind, gets, ret. simpl.
  destruct (sort _) as [sorted|] eqn:E; simpl; [|done].
  intros [= <-]. simpl. intros Hp.
  split; [done|]. split; [|split].
  - rewrite Hp, map_map. unfold Map_keys.
    erewrite map_ext; [reflexivity|]. by intros [k st].
  - by rewrite Hp, length_map.
  - rewrite count_status_partition. by rewrite Hp, length_map.
Qed.

(** What one iteration of the sweep leaves of the record it looks at. *)
Lemma body_status t k st s :
  Map_get k (allStores s) = Some st ->
  let s' := snd (healthCheck_body t (k, st) s) in
  exists st',
    Map_get k (allStores s') = Some st' /\
    match last_heartbeat st with
    | Some lh =>
        if alertThresholdMinutes s * 60000 <? t - lh
        then st' = with_status st St_offline
        else st' = st
    | None => st' = st
    end.
Proof.
  intros Hk. cbv zeta. step.
  destruct (last_heartbeat st) as [lh|] eqn:El; simpl; [|eauto].
  destruct (alertThresholdMinutes s * 60000 <? t - lh); simpl; [|eauto].
  case_bool_decide as Hst; simpl.
  - exists st. split.
    + cases; done.
    + destruct st; simpl in *; by subst.
  - exists (with_status st St_offline). split; [|done].
    cases; simpl; by rewrite Map_get_set_eq.
Qed.

(** X10: right after a sweep the registry and the dashboard agree on who
    is offline: of the stores that were in memory, those the dashboard
    shows offline are recorded offline, and the others have the record they
    had before the sweep. *)
Theorem dashboard_agrees_with_sweep s k st :
  NoDup (Map_keys (allStores s)) -> In (k, st) (allStores s) ->
  let s' := snd (performHealthCheck s) in
  exists st',
    Map_get k (allStores s') = Some st' /\
    let shown := d_status (dashboard_store (storeEmailConfig s')
                             (alertThresholdMinutes s') (clock s') (k, st')) in
    (shown = St_offline -> status st' = St_offline /\
                           last_heartbeat st' = last_heartbeat st) /\
    (shown <> St_offline -> st' = st).
Proof.
  intros Hnd Hin. cbv zeta.
  destruct (sweep_focus s k st Hnd Hin) as (sa & Hc & Ha & _ & _ & Hb & _).
  cbv zeta in Hb.
  destruct (body_status (clock s) k st sa Ha) as (st' & Hg & Hst').
  destruct (sweep_offline_only s) as (_ & Hc').
  destruct Hc as (_ & Hthr & _). destruct Hc' as (Hclk & Hthr' & _).
  exists st'. split; [by apply Hb|].
  rewrite Hclk, Hthr'. rewrite Hthr in Hst'.
  destruct (dashboard_store_status (storeEmailConfig (snd (performHealthCheck s)))
              (alertThresholdMinutes s) (clock s) k st') as (_ & Hd).
  destruct (last_heartbeat st) as [lh|] eqn:El.
  - destruct (alertThresholdMinutes s * 60000 <? clock s - lh) eqn:Eo; subst st'.
    + assert (last_heartbeat (with_status st St_offline) = Some lh) as El'
        by (by destruct st).
      rewrite El', Eo in Hd. rewrite Hd. split; [by split | done].
    + rewrite El, Eo in Hd. rewrite Hd. split; [discriminate | done].
  - subst st'. rewrite El in Hd. rewrite Hd. split; [discriminate | done].
Qed.

(** ** Store details *)

(** X11: the details of a store are answered exactly for the stores of the
    registry, and the answer agrees with the dashboard: [is_online] holds
    exactly when the dashboard computes [online] for the record. *)
Theorem store_details_agree_with_dashboard storeId s :
  let r := fst (get_store storeId s) in
  snd (get_store storeId s) = s /\
  match Map_get (Some storeId) (allStores s) with
  | None => r = (404, None)
  | Some st =>
      exists d, r = (200, Some d) /\ sd_store d = st /\
        (sd_is_online d = true <->
         d_status (dashboard_store (storeEmailConfig s) (alertThresholdMinutes s)
                     (clock s) (Some storeId, st)) = St_online) /\
        sd_email_recipients d =
          d_email_recipients (dashboard_store (storeEmailConfig s)
                                (alertThresholdMinutes s) (clock s) (Some storeId, st))
  end.
Proof.
  cbv zeta. unfold get_store, new_Date, bind, gets, ret. simpl.
  destruct (Map_get (Some storeId) (allStores s)) as [st|]; simpl; [|done].
  split; [done|]. eexists. split; [done|]. simpl. split; [done|]. split; [|done].
  destruct (last_heartbeat st) as [lh|]; simpl; [|done].
  destruct (clock s - lh <=? alertThresholdMinutes s * 60000); done.
Qed.

(** ** The test mail *)

(** X12: the test route answers 400 and changes nothing when the store has
    no recipients; otherwise it answers 200 whether or not a mail leaves:
    it records an offline alert of severity critical for the store, queues
    a mail exactly when mail is enabled and the alert row could be
    written, and touches neither the registry nor the offline cooldown. *)
Theorem test_email_is_an_offline_alert storeId s :
  let rcpts := getEmailRecipients (storeEmailConfig s) (Some storeId) in
  let s' := snd (get_test_email storeId s) in
  match rcpts with
  | [] => fst (get_test_email storeId s) = (400, []) /\ s' = s
  | _ :: _ =>
      fst (get_test_email storeId s) = (200, rcpts) /\
      alert_calls s' = alert_calls s ++ [offline_call (Some storeId) (clock s)] /\
      allStores s' = allStores s /\
      lastOfflineAlerts s' = lastOfflineAlerts s /\
      outbox s' = outbox s ++
        (if db_ok s (db_ops s) && emailEnabled s
         then [{| em_to := rcpts; em_store := Some storeId;
                  em_type := A_offline; em_severity := critical |}]
         else []) /\
      alerts_tbl (db s') = alerts_tbl (db s) ++
        (if db_ok s (db_ops s)
         then [{| al_store_id := storeId; al_type := Db_offline;
                  al_severity := critical; al_timestamp := clock s |}]
         else [])
  end.
Proof.
  cbv zeta. unfold get_test_email. step_hb.
  destruct (getEmailRecipients (storeEmailConfig s) (Some storeId)) as [|r l] eqn:E;
    simpl; [done|].
  destruct (db_ok s (db_ops s)); simpl; [|by rewrite !app_nil_r].
  destruct (emailEnabled s); simpl; [|by rewrite !app_nil_r].
  rewrite E. simpl. done.
Qed.

(** ** Reloading the recipients *)

Lemma trim_all_strings trim items l :
  mapM (fun i => match i with I_string e => Some e | I_other => None end) items = Some l ->
  trim_all trim items = Some (map trim l).
Proof.
  revert l. induction items as [|[e|] items IH]; intros l; simpl.
  - by intros [= <-].
  - destruct (mapM _ items) as [l'|] eqn:E; simpl; [|done].
    intros [= <-]. by rewrite (IH l').
  - done.
Qed.

Lemma find_snoc {A} (f : A -> bool) l x :
  List.find f (l ++ [x]) =
  match List.find f l with
  | Some y => Some y
  | None => if f x then Some x else None
  end.
Proof. induction l as [|y l IH]; simpl; [done|]. by destruct (f y). Qed.

(** The entries of a file whose values are all arrays of strings are all
    stored: the map answers, for each id, the trimmed list of its last
    entry. *)
Lemma load_entries_lookup trim entries cfg k :
  Forall (fun e => is_Some (strings_of (snd e))) entries ->
  load_entries trim entries cfg !! k =
  match List.find (fun e => bool_decide (fst e = k)) (rev entries) with
  | Some e => map trim <$> strings_of (snd e)
  | None => cfg !! k
  end.
Proof.
  revert cfg. induction entries as [|[id j] entries IH]; intros cfg Hall; simpl; [done|].
  apply Forall_cons in Hall as [[l Hl] Hall]. simpl in Hl.
  destruct j as [items|]; [|done]. simpl in Hl.
  rewrite (trim_all_strings trim items l Hl). rewrite IH by done.
  rewrite find_snoc.
  destruct (List.find _ (rev entries)) as [e|]; [done|]. simpl.
  case_bool_decide as Hk.
  - subst. rewrite lookup_insert_eq. simpl. by rewrite Hl.
  - by rewrite lookup_insert_ne.
Qed.

(** X13: a reload forgets everything first.  When the file is missing or
    cannot be read, no store has a recipient afterwards, not even through
    the default entry: the sample file written in place of a missing one
    is not read. *)
Theorem reload_without_file_forgets_all trim c k :
  cfg_file c = File_absent \/ cfg_file c = File_unreadable ->
  let c' := snd (reloadConfigurations trim c) in
  fst (reloadConfigurations trim c) = 0%nat /\
  cfg_map c' = ∅ /\
  getEmailRecipients (cfg_map c') k = [] /\
  (cfg_file c = File_absent -> write_ok c = true ->
   cfg_file c' = File_entries sampleConfig).
Proof.
  intros Hf. cbv zeta. unfold reloadConfigurations, loadEmailConfiguration. simpl.
  assert (getEmailRecipients ∅ k = []) as He
    by (unfold getEmailRecipients; destruct k; simpl; by rewrite ?lookup_empty).
  destruct Hf as [-> | ->]; simpl.
  - destruct (write_ok c); simpl; repeat split; done.
  - repeat split; done.
Qed.

(** X14: when every entry of the file is an array of strings, the
    recipients after a reload are those of the file, trimmed, whatever was
    configured before: an id has the list of its entry and an id the file
    does not name has none. *)
Theorem reload_reads_the_file trim c entries id :
  cfg_file c = File_entries entries ->
  Forall (fun e => is_Some (strings_of (snd e))) entries ->
  cfg_map (snd (reloadConfigurations trim c)) !! id =
  match List.find (fun e => bool_decide (fst e = id)) (rev entries) with
  | Some e => map trim <$> strings_of (snd e)
  | None => None
  end.
Proof.
  intros Hf Hall. unfold reloadConfigurations, loadEmailConfiguration. simpl.
  rewrite Hf. simpl. rewrite load_entries_lookup by done.
  destruct (List.find _ _); [done | apply lookup_empty].
Qed.

(** The load stops at the first array that holds something other than a
    string: what was stored before it stays, nothing after it is read. *)
Lemma load_entries_stops trim before id items after cfg :
  trim_all trim items = None ->
  Forall (fun e => is_Some (strings_of (snd e))) before ->
  load_entries trim (before ++ (id, J_array items) :: after) cfg =
  load_entries trim before cfg.
Proof.
  intros Hbad. revert cfg. induction before as [|[id' j] before IH]; intros cfg Hall; simpl.
  - by rewrite Hbad.
  - apply Forall_cons in Hall as [[l Hl] Hall]. simpl in Hl.
    destruct j as [its|]; [|done]. simpl in Hl.
    rewrite (trim_all_strings trim its l Hl). by apply IH.
Qed.

(** X15: one malformed entry hides every entry after it: when an array of
    the file holds something that is not a string, the load keeps the
    entries before it and stores neither that entry nor any later one, so
    a store configured after it has no recipients of its own. *)
Theorem malformed_entry_hides_later_ones trim c before id items after k :
  cfg_file c = File_entries (before ++ (id, J_array items) :: after) ->
  trim_all trim items = None ->
  Forall (fun e => is_Some (strings_of (snd e))) before ->
  k ∉ map fst before ->
  cfg_map (snd (reloadConfigurations trim c)) !! k = None /\
  cfg_map (snd (reloadConfigurations trim c)) =
    load_entries trim before ∅.
Proof.
  intros Hf Hbad Hall Hk.
  unfold reloadConfigurations, loadEmailConfiguration. simpl. rewrite Hf. simpl.
  rewrite load_entries_stops by done. split; [|done].
  rewrite load_entries_lookup by done.
  destruct (List.find _ (rev before)) as [e|] eqn:E; [|apply lookup_empty].
  apply find_some in E as [Hin He]. apply bool_decide_eq_true in He.
  exfalso. apply Hk. rewrite <- He. apply list_elem_of_In, in_map.
  by apply in_rev.
Qed.

(** ** Instances *)

(** X1 instance: store A through a sweep and a heartbeat. *)
Lemma registry_keys_unique_witness :
  NoDup (Map_keys (allStores server_1)) /\
  Map_has store_A (allStores server_1) = true /\
  NoDup (Map_keys (allStores (run_events sweep_then_heartbeat server_1))) /\
  Map_has store_A (allStores (run_events sweep_then_heartbeat server_1)) = true.
Proof.
  assert (NoDup (Map_keys (allStores server_1))) as H1
    by (vm_compute; apply NoDup_singleton).
  assert (Map_has store_A (allStores server_1) = true) as H2 by reflexivity.
  split; [exact H1|]. split; [exact H2|].
  exact (registry_keys_unique sweep_then_heartbeat server_1 store_A H1 H2).
Defined.

(** X2 instance: store A through a sweep and a heartbeat. *)
Lemma first_seen_is_stable_witness :
  forallb (fun te => negb (is_load (snd te))) sweep_then_heartbeat = true /\
  NoDup (Map_keys (allStores server_1)) /\
  Map_get store_A (allStores server_1) = Some record_A /\
  exists st', Map_get store_A (allStores (run_events sweep_then_heartbeat server_1))
                = Some st' /\
              first_seen st' = first_seen record_A.
Proof.
  assert (forallb (fun te => negb (is_load (snd te))) sweep_then_heartbeat = true)
    as H1 by reflexivity.
  assert (NoDup (Map_keys (allStores server_1))) as H2
    by (vm_compute; apply NoDup_singleton).
  assert (Map_get store_A (allStores server_1) = Some record_A) as H3
    by (vm_compute; reflexivity).
  split; [exact H1|]. split; [exact H2|]. split; [exact H3|].
  exact (first_seen_is_stable sweep_then_heartbeat server_1 store_A record_A H1 H2 H3).
Defined.

(** X3 instance: the sweep six minutes after the heartbeat of store A. *)
Lemma sweep_never_online_witness :
  let s := set_clock 360000 server_1 in
  NoDup (Map_keys (allStores s)) /\ In (store_A, record_A) (allStores s) /\
  exists st',
    Map_get store_A (allStores (snd (performHealthCheck s))) = Some st' /\
    last_heartbeat st' = last_heartbeat record_A /\
    first_seen st' = first_seen record_A /\
    (status st' = status record_A \/ status st' = St_offline) /\
    (status st' = St_online -> status record_A = St_online).
Proof.
  assert (NoDup (Map_keys (allStores (set_clock 360000 server_1)))) as H1
    by (vm_compute; apply NoDup_singleton).
  assert (In (store_A, record_A) (allStores (set_clock 360000 server_1))) as H2
    by (vm_compute; left; reflexivity).
  split; [exact H1|]. split; [exact H2|].
  exact (sweep_never_online (set_clock 360000 server_1) store_A record_A H1 H2).
Defined.

(** X5 instance: the first heartbeat of store A, sent without the startup flag. *)
Lemma unknown_store_is_announced_witness :
  Map_get (hb_store_id (hb_A false)) (allStores server_0) = None /\
  alert_calls (snd (processHeartbeat (hb_A false) server_0)) =
    alert_calls server_0 ++ [startup_call store_A 0] /\
  lastStartupAlerts (snd (processHeartbeat (hb_A false) server_0)) !! store_A = Some 0 /\
  Map_get store_A (allStores (snd (processHeartbeat (hb_A false) server_0))) =
    Some (heartbeat_record (hb_A false) 0 None) /\
  length (allStores (snd (processHeartbeat (hb_A false) server_0))) = 1%nat.
Proof.
  assert (Map_get (hb_store_id (hb_A false)) (allStores server_0) = None) as H1
    by reflexivity.
  split; [exact H1|].
  exact (unknown_store_is_announced server_0 (hb_A false) H1).
Defined.

(** X6 instance: the heartbeat of store A one minute after its first. *)
Lemma steady_heartbeat_is_silent_witness :
  let s := set_clock 60000 server_1 in
  let s' := snd (processHeartbeat (hb_A false) s) in
  Map_get (hb_store_id (hb_A false)) (allStores s) = Some record_A /\
  hb_is_startup (hb_A false) = false /\ status record_A <> St_offline /\
  alert_calls s' = alert_calls s /\ outbox s' = outbox s /\
  alerts_tbl (db s') = alerts_tbl (db s) /\
  lastStartupAlerts s' = lastStartupAlerts s /\
  lastRecoveryAlerts s' = lastRecoveryAlerts s /\
  lastOfflineAlerts s' = lastOfflineAlerts s.
Proof.
  assert (Map_get (hb_store_id (hb_A false)) (allStores (set_clock 60000 server_1))
          = Some record_A) as H1 by (vm_compute; reflexivity).
  assert (hb_is_startup (hb_A false) = false) as H2 by reflexivity.
  assert (status record_A <> St_offline) as H3 by discriminate.
  split; [exact H1|]. split; [exact H2|]. split; [exact H3|].
  exact (steady_heartbeat_is_silent (set_clock 60000 server_1) (hb_A false) record_A
           H1 H2 H3).
Defined.

(** X8 instance: the first heartbeat of store A on an empty database. *)
Lemma accepted_heartbeat_is_persisted_witness :
  hb_store_id (hb_A true) = Some "A"%string /\
  (forall i, (i < 6)%nat -> db_ok server_0 (db_ops server_0 + i)%nat = true) /\
  all_defined (history_params (hb_A true)) = true /\
  all_defined (stats_params (hb_A true)) = true /\
  heartbeat_history (db (snd (processHeartbeat (hb_A true) server_0))) =
    [{| hh_store_id := "A"; hh_timestamp := 0;
        hh_columns := ["12.5"; "40"; "120"; "4"; "4"; "true"]%string;
        hh_payload := hb_A true |}] /\
  system_stats (db (snd (processHeartbeat (hb_A true) server_0))) =
    [{| ss_store_id := "A"; ss_timestamp := 0;
        ss_columns := ["12.5"; "40"; "9.6"; "120"; "52"; "80"; "3"; "true"]%string |}] /\
  find_row "A" (stores_tbl (db (snd (processHeartbeat (hb_A true) server_0)))) =
    Some {| row_store_id := "A"; row_store_name := Some "Alpha"%string;
            row_last_heartbeat := Some 0; row_status := St_online;
            row_created_at := 0; row_updated_at := 0 |}.
Proof.
  assert (hb_store_id (hb_A true) = Some "A"%string) as H1 by reflexivity.
  assert (forall i, (i < 6)%nat -> db_ok server_0 (db_ops server_0 + i)%nat = true)
    as H2 by (intros i _; reflexivity).
  assert (all_defined (history_params (hb_A true)) = true) as H3 by reflexivity.
  assert (all_defined (stats_params (hb_A true)) = true) as H4 by reflexivity.
  split; [exact H1|]. split; [exact H2|]. split; [exact H3|]. split; [exact H4|].
  destruct (accepted_heartbeat_is_persisted server_0 (hb_A true) "A"%string H1 H2 H3 H4)
    as (Hh & Hs & _ & _ & Hr & _).
  split; [exact Hh|]. split; [exact Hs | exact Hr].
Defined.

(** X22 instance: the heartbeat of a client whose system probe failed, on
    a database that answers everything. *)
Lemma incomplete_telemetry_is_not_persisted_witness :
  all_defined (history_params hb_A_blind) && all_defined (stats_params hb_A_blind)
    = false /\
  ack_status (fst (processHeartbeat hb_A_blind server_0)) = "success"%string /\
  stores_tbl (db (snd (processHeartbeat hb_A_blind server_0))) = [] /\
  heartbeat_history (db (snd (processHeartbeat hb_A_blind server_0))) = [] /\
  system_stats (db (snd (processHeartbeat hb_A_blind server_0))) = [].
Proof.
  assert (all_defined (history_params hb_A_blind) &&
          all_defined (stats_params hb_A_blind) = false) as H1 by reflexivity.
  split; [exact H1|].
  destruct (incomplete_telemetry_is_not_persisted server_0 hb_A_blind H1)
    as (Ha & _ & Hs & Hh & Hst).
  split; [exact Ha|]. split; [exact Hs|]. split; [exact Hh | exact Hst].
Defined.

(** X9 instance: the dashboard one minute after the heartbeat of store A. *)
Lemma dashboard_counts_add_up_witness :
  let s := set_clock 60000 server_1 in
  fst (getDashboardData sort_in_order s) = Some dashboard_1 /\
  stores dashboard_1 ≡ₚ
    map (dashboard_store (storeEmailConfig s) (alertThresholdMinutes s) (clock s))
        (allStores s) /\
  snd (getDashboardData sort_in_order s) = s /\
  map d_store_id (stores dashboard_1) ≡ₚ Map_keys (allStores s) /\
  total_stores (summary dashboard_1) = length (stores dashboard_1) /\
  (online_stores (summary dashboard_1) + offline_stores (summary dashboard_1) +
   unknown_stores (summary dashboard_1))%nat = total_stores (summary dashboard_1).
Proof.
  assert (fst (getDashboardData sort_in_order (set_clock 60000 server_1))
          = Some dashboard_1) as H1 by (vm_compute; reflexivity).
  assert (stores dashboard_1 ≡ₚ
          map (dashboard_store (storeEmailConfig (set_clock 60000 server_1))
                 (alertThresholdMinutes (set_clock 60000 server_1))
                 (clock (set_clock 60000 server_1)))
              (allStores (set_clock 60000 server_1))) as H2
    by (vm_compute; reflexivity).
  split; [exact H1|]. split; [exact H2|].
  exact (dashboard_counts_add_up sort_in_order (set_clock 60000 server_1) dashboard_1
           H1 H2).
Defined.

(** X10 instance: the sweep six minutes after the heartbeat of store A. *)
Lemma dashboard_agrees_with_sweep_witness :
  let s := set_clock 360000 server_1 in
  let s' := snd (performHealthCheck s) in
  NoDup (Map_keys (allStores s)) /\ In (store_A, record_A) (allStores s) /\
  exists st',
    Map_get store_A (allStores s') = Some st' /\
    let shown := d_status (dashboard_store (storeEmailConfig s')
                             (alertThresholdMinutes s') (clock s') (store_A, st')) in
    (shown = St_offline -> status st' = St_offline /\
                           last_heartbeat st' = last_heartbeat record_A) /\
    (shown <> St_offline -> st' = record_A).
Proof.
  assert (NoDup (Map_keys (allStores (set_clock 360000 server_1)))) as H1
    by (vm_compute; apply NoDup_singleton).
  assert (In (store_A, record_A) (allStores (set_clock 360000 server_1))) as H2
    by (vm_compute; left; reflexivity).
  split; [exact H1|]. split; [exact H2|].
  exact (dashboard_agrees_with_sweep (set_clock 360000 server_1) store_A record_A H1 H2).
Defined.

(** X13 instance: a reload after the file was removed. *)
Lemma reload_without_file_forgets_all_witness :
  (cfg_file config_gone = File_absent \/ cfg_file config_gone = File_unreadable) /\
  fst (reloadConfigurations trim_nothing config_gone) = 0%nat /\
  getEmailRecipients (cfg_map (snd (reloadConfigurations trim_nothing config_gone)))
                     (Some "2308"%string) = [].
Proof.
  assert (cfg_file config_gone = File_absent \/ cfg_file config_gone = File_unreadable)
    as H1 by (left; reflexivity).
  split; [exact H1|].
  destruct (reload_without_file_forgets_all trim_nothing config_gone (Some "2308"%string) H1)
    as (Hn & _ & Hr & _).
  split; [exact Hn | exact Hr].
Defined.

(** X14 instance: a reload of the sample file. *)
Lemma reload_reads_the_file_witness :
  cfg_file config_sample = File_entries sampleConfig /\
  Forall (fun e => is_Some (strings_of (snd e))) sampleConfig /\
  cfg_map (snd (reloadConfigurations trim_nothing config_sample)) !! "7"%string = None /\
  cfg_map (snd (reloadConfigurations trim_nothing config_sample)) !! "2309"%string =
    Some ["krishna@hivoco.com"%string].
Proof.
  assert (cfg_file config_sample = File_entries sampleConfig) as H1 by reflexivity.
  assert (Forall (fun e => is_Some (strings_of (snd e))) sampleConfig) as H2
    by (repeat constructor; by eexists).
  split; [exact H1|]. split; [exact H2|]. split.
  - exact (reload_reads_the_file trim_nothing config_sample sampleConfig "7"%string H1 H2).
  - exact (reload_reads_the_file trim_nothing config_sample sampleConfig "2309"%string
             H1 H2).
Defined.

(** X15 instance: a number among the addresses of the second entry. *)
Lemma malformed_entry_hides_later_ones_witness :
  cfg_file config_broken =
    File_entries ([("2308"%string, J_array [I_string "a@example.org"])] ++
                  ("2309"%string, J_array [I_string "b@example.org"; I_other]) ::
                  [("default"%string, J_array [I_string "ops@example.org"])]) /\
  trim_all trim_nothing [I_string "b@example.org"; I_other] = None /\
  Forall (fun e => is_Some (strings_of (snd e)))
         [("2308"%string, J_array [I_string "a@example.org"])] /\
  ("default"%string ∉ map fst [("2308"%string, J_array [I_string "a@example.org"])]) /\
  cfg_map (snd (reloadConfigurations trim_nothing config_broken)) !! "default"%string
    = None.
Proof.
  assert (cfg_file config_broken =
    File_entries ([("2308"%string, J_array [I_string "a@example.org"])] ++
                  ("2309"%string, J_array [I_string "b@example.org"; I_other]) ::
                  [("default"%string, J_array [I_string "ops@example.org"])]))
    as H1 by reflexivity.
  assert (trim_all trim_nothing [I_string "b@example.org"; I_other] = None) as H2
    by reflexivity.
  assert (Forall (fun e => is_Some (strings_of (snd e)))
                 [("2308"%string, J_array [I_string "a@example.org"])]) as H3
    by (repeat constructor; by eexists).
  assert ("default"%string ∉ map fst [("2308"%string, J_array [I_string "a@example.org"])])
    as H4 by (simpl; rewrite list_elem_of_singleton; discriminate).
  split; [exact H1|]. split; [exact H2|]. split; [exact H3|]. split; [exact H4|].
  exact (proj1 (malformed_entry_hides_later_ones trim_nothing config_broken _ _ _ _ _
                  H1 H2 H3 H4)).
Defined.

End ServerExtraProofs.

(** * Properties of the rest of the client *)

Module ClientExtraProofs.
Import Client ClientExtra ClientProofs.

(** ** The array in memory *)

Lemma slice_last_length {A} n (l : list A) :
  length (slice_last n l) = Nat.min n (length l).
Proof. unfold slice_last. rewrite length_skipn. lia. Qed.

Lemma splice_id_length id l : (length (splice_id id l) <= length l)%nat.
Proof.
  induction l as [|x l IH]; simpl; [done|].
  destruct (decide (m_id x = id)); simpl; lia.
Qed.

(** Without the local table the drain only shortens the array, and it
    leaves the counters of the client alone in both modes. *)
Lemma drain_loop_frame w i rows s :
  let s' := drain_loop w i rows s in
  localDb s' = localDb s /\ storeId s' = storeId s /\ clock s' = clock s /\
  consecutiveFailures s' = consecutiveFailures s /\
  lastSuccessfulConnection s' = lastSuccessfulConnection s /\
  next_id s' = next_id s /\
  (length (default [] (heartbeatBuffer s')) <= length (default [] (heartbeatBuffer s)))%nat.
Proof.
  revert i s. induction rows as [|[id d] rest IH]; intros i s; simpl.
  { repeat split; auto. }
  destruct (decode (localDb s) d) as [p|]; [|apply IH].
  repeat case_match; simpl; try (repeat split; auto; fail);
    match goal with
    | |- context [drain_loop w (S i) rest ?s0] =>
        destruct (IH (S i) s0) as (I1 & I2 & I3 & I4 & I5 & I6 & I7);
        simpl in I1, I2, I3, I4, I5, I6, I7;
        rewrite I1, I2, I3, I4, I5, I6; repeat split; auto
    end.
  etransitivity; [exact I7|].
  destruct (heartbeatBuffer s) as [l|]; simpl; [apply splice_id_length | done].
Qed.

Lemma sendBufferedHeartbeats_frame w s :
  let s' := sendBufferedHeartbeats w s in
  localDb s' = localDb s /\ storeId s' = storeId s /\ clock s' = clock s /\
  consecutiveFailures s' = consecutiveFailures s /\
  lastSuccessfulConnection s' = lastSuccessfulConnection s /\
  next_id s' = next_id s /\
  (length (default [] (heartbeatBuffer s')) <= length (default [] (heartbeatBuffer s)))%nat.
Proof.
  unfold sendBufferedHeartbeats. destruct (peek w s); [apply drain_loop_frame|].
  repeat split; auto.
Qed.

Lemma storeHeartbeatLocally_bound w p s :
  localDb s = false ->
  (length (default [] (heartbeatBuffer s)) <= 100)%nat ->
  let s' := storeHeartbeatLocally w p s in
  localDb s' = false /\ (length (default [] (heartbeatBuffer s')) <= 100)%nat.
Proof.
  intros Hdb Hlen. unfold storeHeartbeatLocally. rewrite Hdb.
  destruct (100 <? length _)%nat eqn:E; simpl; (split; [done|]).
  - rewrite slice_last_length. lia.
  - apply Nat.ltb_ge in E. done.
Qed.

Lemma perform_bound a s :
  localDb s = false ->
  (length (default [] (heartbeatBuffer s)) <= 100)%nat ->
  localDb (perform a s) = false /\
  (length (default [] (heartbeatBuffer (perform a s))) <= 100)%nat.
Proof.
  intros Hdb Hlen. destruct a as [w|w|w]; simpl.
  - unfold sendHeartbeat.
    destruct (live w) as [status|code resp]; [destruct (status =? 200)|]; simpl.
    + match goal with |- context [sendBufferedHeartbeats w ?s0] =>
        destruct (sendBufferedHeartbeats_frame w s0) as (I1 & _ & _ & _ & _ & _ & I7) end.
      simpl in I1, I7. rewrite I1. split; [done | lia].
    + by apply storeHeartbeatLocally_bound.
    + by apply storeHeartbeatLocally_bound.
  - unfold clearOldBufferedHeartbeats. rewrite Hdb.
    destruct (heartbeatBuffer s) as [l|] eqn:E; simpl; [|by rewrite E].
    split; [done|]. simpl in Hlen.
    etransitivity; [apply List.filter_length_le|]. done.
  - destruct (sendBufferedHeartbeats_frame w s) as (I1 & _ & _ & _ & _ & _ & I7).
    simpl in I1, I7. rewrite I1. split; [done | lia].
Qed.

(** X16: without the local table the array never holds more than 100
    heartbeats, whatever the timers and the shutdown run, and the status
    report counts no row of the table. *)
Theorem memory_buffer_is_bounded acts w s :
  localDb s = false ->
  (length (default [] (heartbeatBuffer s)) <= 100)%nat ->
  exists n, getBufferStatus w (run_actions acts s) = (false, n, 0%nat) /\
            (n <= 100)%nat.
Proof.
  revert s. induction acts as [|[t a] acts IH]; intros s Hdb Hlen; simpl.
  - unfold getBufferStatus. rewrite Hdb. simpl. eauto.
  - destruct (perform_bound a (set_clock t s)) as (H1 & H2); [done..|].
    by apply IH.
Qed.

(** X17: the heartbeat that finds the array full costs 51 of them: when
    the array holds 100 heartbeats, storing one more leaves the newest 49
    of them and the new one. *)
Theorem memory_overflow_drops_oldest w p s l :
  localDb s = false -> heartbeatBuffer s = Some l -> length l = 100%nat ->
  heartbeatBuffer (storeHeartbeatLocally w p s) =
    Some (drop 51 l ++ [{| m_id := clock s; m_timestamp := mysqlTimestamp (clock s);
                           m_data := p |}]).
Proof.
  intros Hdb Hb Hlen. unfold storeHeartbeatLocally. rewrite Hdb, Hb. simpl.
  rewrite length_app, Hlen. simpl. unfold slice_last.
  rewrite length_app, Hlen. simpl.
  rewrite drop_app_le by lia. done.
Qed.

(** ** The counters *)

Lemma run_app t1 t2 s : run (t1 ++ t2) s = run t2 (run t1 s).
Proof. revert s. induction t1 as [|[t w] t1 IH]; intros s; simpl; [done | apply IH]. Qed.

Lemma storeHeartbeatLocally_frame w p s :
  let s' := storeHeartbeatLocally w p s in
  localDb s' = localDb s /\ storeId s' = storeId s /\ clock s' = clock s /\
  consecutiveFailures s' = consecutiveFailures s /\
  lastSuccessfulConnection s' = lastSuccessfulConnection s /\
  isFirstHeartbeat s' = isFirstHeartbeat s.
Proof. unfold storeHeartbeatLocally. repeat case_match; done. Qed.

(** One tick on the counters. *)
Lemma sendHeartbeat_counters w s :
  let s' := snd (sendHeartbeat w s) in
  consecutiveFailures s' = (if delivered w then 0 else consecutiveFailures s + 1) /\
  lastSuccessfulConnection s' =
    (if delivered w then Some (clock s) else lastSuccessfulConnection s).
Proof.
  unfold sendHeartbeat, delivered. cbv zeta.
  destruct (live w) as [status|code resp]; [destruct (status =? 200)|]; simpl.
  - match goal with |- context [sendBufferedHeartbeats w ?s0] =>
      destruct (sendBufferedHeartbeats_frame w s0) as (_ & _ & _ & -> & -> & _) end.
    done.
  - match goal with |- context [storeHeartbeatLocally w ?p ?s0] =>
      destruct (storeHeartbeatLocally_frame w p s0) as (_ & _ & _ & -> & -> & _) end.
    done.
  - match goal with |- context [storeHeartbeatLocally w ?p ?s0] =>
      destruct (storeHeartbeatLocally_frame w p s0) as (_ & _ & _ & -> & -> & _) end.
    done.
Qed.

Lemma outage_counters ticks s :
  undelivered ticks = true ->
  consecutiveFailures (run ticks s) = consecutiveFailures s + Z.of_nat (length ticks) /\
  lastSuccessfulConnection (run ticks s) = lastSuccessfulConnection s.
Proof.
  revert s. induction ticks as [|[t w] ticks IH]; intros s Hu; simpl.
  { split; [lia | done]. }
  unfold undelivered in Hu. simpl in Hu. apply andb_true_iff in Hu as [Hw Hu].
  apply negb_true_iff in Hw.
  destruct (sendHeartbeat_counters w (set_clock t s)) as (H1 & H2).
  cbv zeta in H1, H2. rewrite Hw in H1, H2. simpl in H1, H2.
  destruct (IH (snd (sendHeartbeat w (set_clock t s))) Hu) as (I1 & I2).
  rewrite I1, I2, H1, H2. split; [lia | done].
Qed.

(** X18: the failure counter is the number of ticks since the last
    delivered heartbeat, and the last successful connection is the instant
    of that heartbeat, whatever happened before it. *)
Theorem failures_count_since_last_success before t w after s :
  delivered w = true -> undelivered after = true ->
  let s' := run (before ++ (t, w) :: after) s in
  consecutiveFailures s' = Z.of_nat (length after) /\
  lastSuccessfulConnection s' = Some t.
Proof.
  intros Hw Hu. cbv zeta. rewrite run_app. simpl.
  destruct (sendHeartbeat_counters w (set_clock t (run before s))) as (H1 & H2).
  cbv zeta in H1, H2. rewrite Hw in H1, H2. simpl in H2.
  destruct (outage_counters after (snd (sendHeartbeat w (set_clock t (run before s)))) Hu)
    as (I1 & I2).
  rewrite I1, I2, H1, H2. split; [lia | done].
Qed.

(** ** The speed cache *)

Section SpeedFacts.
Context {Speed : Type}.
Variable average : list Speed -> Speed.

(** The cache is coherent when the speed it reports is that of the last
    entry of a history of at most 5. *)
Lemma measure_keeps (probes : list (option Speed)) now c :
  (length (networkSpeedHistory c) <= 5)%nat ->
  lastNetworkSpeed c = fst <$> last (networkSpeedHistory c) ->
  let c' := snd (measureNetworkSpeed average probes now c) in
  (length (networkSpeedHistory c') <= 5)%nat /\
  lastNetworkSpeed c' = fst <$> last (networkSpeedHistory c').
Proof.
  intros Hlen Hlast. unfold measureNetworkSpeed. cbv zeta.
  destruct (0 <? length (omap id probes))%nat; simpl; [|done].
  destruct (5 <? length (networkSpeedHistory c ++ _))%nat eqn:E; simpl.
  - rewrite length_app in E. simpl in E.
    destruct (networkSpeedHistory c) as [|x h]; simpl in *.
    + apply Nat.ltb_lt in E. lia.
    + rewrite length_app. simpl. split; [lia|]. by rewrite last_snoc.
  - apply Nat.ltb_ge in E. split; [done|]. by rewrite last_snoc.
Qed.

(** X19: the speed the client reports is always that of the newest entry
    of its history, which never holds more than 5 measurements; a
    measurement whose probes all fail answers nothing and leaves both
    as they were. *)
Theorem speed_cache_is_coherent (runs : list (list (option Speed) * Z)) c :
  (length (networkSpeedHistory c) <= 5)%nat ->
  lastNetworkSpeed c = fst <$> last (networkSpeedHistory c) ->
  let c' := measure_all average runs c in
  (length (networkSpeedHistory c') <= 5)%nat /\
  lastNetworkSpeed c' = fst <$> last (networkSpeedHistory c') /\
  (Forall (fun r => omap id (fst r) = []) runs -> c' = c).
Proof.
  revert c. induction runs as [|[probes now] runs IH]; intros c Hlen Hlast; simpl.
  { done. }
  destruct (measure_keeps probes now c Hlen Hlast) as (H1 & H2).
  destruct (IH _ H1 H2) as (I1 & I2 & I3). cbv zeta in *.
  split; [done|]. split; [done|].
  intros Hall. apply Forall_cons in Hall as [Hp Hall]. simpl in Hp.
  rewrite (I3 Hall). unfold measureNetworkSpeed. by rewrite Hp.
Qed.

End SpeedFacts.

(** ** An outage and the drain that follows it *)

Lemma replayed_log_live p s : replayed (log_request Live p s) = replayed s.
Proof.
  unfold replayed. simpl. rewrite List.filter_app. simpl. by rewrite app_nil_r.
Qed.

(** A tick of an outage with the local table: one unsent row is added
    under the next id; it holds the heartbeat of the tick, which counts
    the failure itself when the send was rejected. *)
Lemma kept_tick w s :
  localDb s = true -> delivered w = false -> insert_ok w = true ->
  let s' := snd (sendHeartbeat w s) in
  localDb s' = true /\ storeId s' = storeId s /\
  isFirstHeartbeat s' = isFirstHeartbeat s /\
  consecutiveFailures s' = consecutiveFailures s + 1 /\
  next_id s' = next_id s + 1 /\ replayed s' = replayed s /\
  exists r p,
    heartbeat_buffer s' = heartbeat_buffer s ++ [r] /\
    b_id r = next_id s /\ b_sent r = false /\ b_data r = DataValue (Some p) /\
    p_store_id p = Some (storeId s) /\ p_timestamp p = clock s /\
    p_is_startup p = isFirstHeartbeat s /\
    p_consecutive_failures p =
      consecutiveFailures s + (if rejected w then 1 else 0).
Proof.
  intros Hdb Hw Hins. unfold sendHeartbeat, delivered, rejected in *. cbv zeta.
  pose proof (replayed_log_live (createHeartbeatPayload s) s) as Hr.
  destruct (live w) as [status|code resp]; [rewrite Hw|];
    unfold storeHeartbeatLocally; simpl; rewrite Hdb, Hins; simpl;
    (split; [done|]); (split; [done|]); (split; [done|]); (split; [done|]);
    (split; [done|]); (split; [exact Hr|]);
    eexists _, _; (split; [done|]); simpl;
    repeat split; first [done | simpl; lia].
Qed.

Lemma outage_rows ticks s :
  localDb s = true -> forallb kept ticks = true ->
  let s1 := run ticks s in
  localDb s1 = true /\ storeId s1 = storeId s /\
  isFirstHeartbeat s1 = isFirstHeartbeat s /\ replayed s1 = replayed s /\
  exists rows ps,
    heartbeat_buffer s1 = heartbeat_buffer s ++ rows /\
    Forall2 (fun r p => b_data r = DataValue (Some p) /\ b_sent r = false) rows ps /\
    length ps = length ticks /\
    (forall i r, rows !! i = Some r -> b_id r = next_id s + Z.of_nat i) /\
    (forall i p, ps !! i = Some p ->
       exists t w, ticks !! i = Some (t, w) /\
         p_store_id p = Some (storeId s) /\ p_timestamp p = t /\
         p_is_startup p = isFirstHeartbeat s /\
         p_consecutive_failures p =
           consecutiveFailures s + Z.of_nat i + (if rejected w then 1 else 0)).
Proof.
  revert s. induction ticks as [|[t w] ticks IH]; intros s Hdb Hk; simpl.
  { repeat (split; [done|]). exists [], []. rewrite app_nil_r.
    repeat split; try done; constructor. }
  simpl in Hk. apply andb_true_iff in Hk as [Hw Hk].
  unfold kept in Hw. simpl in Hw. apply andb_true_iff in Hw as [Hw Hins].
  apply negb_true_iff in Hw.
  destruct (kept_tick w (set_clock t s) Hdb Hw Hins)
    as (K1 & K2 & K3 & K4 & K5 & K6 & r & p & K7 & K8 & K9 & K10 & P1 & P2 & P3 & P4).
  cbv zeta in *. simpl in K2, K3, K4, K5, K6, K7, K8, P1, P2, P3, P4.
  destruct (IH (snd (sendHeartbeat w (set_clock t s))) K1 Hk)
    as (I1 & I2 & I3 & I4 & rows & ps & I5 & I6 & I7 & I8 & I9).
  split; [done|]. split; [by rewrite I2, K2|]. split; [by rewrite I3, K3|].
  split; [by rewrite I4, K6|].
  exists (r :: rows), (p :: ps).
  split; [by rewrite I5, K7, <- app_assoc|].
  split; [by constructor|]. split; [simpl; by rewrite I7|]. split.
  - intros [|i] r' Hr'; simpl in Hr'.
    + injection Hr' as <-. rewrite K8. lia.
    + rewrite (I8 i r' Hr'), K5. lia.
  - intros [|i] p' Hp'; simpl in Hp'.
    + injection Hp' as <-. exists t, w. repeat split; try done. rewrite P4. lia.
    + destruct (I9 i p' Hp') as (t' & w' & J1 & J2 & J3 & J4 & J5).
      exists t', w'. simpl. repeat split; try congruence. rewrite J5, K4. lia.
Qed.

(** Rows stored one after the other come back in that order. *)
Lemma order_by_id_ascending base rows :
  (forall i r, rows !! i = Some r -> b_id r = base + Z.of_nat i) ->
  order_by_id rows = rows.
Proof.
  revert base. induction rows as [|x rows IH]; intros base Hid; simpl; [done|].
  rewrite (IH (base + 1)).
  - destruct rows as [|y rows]; simpl; [done|].
    pose proof (Hid 0%nat x eq_refl) as Hx. pose proof (Hid 1%nat y eq_refl) as Hy.
    destruct (Z.leb_spec (b_id x) (b_id y)); [done | lia].
  - intros i r Hr. rewrite (Hid (S i) r Hr). lia.
Qed.

(** When every replay is answered with 200 and every mark goes through,
    the drain posts the whole batch and acknowledges all of it. *)
Lemma all_acked w i rows ps :
  Forall2 (fun r p => b_data r = DataValue (Some p) /\ b_sent r = false) rows ps ->
  Forall (fun p => truthy (p_store_id p) = true) ps ->
  (forall j, (j < length rows)%nat ->
     replay w (i + j) = Resolved 200 /\ update_err w (i + j) = None) ->
  let l := processed w true i (map (fun r => (b_id r, b_data r)) rows) in
  posted true l = map (fun p => (Buffered, p)) ps /\
  acked_ids w true l = map b_id rows.
Proof.
  intros H. revert i. induction H as [|r p rows ps [Hd Hs] _ IH]; intros i Ht Hw.
  { done. }
  apply Forall_cons in Ht as [Htp Ht]. cbv zeta. simpl map.
  rewrite processed_cons, posted_cons, acked_ids_cons.
  destruct (Hw 0%nat) as [Hr Hu]; [simpl; lia|]. rewrite Nat.add_0_r in Hr, Hu.
  assert (decode true (b_data r) = Some p) as Hdec
    by (rewrite Hd; unfold decode; by rewrite Htp).
  unfold aborts, acked. cbn [fst snd]. rewrite Hdec, Hr, Hu. simpl.
  destruct (IH (S i) Ht) as (I1 & I2).
  { intros j Hj. replace (S i + j)%nat with (i + S j)%nat by lia.
    apply Hw. simpl. lia. }
  cbv zeta in I1, I2. by rewrite I1, I2.
Qed.

Lemma marked_rows_are_sent ids t :
  Forall (fun r => b_sent r = true \/ In (b_id r) ids) t ->
  List.filter (fun r => negb (b_sent r))
              (fold_left (fun t id => mark_sent id t) ids t) = [].
Proof.
  revert t. induction ids as [|id ids IH]; intros t Hall; simpl.
  - induction Hall as [|r t [Hr|[]] _ IHt]; simpl; [done|]. by rewrite Hr.
  - apply IH. unfold mark_sent. apply Forall_map.
    eapply Forall_impl; [exact Hall|]. intros r [Hr|[Hr|Hr]]; simpl.
    + case_match; simpl; by left.
    + rewrite decide_True by done. by left.
    + case_match; simpl; [by left | by right].
Qed.

(** The drain of a table whose unsent rows are the rows of one outage. *)
Lemma drain_after_outage w s old rows ps base :
  localDb s = true -> select_ok w = true ->
  heartbeat_buffer s = old ++ rows ->
  List.filter (fun r => negb (b_sent r)) old = [] ->
  (length rows <= 10)%nat ->
  Forall2 (fun r p => b_data r = DataValue (Some p) /\ b_sent r = false) rows ps ->
  Forall (fun p => truthy (p_store_id p) = true) ps ->
  (forall i r, rows !! i = Some r -> b_id r = base + Z.of_nat i) ->
  (forall j, (j < length rows)%nat ->
     replay w j = Resolved 200 /\ update_err w j = None) ->
  replayed (sendBufferedHeartbeats w s) = replayed s ++ ps /\
  unsent (sendBufferedHeartbeats w s) = [].
Proof.
  intros Hdb Hsel Hb Hold Hlen Hrows Ht Hid Hw.
  assert (List.filter (fun r => negb (b_sent r)) rows = rows) as Hun.
  { clear -Hrows. induction Hrows as [|r p rows ps [_ Hs] _ IH]; simpl; [done|].
    by rewrite Hs, IH. }
  unfold sendBufferedHeartbeats, peek, select_unsent. rewrite Hdb, Hsel, Hb.
  rewrite List.filter_app, Hold, Hun. simpl.
  rewrite (order_by_id_ascending base rows Hid), take_ge by done.
  destruct (drain_loop_spec w 0%nat (map (fun r => (b_id r, b_data r)) rows) s)
    as (R1 & R2 & _).
  cbv zeta in R1, R2. rewrite Hdb in R1, R2.
  destruct (all_acked w 0%nat rows ps Hrows Ht Hw) as (A1 & A2).
  cbv zeta in A1, A2. rewrite A1 in R1. rewrite A2 in R2.
  split.
  - unfold replayed. rewrite R1, List.filter_app, map_app. f_equal.
    clear. induction ps as [|p ps IH]; simpl; [done | by rewrite IH].
  - unfold unsent. rewrite R2. apply marked_rows_are_sent.
    rewrite Hb. apply Forall_app. split.
    + clear -Hold. induction old as [|r old IH]; [constructor|].
      simpl in Hold. destruct (b_sent r) eqn:E; simpl in Hold; [|done].
      constructor; [by left | by apply IH].
    + apply Forall_forall. intros r Hr. right. by apply in_map, list_elem_of_In.
Qed.

(** X20: an outage is made good by the first heartbeat that gets through.
    With the local table, after at most 10 ticks whose heartbeat failed and
    was stored, a tick that is delivered and whose replays are all
    answered with 200 and marked posts exactly the heartbeats of the
    outage to the buffered endpoint, in order and once; each carries the
    instant of its tick, the startup flag as it stood and the failure
    count of its tick; no unsent row is left. *)
Theorem outage_is_replayed ticks t w s :
  localDb s = true -> unsent s = [] -> truthy (Some (storeId s)) = true ->
  (length ticks <= 10)%nat -> forallb kept ticks = true ->
  delivered w = true -> select_ok w = true ->
  (forall j, (j < length ticks)%nat ->
     replay w j = Resolved 200 /\ update_err w j = None) ->
  let s' := snd (sendHeartbeat w (set_clock t (run ticks s))) in
  unsent s' = [] /\
  exists ps,
    replayed s' = replayed s ++ ps /\ length ps = length ticks /\
    forall i p, ps !! i = Some p ->
      exists ti wi, ticks !! i = Some (ti, wi) /\
        p_store_id p = Some (storeId s) /\ p_timestamp p = ti /\
        p_is_startup p = isFirstHeartbeat s /\
        p_consecutive_failures p =
          consecutiveFailures s + Z.of_nat i + (if rejected wi then 1 else 0).
Proof.
  intros Hdb Hun Hid Hlen Hk Hw Hsel Hrep. cbv zeta.
  destruct (outage_rows ticks s Hdb Hk)
    as (O1 & O2 & O3 & O4 & rows & ps & O5 & O6 & O7 & O8 & O9).
  cbv zeta in *.
  assert (length rows = length ps) as Hrl by (by eapply Forall2_length).
  unfold sendHeartbeat, delivered in *. cbv zeta.
  destruct (live w) as [status|code resp]; [|done]. rewrite Hw. simpl.
  match goal with |- context [sendBufferedHeartbeats w ?s0] =>
    destruct (drain_after_outage w s0 (heartbeat_buffer s) rows ps (next_id s))
      as (D1 & D2) end; simpl; try done.
  - lia.
  - apply Forall_forall. intros p Hp.
    apply list_elem_of_lookup in Hp as (i & Hp).
    destruct (O9 i p Hp) as (_ & _ & _ & -> & _). done.
  - intros j Hj. apply Hrep. lia.
  - split; [done|]. exists ps. split; [|done].
    rewrite D1. f_equal. rewrite <- O4.
    unfold replayed. simpl. rewrite List.filter_app. simpl. by rewrite app_nil_r.
Qed.

(** X21: when the local table refuses every [INSERT] of an outage, the
    outage is lost: nothing is stored, in the table or in the array in
    memory, which is not used as a fallback, and nothing is replayed. *)
Theorem failing_table_loses_outage ticks s :
  localDb s = true ->
  forallb (fun tw => negb (delivered (snd tw)) && negb (insert_ok (snd tw))) ticks = true ->
  heartbeat_buffer (run ticks s) = heartbeat_buffer s /\
  heartbeatBuffer (run ticks s) = heartbeatBuffer s /\
  replayed (run ticks s) = replayed s /\
  consecutiveFailures (run ticks s) = consecutiveFailures s + Z.of_nat (length ticks).
Proof.
  revert s. induction ticks as [|[t w] ticks IH]; intros s Hdb Hall; simpl.
  { repeat split; auto. lia. }
  simpl in Hall. apply andb_true_iff in Hall as [Hw Hall].
  apply andb_true_iff in Hw as [Hw Hins].
  apply negb_true_iff in Hw. apply negb_true_iff in Hins.
  assert (let s1 := snd (sendHeartbeat w (set_clock t s)) in
          localDb s1 = true /\ heartbeat_buffer s1 = heartbeat_buffer s /\
          heartbeatBuffer s1 = heartbeatBuffer s /\ replayed s1 = replayed s /\
          consecutiveFailures s1 = consecutiveFailures s + 1)
    as (K1 & K2 & K3 & K4 & K5).
  { cbv zeta. unfold sendHeartbeat, delivered in *. cbv zeta.
    pose proof (replayed_log_live (createHeartbeatPayload (set_clock t s))
                  (set_clock t s)) as Hr.
    destruct (live w) as [status|code resp]; [rewrite Hw|];
      unfold storeHeartbeatLocally; simpl; rewrite Hdb, Hins; simpl;
      repeat split; first [done | exact Hr]. }
  destruct (IH _ K1 Hall) as (I1 & I2 & I3 & I4).
  rewrite I1, I2, I3, I4, K2, K3, K4, K5. repeat split; auto. lia.
Qed.

(** ** Instances *)

(** X16 instance: a failed send, a cleanup and the final drain. *)
Lemma memory_buffer_is_bounded_witness :
  localDb client_mem = false /\
  (length (default [] (heartbeatBuffer client_mem)) <= 100)%nat /\
  exists n, getBufferStatus world_up (run_actions fail_clean_stop client_mem)
              = (false, n, 0%nat) /\ (n <= 100)%nat.
Proof.
  assert (localDb client_mem = false) as H1 by reflexivity.
  assert ((length (default [] (heartbeatBuffer client_mem)) <= 100)%nat) as H2
    by (simpl; lia).
  split; [exact H1|]. split; [exact H2|].
  exact (memory_buffer_is_bounded fail_clean_stop world_up client_mem H1 H2).
Defined.

(** X17 instance: one more heartbeat for an array of 100. *)
Lemma memory_overflow_drops_oldest_witness :
  localDb client_full = false /\
  heartbeatBuffer client_full = Some (repeat item_0 100) /\
  length (repeat item_0 100) = 100%nat /\
  (length <$> heartbeatBuffer
     (storeHeartbeatLocally world_down (createHeartbeatPayload client_full) client_full))
    = Some 50%nat.
Proof.
  assert (localDb client_full = false) as H1 by reflexivity.
  assert (heartbeatBuffer client_full = Some (repeat item_0 100)) as H2 by reflexivity.
  assert (length (repeat item_0 100) = 100%nat) as H3 by reflexivity.
  split; [exact H1|]. split; [exact H2|]. split; [exact H3|].
  rewrite (memory_overflow_drops_oldest world_down (createHeartbeatPayload client_full)
             client_full (repeat item_0 100) H1 H2 H3).
  reflexivity.
Defined.

(** X18 instance: a failure, a success and an outage of two ticks. *)
Lemma failures_count_since_last_success_witness :
  delivered world_up = true /\ undelivered outage = true /\
  consecutiveFailures
    (run ([(500, world_down)] ++ (700, world_up) :: outage) (new_client "A" true 0 0))
    = 2 /\
  lastSuccessfulConnection
    (run ([(500, world_down)] ++ (700, world_up) :: outage) (new_client "A" true 0 0))
    = Some 700.
Proof.
  assert (delivered world_up = true) as H1 by reflexivity.
  assert (undelivered outage = true) as H2 by reflexivity.
  split; [exact H1|]. split; [exact H2|].
  exact (failures_count_since_last_success [(500, world_down)] 700 world_up outage
           (new_client "A" true 0 0) H1 H2).
Defined.

(** X19 instance: a measurement with one sample, then one without. *)
Lemma speed_cache_is_coherent_witness :
  let c := {| lastNetworkSpeed := None; networkSpeedHistory := [] |} in
  let c' := measure_all mean two_measurements c in
  (length (networkSpeedHistory c) <= 5)%nat /\
  lastNetworkSpeed c = fst <$> last (networkSpeedHistory c) /\
  (length (networkSpeedHistory c') <= 5)%nat /\
  lastNetworkSpeed c' = fst <$> last (networkSpeedHistory c').
Proof.
  assert ((length (networkSpeedHistory
                     {| lastNetworkSpeed := @None Z; networkSpeedHistory := [] |}) <= 5)%nat)
    as H1 by (simpl; lia).
  assert (lastNetworkSpeed {| lastNetworkSpeed := @None Z; networkSpeedHistory := [] |} =
          fst <$> last (networkSpeedHistory
                          {| lastNetworkSpeed := @None Z; networkSpeedHistory := [] |}))
    as H2 by reflexivity.
  split; [exact H1|]. split; [exact H2|].
  destruct (speed_cache_is_coherent mean two_measurements _ H1 H2) as (K1 & K2 & _).
  split; [exact K1 | exact K2].
Defined.

(** X20 instance: an outage of two ticks, then a tick with everything up. *)
Lemma outage_is_replayed_witness :
  let s := new_client "A" true 0 0 in
  let s' := snd (sendHeartbeat world_up (set_clock 3000 (run outage s))) in
  localDb s = true /\ unsent s = [] /\ truthy (Some (storeId s)) = true /\
  (length outage <= 10)%nat /\ forallb kept outage = true /\
  delivered world_up = true /\ select_ok world_up = true /\
  (forall j, (j < length outage)%nat ->
     replay world_up j = Resolved 200 /\ update_err world_up j = None) /\
  unsent s' = [] /\
  exists ps, replayed s' = replayed s ++ ps /\ length ps = length outage.
Proof.
  assert (localDb (new_client "A" true 0 0) = true) as H1 by reflexivity.
  assert (unsent (new_client "A" true 0 0) = []) as H2 by reflexivity.
  assert (truthy (Some (storeId (new_client "A" true 0 0))) = true) as H3
    by reflexivity.
  assert ((length outage <= 10)%nat) as H4 by (simpl; lia).
  assert (forallb kept outage = true) as H5 by reflexivity.
  assert (delivered world_up = true) as H6 by reflexivity.
  assert (select_ok world_up = true) as H7 by reflexivity.
  assert (forall j, (j < length outage)%nat ->
            replay world_up j = Resolved 200 /\ update_err world_up j = None) as H8
    by (intros j _; split; reflexivity).
  split; [exact H1|]. split; [exact H2|]. split; [exact H3|]. split; [exact H4|].
  split; [exact H5|]. split; [exact H6|]. split; [exact H7|]. split; [exact H8|].
  destruct (outage_is_replayed outage 3000 world_up (new_client "A" true 0 0)
              H1 H2 H3 H4 H5 H6 H7 H8) as (Hu & ps & Hr & Hl & _).
  split; [exact Hu|]. exists ps. split; [exact Hr | exact Hl].
Defined.

(** X21 instance: two ticks with the server down and the table refusing. *)
Lemma failing_table_loses_outage_witness :
  let ticks := [(1000, world_down_no_table); (2000, world_down_no_table)] in
  let s := new_client "A" true 0 0 in
  localDb s = true /\
  forallb (fun tw => negb (delivered (snd tw)) && negb (insert_ok (snd tw))) ticks = true /\
  heartbeat_buffer (run ticks s) = [] /\
  heartbeatBuffer (run ticks s) = None /\
  replayed (run ticks s) = [] /\
  consecutiveFailures (run ticks s) = 2.
Proof.
  assert (localDb (new_client "A" true 0 0) = true) as H1 by reflexivity.
  assert (forallb (fun tw => negb (delivered (snd tw)) && negb (insert_ok (snd tw)))
            [(1000, world_down_no_table); (2000, world_down_no_table)] = true) as H2
    by reflexivity.
  split; [exact H1|]. split; [exact H2|].
  exact (failing_table_loses_outage
           [(1000, world_down_no_table); (2000, world_down_no_table)]
           (new_client "A" true 0 0) H1 H2).
Defined.

End ClientExtraProofs.
